(** * erp_vetmed: categories and products of the admin panel

    A shallow embedding of
      - the server actions of [app/actions/categories.ts] and
        [app/actions/products.ts],
      - the SQL schema and seed script the actions run against,
      - the category and product dialogs, and
      - the categories list page,
    followed by the properties of the written specification that concern
    them.

    JavaScript objects are association lists from keys to values, [FormData]
    is the ordered list of its entries, a server action is a state
    transformer over the data base it talks to, and a React component is its
    state record together with its event handlers. *)

From Stdlib Require Import String Ascii List ZArith Bool Lia.
From Stdlib Require Import Sorted Permutation.
Import ListNotations.
Open Scope string_scope.
Open Scope list_scope.
Set Warnings "-register-all".

(* ================================================================= *)
(** ** The platform underneath the code *)

(** What the repository takes from the JavaScript engine and from the wire
    between PostgREST and PostgreSQL.  None of it is defined in the
    repository, so the development is parametric in it. *)
Class Platform := {
  (** IEEE doubles of the JavaScript engine. *)
  number : Type;
  parseFloat : string -> number;
  parseInt : string -> number;
  (** [ToBoolean] on a number: false for [0] and [NaN]. *)
  number_truthy : number -> bool;
  (** [String.prototype.toLowerCase]. *)
  toLowerCase : string -> string;
  (** The cast of a JSON number to [DECIMAL(10, 2)], in hundredths:
      [None] when the cast fails; [Some None] for a number that
      [JSON.stringify] writes as [null]. *)
  numeric_in : number -> option (option Z);
  (** The same for [INTEGER]. *)
  int4_in : number -> option (option Z);
  (** The JSON number PostgREST writes for a [DECIMAL(10, 2)] in hundredths,
      and for an [INTEGER]. *)
  numeric_out : Z -> number;
  int4_out : Z -> number;
  (** Text form of a [TIMESTAMPTZ] (microseconds since the epoch) and the
      cast back from text. *)
  timestamptz_out : Z -> string;
  timestamptz_in : string -> option Z;
  (** The collation order [ORDER BY] uses on [TEXT]. *)
  text_le : string -> string -> bool
}.

(* ================================================================= *)
(** ** JavaScript values *)

Section Js.
Context {P : Platform}.

Inductive JsValue : Type :=
| JNull
| JStr (s : string)
| JNum (n : number)
| JObj (o : list (string * JsValue)).

Definition JsObject : Type := list (string * JsValue).

(** [o[k]]; [None] is [undefined]. *)
Fixpoint js_get (k : string) (o : JsObject) : option JsValue :=
  match o with
  | [] => None
  | (k', v) :: o' => if String.eqb k k' then Some v else js_get k o'
  end.

(** [{...o, k: v}]: an existing key keeps its place, a new one goes last. *)
Fixpoint js_set (k : string) (v : JsValue) (o : JsObject) : JsObject :=
  match o with
  | [] => [(k, v)]
  | (k', v') :: o' =>
      if String.eqb k k' then (k, v) :: o' else (k', v') :: js_set k v o'
  end.

Definition js_keys (o : JsObject) : list string := map fst o.

(** [ToBoolean]. *)
Definition string_truthy (s : string) : bool :=
  match s with EmptyString => false | String _ _ => true end.

Definition truthy (v : JsValue) : bool :=
  match v with
  | JNull => false
  | JStr s => string_truthy s
  | JNum n => number_truthy n
  | JObj _ => true
  end.

(** A value of type [string | null]. *)
Definition nullable (s : option string) : JsValue :=
  match s with Some s => JStr s | None => JNull end.

(** [s || d] for [s : string | null]. *)
Definition or_else (s : option string) (d : option string) : option string :=
  match s with
  | Some s' => if string_truthy s' then s else d
  | None => d
  end.

(** [String(s)] for [s : string | null], the conversion [parseFloat] and
    [parseInt] apply to their argument. *)
Definition ToString (s : option string) : string :=
  match s with Some s => s | None => "null" end.

(** [s.includes(needle)]. *)
Fixpoint starts_with (p s : string) : bool :=
  match p, s with
  | EmptyString, _ => true
  | String a p', String b s' => Ascii.eqb a b && starts_with p' s'
  | String _ _, EmptyString => false
  end.

Fixpoint includes (s needle : string) : bool :=
  starts_with needle s ||
  match s with
  | EmptyString => false
  | String _ s' => includes s' needle
  end.

(** *** FormData *)

(** The entries of a form, in document order. *)
Definition FormData : Type := list (string * string).

(** [formData.get(k)]: the first entry named [k], or [null]. *)
Fixpoint FormData_get (k : string) (fd : FormData) : option string :=
  match fd with
  | [] => None
  | (k', v) :: fd' => if String.eqb k k' then Some v else FormData_get k fd'
  end.

End Js.

Arguments JsValue {_}.
Arguments JsObject {_}.

(* ================================================================= *)
(** ** The PostgREST client *)

Record PostgrestError := {
  message : string;
  code : string
}.

Section Client.
Context {P : Platform}.

(** The requests the actions build with the query builder. *)
Inductive Query : Type :=
(** [from(t).insert([row])] *)
| q_insert (table : string) (row : JsObject)
(** [from(t).update(values).eq(column, value)] *)
| q_update (table : string) (values : JsObject) (column value : string)
(** [from(t).delete().eq(column, value)] *)
| q_delete (table : string) (column value : string)
(** [from(t).select(columns).order(by, { ascending })] *)
| q_select (table columns : string) (by_column : string) (ascending : bool).

Record PostgrestResponse := {
  data : option (list JsObject);
  error : option PostgrestError
}.

(** A client over a backend with states [S]: awaiting a request gives the
    response and the next state of the backend. *)
Class SupabaseClient (S : Type) := {
  await : Query -> S -> PostgrestResponse * S
}.

(** What a server action does besides talking to the data base. *)
Inductive Effect : Type :=
| RevalidatePath (path : string)
| ConsoleError (label : string) (e : PostgrestError).

Record World (S : Type) := {
  backend : S;
  effects : list Effect
}.

Definition Action (S A : Type) : Type := World S -> A * World S.

Definition ret {S A} (a : A) : Action S A := fun w => (a, w).

Definition bind {S A B} (m : Action S A) (k : A -> Action S B) : Action S B :=
  fun w => let (a, w') := m w in k a w'.

Definition query {S} {C : SupabaseClient S} (q : Query)
  : Action S PostgrestResponse :=
  fun w =>
    let (r, s') := await q (backend S w) in
    (r, {| backend := s'; effects := effects S w |}).

Definition emit {S} (e : Effect) : Action S unit :=
  fun w => (tt, {| backend := backend S w; effects := effects S w ++ [e] |}).

Definition revalidatePath {S} (path : string) : Action S unit :=
  emit (RevalidatePath path).

Definition console_error {S} (label : string) (e : PostgrestError)
  : Action S unit :=
  emit (ConsoleError label e).

End Client.

Arguments backend {_} _.
Arguments effects {_} _.

Notation "x <- m ;; k" := (bind m (fun x => k))
  (at level 61, m at next level, right associativity).
Notation "m ;;; k" := (bind m (fun _ => k))
  (at level 61, right associativity).

(* ================================================================= *)
(** ** Server actions *)

(** The [{ success, error }] pair every mutation returns. *)
Module MutationResult.
Record t := { success : bool; error : option string }.
End MutationResult.

(** The [{ categories, error }] pair of [getCategories] and
    [getCategoriesForSelect]. *)
Module CategoriesResult.
Record t {P : Platform} := { categories : list JsObject; error : option string }.
End CategoriesResult.

(** The [{ products, error }] pair of [getProducts]. *)
Module ProductsResult.
Record t {P : Platform} := { products : list JsObject; error : option string }.
End ProductsResult.

Section Actions.
Context {P : Platform} {S : Type} {C : SupabaseClient S}.

Definition succeeded : MutationResult.t :=
  {| MutationResult.success := true; MutationResult.error := None |}.

Definition failed (e : PostgrestError) : MutationResult.t :=
  {| MutationResult.success := false;
     MutationResult.error := Some (message e) |}.

(** *** app/actions/categories.ts *)

(** An answer without an error carries the rows; [data as Category[]] is
    read as no rows should it be [null]. *)
Definition getCategories : Action S CategoriesResult.t :=
  r <- query (q_select "categories" "*" "name" true) ;;
  match error r with
  | Some e =>
      ret {| CategoriesResult.categories := [];
             CategoriesResult.error := Some (message e) |}
  | None =>
      ret {| CategoriesResult.categories :=
               match data r with Some rows => rows | None => [] end;
             CategoriesResult.error := None |}
  end.

(** The object [createCategory] inserts. *)
Definition createCategory_values (formData : FormData) : JsObject :=
  [ ("name", nullable (FormData_get "name" formData));
    ("description",
      nullable (or_else (FormData_get "description" formData) None)) ].

Definition createCategory (formData : FormData) : Action S MutationResult.t :=
  r <- query (q_insert "categories" (createCategory_values formData)) ;;
  match error r with
  | Some e => ret (failed e)
  | None => ret succeeded
  end.

(** The object [updateCategory] sends; [now] is what
    [new Date().toISOString()] gives at the call. *)
Definition updateCategory_values (now : string) (formData : FormData)
  : JsObject :=
  [ ("name", nullable (FormData_get "name" formData));
    ("description",
      nullable (or_else (FormData_get "description" formData) None));
    ("updated_at", JStr now) ].

Definition updateCategory (now : string) (id : string) (formData : FormData)
  : Action S MutationResult.t :=
  r <- query (q_update "categories" (updateCategory_values now formData)
                "id" id) ;;
  match error r with
  | Some e => ret (failed e)
  | None => ret succeeded
  end.

Definition deleteCategory (id : string) : Action S MutationResult.t :=
  r <- query (q_delete "categories" "id" id) ;;
  match error r with
  | Some e => ret (failed e)
  | None => ret succeeded
  end.

(** *** app/actions/products.ts *)

(** [product.categories?.name || null] *)
Definition category_name_of (product : JsObject) : JsValue :=
  match js_get "categories" product with
  | Some (JObj c) =>
      match js_get "name" c with
      | Some v => if truthy v then v else JNull
      | None => JNull
      end
  | _ => JNull
  end.

(** [{ ...product, category_id: product.category_id, category_name: ... }];
    a missing [category_id] would be written as [undefined], which JSON
    and the consumers of the row read as absent. *)
Definition with_category_name (product : JsObject) : JsObject :=
  let o :=
    match js_get "category_id" product with
    | Some v => js_set "category_id" v product
    | None => product
    end in
  js_set "category_name" (category_name_of product) o.

Definition getProducts : Action S ProductsResult.t :=
  r <- query (q_select "products" "*, categories (id, name)"
                "created_at" false) ;;
  match error r with
  | Some e =>
      console_error "Error fetching products:" e ;;;
      ret {| ProductsResult.products := [];
             ProductsResult.error := Some (message e) |}
  | None =>
      ret {| ProductsResult.products :=
               map with_category_name
                 (match data r with Some rows => rows | None => [] end);
             ProductsResult.error := None |}
  end.

Definition getCategoriesForSelect : Action S CategoriesResult.t :=
  r <- query (q_select "categories" "id, name" "name" true) ;;
  match error r with
  | Some e =>
      console_error "Error fetching categories:" e ;;;
      ret {| CategoriesResult.categories := [];
             CategoriesResult.error := Some (message e) |}
  | None =>
      ret {| CategoriesResult.categories :=
               match data r with Some rows => rows | None => [] end;
             CategoriesResult.error := None |}
  end.

(** The [product] object [createProduct] and [updateProduct] build from
    the form. *)
Definition product_values (formData : FormData) : JsObject :=
  [ ("name", nullable (FormData_get "name" formData));
    ("description", nullable (FormData_get "description" formData));
    ("category", nullable (FormData_get "category" formData));
    ("sku", nullable (FormData_get "sku" formData));
    ("price", JNum (parseFloat (ToString (FormData_get "price" formData))));
    ("cost",
      match FormData_get "cost" formData with
      | Some c => if string_truthy c then JNum (parseFloat c) else JNull
      | None => JNull
      end);
    ("stock", JNum (parseInt (ToString (FormData_get "stock" formData))));
    ("min_stock",
      JNum (parseInt (ToString (FormData_get "min_stock" formData))));
    ("unit", nullable (or_else (FormData_get "unit" formData) (Some "unit")));
    ("status", nullable (FormData_get "status" formData)) ].

Definition createProduct (formData : FormData) : Action S MutationResult.t :=
  r <- query (q_insert "products" (product_values formData)) ;;
  match error r with
  | Some e => ret (failed e)
  | None => revalidatePath "/admin/products" ;;; ret succeeded
  end.

Definition updateProduct (id : string) (formData : FormData)
  : Action S MutationResult.t :=
  r <- query (q_update "products" (product_values formData) "id" id) ;;
  match error r with
  | Some e => ret (failed e)
  | None => revalidatePath "/admin/products" ;;; ret succeeded
  end.

Definition deleteProduct (id : string) : Action S MutationResult.t :=
  r <- query (q_delete "products" "id" id) ;;
  match error r with
  | Some e => ret (failed e)
  | None => revalidatePath "/admin/products" ;;; ret succeeded
  end.

End Actions.

(* ================================================================= *)
(** ** The schema *)

(** The second schema script of the repository (the one with a
    [categories] table): tables as lists of rows in insertion order, a
    nullable column as an [option], [DECIMAL(10, 2)] in hundredths,
    [TIMESTAMPTZ] in microseconds.  Identifiers are UUID text; the cast of
    a text to [UUID] is not modelled. *)

Definition uuid : Type := string.
Definition timestamptz : Type := Z.

Module Customers.
Record row := {
  id : uuid;
  name : string;
  email : option string;
  phone : option string;
  address : option string;
  city : option string;
  state : option string;
  zip_code : option string;
  notes : option string;
  status : option string;
  created_at : option timestamptz;
  updated_at : option timestamptz
}.
End Customers.

Module Categories.
Record row := {
  id : uuid;
  name : string;
  description : option string;
  created_at : option timestamptz;
  updated_at : option timestamptz
}.
End Categories.

Module Products.
Record row := {
  id : uuid;
  name : string;
  description : option string;
  category_id : option uuid;
  sku : string;
  price : Z;
  cost : option Z;
  stock : option Z;
  min_stock : option Z;
  unit : option string;
  status : option string;
  created_at : option timestamptz;
  updated_at : option timestamptz
}.
End Products.

Module Orders.
Record row := {
  id : uuid;
  order_number : string;
  customer_id : option uuid;
  total_amount : Z;
  discount : option Z;
  tax : option Z;
  status : option string;
  payment_status : option string;
  payment_method : option string;
  notes : option string;
  created_at : option timestamptz;
  updated_at : option timestamptz
}.
End Orders.

Module OrderItems.
Record row := {
  id : uuid;
  order_id : uuid;
  product_id : option uuid;
  product_name : string;
  quantity : Z;
  unit_price : Z;
  subtotal : Z;
  created_at : option timestamptz
}.
End OrderItems.

Record Db := {
  customers : list Customers.row;
  categories : list Categories.row;
  products : list Products.row;
  orders : list Orders.row;
  order_items : list OrderItems.row
}.

(** The data base server: the tables, and what it draws from outside
    itself, [NOW()] per statement and [gen_random_uuid()] per draw. *)
Record Server := {
  db : Db;
  clock : nat -> timestamptz;
  statements : nat;
  uuids : nat -> uuid;
  drawn : nat
}.

Definition NOW (s : Server) : timestamptz := clock s (statements s).

Definition gen_random_uuid (s : Server) : uuid := uuids s (drawn s).

(** The outcome of a statement: the new tables, or the error that aborted
    it and left the tables as they were. *)
Inductive outcome : Type :=
| Done (d : Db)
| Raise (e : PostgrestError).

Definition not_null_violation (column : string) : PostgrestError :=
  {| message := ("null value in column " ++ column ++
                " violates not-null constraint")%string;
     code := "23502" |}.

Definition check_violation (constraint : string) : PostgrestError :=
  {| message := ("new row violates check constraint " ++ constraint)%string;
     code := "23514" |}.

Definition unique_violation (constraint : string) : PostgrestError :=
  {| message := ("duplicate key value violates unique constraint " ++
                constraint)%string;
     code := "23505" |}.

Definition foreign_key_violation (constraint : string) : PostgrestError :=
  {| message := ("insert or update violates foreign key constraint " ++
                constraint)%string;
     code := "23503" |}.

Definition invalid_input (column : string) : PostgrestError :=
  {| message := ("invalid input syntax for column " ++ column)%string;
     code := "22P02" |}.

(** PostgREST's answer to a key of the body that is no column. *)
Definition column_not_found (column table : string) : PostgrestError :=
  {| message := ("Could not find the " ++ column ++ " column of " ++ table ++
                " in the schema cache")%string;
     code := "PGRST204" |}.

Definition not_served (what : string) : PostgrestError :=
  {| message := ("request outside the ones the actions issue: " ++ what)%string;
     code := "PGRST000" |}.

(** [x >= 0] on a nullable column: a check passes on [NULL]. *)
Definition nonneg (x : option Z) : bool :=
  match x with Some z => (0 <=? z)%Z | None => true end.

Definition one_of (allowed : list string) (x : option string) : bool :=
  match x with
  | Some s => existsb (String.eqb s) allowed
  | None => true
  end.

Definition option_eqb (x : option string) (y : string) : bool :=
  match x with Some s => String.eqb s y | None => false end.

(** *** Row constraints *)

(** The first constraint a category row breaks against the rows [others]
    already in the table. *)
Definition category_violation (others : list Categories.row)
  (r : Categories.row) : option PostgrestError :=
  if existsb (fun o => String.eqb (Categories.id o) (Categories.id r)) others
  then Some (unique_violation "categories_pkey")
  else if existsb (fun o => String.eqb (Categories.name o) (Categories.name r))
            others
  then Some (unique_violation "categories_name_key")
  else None.

Definition product_violation (d : Db) (others : list Products.row)
  (r : Products.row) : option PostgrestError :=
  if negb (0 <=? Products.price r)%Z
  then Some (check_violation "products_price_check")
  else if negb (nonneg (Products.cost r))
  then Some (check_violation "products_cost_check")
  else if negb (nonneg (Products.stock r))
  then Some (check_violation "products_stock_check")
  else if negb (one_of ["active"; "inactive"; "discontinued"]
                  (Products.status r))
  then Some (check_violation "products_status_check")
  else if existsb (fun o => String.eqb (Products.id o) (Products.id r)) others
  then Some (unique_violation "products_pkey")
  else if existsb (fun o => String.eqb (Products.sku o) (Products.sku r))
            others
  then Some (unique_violation "products_sku_key")
  else
    match Products.category_id r with
    | Some c =>
        if existsb (fun o => String.eqb (Categories.id o) c) (categories d)
        then None
        else Some (foreign_key_violation "products_category_id_fkey")
    | None => None
    end.

Definition order_violation (d : Db) (others : list Orders.row)
  (r : Orders.row) : option PostgrestError :=
  if negb (0 <=? Orders.total_amount r)%Z
  then Some (check_violation "orders_total_amount_check")
  else if negb (nonneg (Orders.discount r))
  then Some (check_violation "orders_discount_check")
  else if negb (nonneg (Orders.tax r))
  then Some (check_violation "orders_tax_check")
  else if negb (one_of ["pending"; "processing"; "completed"; "cancelled"]
                  (Orders.status r))
  then Some (check_violation "orders_status_check")
  else if negb (one_of ["unpaid"; "partial"; "paid"; "refunded"]
                  (Orders.payment_status r))
  then Some (check_violation "orders_payment_status_check")
  else if existsb (fun o => String.eqb (Orders.id o) (Orders.id r)) others
  then Some (unique_violation "orders_pkey")
  else if existsb
            (fun o => String.eqb (Orders.order_number o) (Orders.order_number r))
            others
  then Some (unique_violation "orders_order_number_key")
  else
    match Orders.customer_id r with
    | Some c =>
        if existsb (fun o => String.eqb (Customers.id o) c) (customers d)
        then None
        else Some (foreign_key_violation "orders_customer_id_fkey")
    | None => None
    end.

(** *** Triggers and referential actions *)

(** [update_updated_at_column], the [BEFORE UPDATE ... FOR EACH ROW]
    trigger of [categories] and of [products]. *)
Definition update_categories_updated_at (now : timestamptz)
  (NEW : Categories.row) : Categories.row :=
  {| Categories.id := Categories.id NEW;
     Categories.name := Categories.name NEW;
     Categories.description := Categories.description NEW;
     Categories.created_at := Categories.created_at NEW;
     Categories.updated_at := Some now |}.

Definition update_products_updated_at (now : timestamptz)
  (NEW : Products.row) : Products.row :=
  {| Products.id := Products.id NEW;
     Products.name := Products.name NEW;
     Products.description := Products.description NEW;
     Products.category_id := Products.category_id NEW;
     Products.sku := Products.sku NEW;
     Products.price := Products.price NEW;
     Products.cost := Products.cost NEW;
     Products.stock := Products.stock NEW;
     Products.min_stock := Products.min_stock NEW;
     Products.unit := Products.unit NEW;
     Products.status := Products.status NEW;
     Products.created_at := Products.created_at NEW;
     Products.updated_at := Some now |}.

Definition set_category_id (c : option uuid) (r : Products.row)
  : Products.row :=
  {| Products.id := Products.id r;
     Products.name := Products.name r;
     Products.description := Products.description r;
     Products.category_id := c;
     Products.sku := Products.sku r;
     Products.price := Products.price r;
     Products.cost := Products.cost r;
     Products.stock := Products.stock r;
     Products.min_stock := Products.min_stock r;
     Products.unit := Products.unit r;
     Products.status := Products.status r;
     Products.created_at := Products.created_at r;
     Products.updated_at := Products.updated_at r |}.

(** [category_id ... REFERENCES categories(id) ON DELETE SET NULL]: the
    action is an [UPDATE] of the referencing rows, so their
    [BEFORE UPDATE] trigger runs on them. *)
Definition category_deleted (now : timestamptz) (category : uuid)
  (r : Products.row) : Products.row :=
  if option_eqb (Products.category_id r) category
  then update_products_updated_at now (set_category_id None r)
  else r.

(** [product_id ... REFERENCES products(id) ON DELETE SET NULL];
    [order_items] has no trigger. *)
Definition product_deleted (product : uuid) (r : OrderItems.row)
  : OrderItems.row :=
  if option_eqb (OrderItems.product_id r) product
  then {| OrderItems.id := OrderItems.id r;
          OrderItems.order_id := OrderItems.order_id r;
          OrderItems.product_id := None;
          OrderItems.product_name := OrderItems.product_name r;
          OrderItems.quantity := OrderItems.quantity r;
          OrderItems.unit_price := OrderItems.unit_price r;
          OrderItems.subtotal := OrderItems.subtotal r;
          OrderItems.created_at := OrderItems.created_at r |}
  else r.

(** *** Statements on rows *)

Definition with_categories (l : list Categories.row) (d : Db) : Db :=
  {| customers := customers d; categories := l; products := products d;
     orders := orders d; order_items := order_items d |}.

Definition with_products (l : list Products.row) (d : Db) : Db :=
  {| customers := customers d; categories := categories d; products := l;
     orders := orders d; order_items := order_items d |}.

Definition with_orders (l : list Orders.row) (d : Db) : Db :=
  {| customers := customers d; categories := categories d;
     products := products d; orders := l; order_items := order_items d |}.

Definition with_order_items (l : list OrderItems.row) (d : Db) : Db :=
  {| customers := customers d; categories := categories d;
     products := products d; orders := orders d; order_items := l |}.

(** [INSERT INTO categories ... VALUES (r)] *)
Definition insert_category (r : Categories.row) (d : Db) : outcome :=
  match category_violation (categories d) r with
  | Some e => Raise e
  | None => Done (with_categories (categories d ++ [r]) d)
  end.

(** [INSERT INTO products ... VALUES (r)] *)
Definition insert_product (r : Products.row) (d : Db) : outcome :=
  match product_violation d (products d) r with
  | Some e => Raise e
  | None => Done (with_products (products d ++ [r]) d)
  end.

(** [INSERT INTO orders ... VALUES (r)] *)
Definition insert_order (r : Orders.row) (d : Db) : outcome :=
  match order_violation d (orders d) r with
  | Some e => Raise e
  | None => Done (with_orders (orders d ++ [r]) d)
  end.

(** [DELETE FROM categories WHERE id = category] *)
Definition delete_category (now : timestamptz) (category : uuid) (d : Db)
  : outcome :=
  if existsb (fun c => String.eqb (Categories.id c) category) (categories d)
  then
    Done (with_products (map (category_deleted now category) (products d))
           (with_categories
              (filter (fun c => negb (String.eqb (Categories.id c) category))
                 (categories d)) d))
  else Done d.

(** [DELETE FROM products WHERE id = product] *)
Definition delete_product (product : uuid) (d : Db) : outcome :=
  if existsb (fun p => String.eqb (Products.id p) product) (products d)
  then
    Done (with_order_items (map (product_deleted product) (order_items d))
           (with_products
              (filter (fun p => negb (String.eqb (Products.id p) product))
                 (products d)) d))
  else Done d.

(** [UPDATE ... WHERE]: the rows are visited in table order, a visited row
    that matches is replaced by its new version, which is checked against
    all other rows as they are at that moment. *)
Fixpoint update_where {R : Type} (matches : R -> bool)
  (upd : list R -> R -> PostgrestError + R) (visited rest : list R)
  : PostgrestError + list R :=
  match rest with
  | [] => inr visited
  | r :: rest' =>
      if matches r
      then match upd (visited ++ rest') r with
           | inl e => inl e
           | inr r' => update_where matches upd (visited ++ [r']) rest'
           end
      else update_where matches upd (visited ++ [r]) rest'
  end.

(** [ORDER BY]: the sorted permutation of the rows that keeps rows with
    equal keys in table order. *)
Fixpoint insert_sorted {R : Type} (le : R -> R -> bool) (x : R) (l : list R)
  : list R :=
  match l with
  | [] => [x]
  | y :: l' => if le x y then x :: l else y :: insert_sorted le x l'
  end.

Definition order_by {R : Type} (le : R -> R -> bool) (l : list R) : list R :=
  fold_right (insert_sorted le) [] l.

(** Ascending order on a nullable timestamp: [NULL] sorts last, and so
    first when the order is descending. *)
Definition timestamptz_le (x y : option timestamptz) : bool :=
  match x, y with
  | _, None => true
  | None, Some _ => false
  | Some a, Some b => (a <=? b)%Z
  end.

Definition direction {K : Type} (le : K -> K -> bool) (ascending : bool)
  (x y : K) : bool :=
  if ascending then le x y else le y x.

(* ================================================================= *)
(** ** PostgREST over the schema *)

(** What a request body says about one column. *)
Inductive cell (A : Type) : Type :=
| Absent
| Null
| Value (a : A).

Arguments Absent {A}.
Arguments Null {A}.
Arguments Value {A} a.

(** The value a column gets: the one of the body, or [otherwise] (the
    column default on insert, the old value on update) when the body does
    not name the column. *)
Definition assigned {A : Type} (c : cell A) (otherwise : option A)
  : option A :=
  match c with
  | Absent => otherwise
  | Null => None
  | Value a => Some a
  end.

Section Postgrest.
Context {P : Platform}.

(** Casts of a JSON value to a column type; [None] is a failed cast.  The
    actions send strings or [null] for text columns and numbers or [null]
    for numeric ones; the casts PostgreSQL has for other combinations are
    refused here. *)
Definition text_in (v : option JsValue) : option (cell string) :=
  match v with
  | None => Some Absent
  | Some JNull => Some Null
  | Some (JStr s) => Some (Value s)
  | Some _ => None
  end.

Definition number_in (cast : number -> option (option Z))
  (v : option JsValue) : option (cell Z) :=
  match v with
  | None => Some Absent
  | Some JNull => Some Null
  | Some (JNum n) =>
      match cast n with
      | Some (Some z) => Some (Value z)
      | Some None => Some Null
      | None => None
      end
  | Some _ => None
  end.

Definition time_in (v : option JsValue) : option (cell timestamptz) :=
  match v with
  | None => Some Absent
  | Some JNull => Some Null
  | Some (JStr s) =>
      match timestamptz_in s with
      | Some t => Some (Value t)
      | None => None
      end
  | Some _ => None
  end.

(** The first key of a body that is no column of the table. *)
Definition unknown_column (columns : list string) (body : JsObject)
  : option string :=
  find (fun k => negb (existsb (String.eqb k) columns)) (js_keys body).

(** *** categories *)

Definition categories_columns : list string :=
  ["id"; "name"; "description"; "created_at"; "updated_at"].

Record CategoryCells := {
  c_id : cell uuid;
  c_name : cell string;
  c_description : cell string;
  c_created_at : cell timestamptz;
  c_updated_at : cell timestamptz
}.

Definition category_cells (body : JsObject) : PostgrestError + CategoryCells :=
  match unknown_column categories_columns body with
  | Some k => inl (column_not_found k "categories")
  | None =>
  match text_in (js_get "id" body) with
  | None => inl (invalid_input "id")
  | Some i =>
  match text_in (js_get "name" body) with
  | None => inl (invalid_input "name")
  | Some n =>
  match text_in (js_get "description" body) with
  | None => inl (invalid_input "description")
  | Some de =>
  match time_in (js_get "created_at" body) with
  | None => inl (invalid_input "created_at")
  | Some cr =>
  match time_in (js_get "updated_at" body) with
  | None => inl (invalid_input "updated_at")
  | Some up =>
      inr {| c_id := i; c_name := n; c_description := de;
             c_created_at := cr; c_updated_at := up |}
  end end end end end end.

(** The row an [INSERT] builds: column defaults where the body is silent. *)
Definition new_category (s : Server) (c : CategoryCells)
  : PostgrestError + Categories.row :=
  match assigned (c_id c) (Some (gen_random_uuid s)) with
  | None => inl (not_null_violation "id")
  | Some i =>
  match assigned (c_name c) None with
  | None => inl (not_null_violation "name")
  | Some n =>
      inr {| Categories.id := i;
             Categories.name := n;
             Categories.description := assigned (c_description c) None;
             Categories.created_at :=
               assigned (c_created_at c) (Some (NOW s));
             Categories.updated_at :=
               assigned (c_updated_at c) (Some (NOW s)) |}
  end end.

(** The row an [UPDATE] puts in the place of [old]: the [SET] list, then
    the [BEFORE UPDATE] trigger, then the constraints.  A category whose
    [id] changes while products refer to it breaks their foreign key. *)
Definition updated_category (s : Server) (c : CategoryCells)
  (others : list Categories.row) (old : Categories.row)
  : PostgrestError + Categories.row :=
  match assigned (c_id c) (Some (Categories.id old)) with
  | None => inl (not_null_violation "id")
  | Some i =>
  match assigned (c_name c) (Some (Categories.name old)) with
  | None => inl (not_null_violation "name")
  | Some n =>
      let NEW :=
        update_categories_updated_at (NOW s)
          {| Categories.id := i;
             Categories.name := n;
             Categories.description :=
               assigned (c_description c) (Categories.description old);
             Categories.created_at :=
               assigned (c_created_at c) (Categories.created_at old);
             Categories.updated_at :=
               assigned (c_updated_at c) (Categories.updated_at old) |} in
      match category_violation others NEW with
      | Some e => inl e
      | None =>
          if negb (String.eqb i (Categories.id old)) &&
             existsb (fun p => option_eqb (Products.category_id p)
                                 (Categories.id old))
               (products (db s))
          then inl (foreign_key_violation "products_category_id_fkey")
          else inr NEW
      end
  end end.

Definition category_json (r : Categories.row) : JsObject :=
  [ ("id", JStr (Categories.id r));
    ("name", JStr (Categories.name r));
    ("description", nullable (Categories.description r));
    ("created_at",
      nullable (option_map timestamptz_out (Categories.created_at r)));
    ("updated_at",
      nullable (option_map timestamptz_out (Categories.updated_at r))) ].

Definition category_id_name_json (r : Categories.row) : JsObject :=
  [ ("id", JStr (Categories.id r)); ("name", JStr (Categories.name r)) ].

(** *** products *)

Definition products_columns : list string :=
  ["id"; "name"; "description"; "category_id"; "sku"; "price"; "cost";
   "stock"; "min_stock"; "unit"; "status"; "created_at"; "updated_at"].

Record ProductCells := {
  p_id : cell uuid;
  p_name : cell string;
  p_description : cell string;
  p_category_id : cell uuid;
  p_sku : cell string;
  p_price : cell Z;
  p_cost : cell Z;
  p_stock : cell Z;
  p_min_stock : cell Z;
  p_unit : cell string;
  p_status : cell string;
  p_created_at : cell timestamptz;
  p_updated_at : cell timestamptz
}.

Definition product_cells (body : JsObject) : PostgrestError + ProductCells :=
  match unknown_column products_columns body with
  | Some k => inl (column_not_found k "products")
  | None =>
  match text_in (js_get "id" body) with
  | None => inl (invalid_input "id")
  | Some i =>
  match text_in (js_get "name" body) with
  | None => inl (invalid_input "name")
  | Some n =>
  match text_in (js_get "description" body) with
  | None => inl (invalid_input "description")
  | Some de =>
  match text_in (js_get "category_id" body) with
  | None => inl (invalid_input "category_id")
  | Some ca =>
  match text_in (js_get "sku" body) with
  | None => inl (invalid_input "sku")
  | Some sk =>
  match number_in numeric_in (js_get "price" body) with
  | None => inl (invalid_input "price")
  | Some pr =>
  match number_in numeric_in (js_get "cost" body) with
  | None => inl (invalid_input "cost")
  | Some co =>
  match number_in int4_in (js_get "stock" body) with
  | None => inl (invalid_input "stock")
  | Some st =>
  match number_in int4_in (js_get "min_stock" body) with
  | None => inl (invalid_input "min_stock")
  | Some ms =>
  match text_in (js_get "unit" body) with
  | None => inl (invalid_input "unit")
  | Some un =>
  match text_in (js_get "status" body) with
  | None => inl (invalid_input "status")
  | Some sta =>
  match time_in (js_get "created_at" body) with
  | None => inl (invalid_input "created_at")
  | Some cr =>
  match time_in (js_get "updated_at" body) with
  | None => inl (invalid_input "updated_at")
  | Some up =>
      inr {| p_id := i; p_name := n; p_description := de;
             p_category_id := ca; p_sku := sk; p_price := pr; p_cost := co;
             p_stock := st; p_min_stock := ms; p_unit := un;
             p_status := sta; p_created_at := cr; p_updated_at := up |}
  end end end end end end end end end end end end end end.

Definition new_product (s : Server) (c : ProductCells)
  : PostgrestError + Products.row :=
  match assigned (p_id c) (Some (gen_random_uuid s)) with
  | None => inl (not_null_violation "id")
  | Some i =>
  match assigned (p_name c) None with
  | None => inl (not_null_violation "name")
  | Some n =>
  match assigned (p_sku c) None with
  | None => inl (not_null_violation "sku")
  | Some sk =>
  match assigned (p_price c) None with
  | None => inl (not_null_violation "price")
  | Some pr =>
      inr {| Products.id := i;
             Products.name := n;
             Products.description := assigned (p_description c) None;
             Products.category_id := assigned (p_category_id c) None;
             Products.sku := sk;
             Products.price := pr;
             Products.cost := assigned (p_cost c) None;
             Products.stock := assigned (p_stock c) (Some 0%Z);
             Products.min_stock := assigned (p_min_stock c) (Some 10%Z);
             Products.unit := assigned (p_unit c) (Some "unit");
             Products.status := assigned (p_status c) (Some "active");
             Products.created_at := assigned (p_created_at c) (Some (NOW s));
             Products.updated_at := assigned (p_updated_at c) (Some (NOW s))
          |}
  end end end end.

Definition updated_product (s : Server) (c : ProductCells)
  (others : list Products.row) (old : Products.row)
  : PostgrestError + Products.row :=
  match assigned (p_id c) (Some (Products.id old)) with
  | None => inl (not_null_violation "id")
  | Some i =>
  match assigned (p_name c) (Some (Products.name old)) with
  | None => inl (not_null_violation "name")
  | Some n =>
  match assigned (p_sku c) (Some (Products.sku old)) with
  | None => inl (not_null_violation "sku")
  | Some sk =>
  match assigned (p_price c) (Some (Products.price old)) with
  | None => inl (not_null_violation "price")
  | Some pr =>
      let NEW :=
        update_products_updated_at (NOW s)
          {| Products.id := i;
             Products.name := n;
             Products.description :=
               assigned (p_description c) (Products.description old);
             Products.category_id :=
               assigned (p_category_id c) (Products.category_id old);
             Products.sku := sk;
             Products.price := pr;
             Products.cost := assigned (p_cost c) (Products.cost old);
             Products.stock := assigned (p_stock c) (Products.stock old);
             Products.min_stock :=
               assigned (p_min_stock c) (Products.min_stock old);
             Products.unit := assigned (p_unit c) (Products.unit old);
             Products.status := assigned (p_status c) (Products.status old);
             Products.created_at :=
               assigned (p_created_at c) (Products.created_at old);
             Products.updated_at :=
               assigned (p_updated_at c) (Products.updated_at old) |} in
      match product_violation (db s) others NEW with
      | Some e => inl e
      | None =>
          if negb (String.eqb i (Products.id old)) &&
             existsb (fun o => option_eqb (OrderItems.product_id o)
                                 (Products.id old))
               (order_items (db s))
          then inl (foreign_key_violation "order_items_product_id_fkey")
          else inr NEW
      end
  end end end end.

Definition numeric_json (x : option Z) : JsValue :=
  match x with Some z => JNum (numeric_out z) | None => JNull end.

Definition int4_json (x : option Z) : JsValue :=
  match x with Some z => JNum (int4_out z) | None => JNull end.

(** [categories (id, name)]: the category the product refers to, embedded
    as an object, or [null]. *)
Definition embedded_category (d : Db) (r : Products.row) : JsValue :=
  match Products.category_id r with
  | Some c =>
      match find (fun o => String.eqb (Categories.id o) c) (categories d) with
      | Some o => JObj (category_id_name_json o)
      | None => JNull
      end
  | None => JNull
  end.

Definition product_json (d : Db) (r : Products.row) : JsObject :=
  [ ("id", JStr (Products.id r));
    ("name", JStr (Products.name r));
    ("description", nullable (Products.description r));
    ("category_id", nullable (Products.category_id r));
    ("sku", JStr (Products.sku r));
    ("price", JNum (numeric_out (Products.price r)));
    ("cost", numeric_json (Products.cost r));
    ("stock", int4_json (Products.stock r));
    ("min_stock", int4_json (Products.min_stock r));
    ("unit", nullable (Products.unit r));
    ("status", nullable (Products.status r));
    ("created_at",
      nullable (option_map timestamptz_out (Products.created_at r)));
    ("updated_at",
      nullable (option_map timestamptz_out (Products.updated_at r)));
    ("categories", embedded_category d r) ].

(** *** Requests *)

(** The server after a statement that left the tables [d] and drew
    [draws] identifiers (one for an inserted row whose [id] the body leaves
    to the column default). *)
Definition after (s : Server) (d : Db) (draws : nat) : Server :=
  {| db := d; clock := clock s; statements := S (statements s);
     uuids := uuids s; drawn := drawn s + draws |}.

Definition no_content : PostgrestResponse :=
  {| data := None; error := None |}.

Definition failure (e : PostgrestError) : PostgrestResponse :=
  {| data := None; error := Some e |}.

Definition content (rows : list JsObject) : PostgrestResponse :=
  {| data := Some rows; error := None |}.

Definition reply (s : Server) (draws : nat) (o : outcome)
  : PostgrestResponse * Server :=
  match o with
  | Done d => (no_content, after s d draws)
  | Raise e => (failure e, after s (db s) draws)
  end.

Definition refuse (s : Server) (e : PostgrestError)
  : PostgrestResponse * Server :=
  (failure e, s).

Definition by_name (ascending : bool) (a b : Categories.row) : bool :=
  direction text_le ascending (Categories.name a) (Categories.name b).

Definition by_created_at (ascending : bool) (a b : Products.row) : bool :=
  direction timestamptz_le ascending
    (Products.created_at a) (Products.created_at b).

Definition insert_into_categories (body : JsObject) (s : Server) : outcome :=
  match category_cells body with
  | inl e => Raise e
  | inr c =>
      match new_category s c with
      | inl e => Raise e
      | inr r => insert_category r (db s)
      end
  end.

Definition insert_into_products (body : JsObject) (s : Server) : outcome :=
  match product_cells body with
  | inl e => Raise e
  | inr c =>
      match new_product s c with
      | inl e => Raise e
      | inr r => insert_product r (db s)
      end
  end.

Definition update_categories (body : JsObject) (id : string) (s : Server)
  : outcome :=
  match category_cells body with
  | inl e => Raise e
  | inr c =>
      match update_where (fun r => String.eqb (Categories.id r) id)
              (updated_category s c) [] (categories (db s)) with
      | inl e => Raise e
      | inr l => Done (with_categories l (db s))
      end
  end.

Definition update_products (body : JsObject) (id : string) (s : Server)
  : outcome :=
  match product_cells body with
  | inl e => Raise e
  | inr c =>
      match update_where (fun r => String.eqb (Products.id r) id)
              (updated_product s c) [] (products (db s)) with
      | inl e => Raise e
      | inr l => Done (with_products l (db s))
      end
  end.

(** The requests of the actions, answered from the tables.  Sessions are
    authenticated, which is what the row level security policies ask
    for. *)
Definition serve (q : Query) (s : Server) : PostgrestResponse * Server :=
  match q with
  | q_insert table body =>
      let draws := match js_get "id" body with Some _ => 0 | None => 1 end in
      if String.eqb table "categories"
      then reply s draws (insert_into_categories body s)
      else if String.eqb table "products"
      then reply s draws (insert_into_products body s)
      else refuse s (not_served table)
  | q_update table body column value =>
      if negb (String.eqb column "id") then refuse s (not_served column)
      else if String.eqb table "categories"
      then reply s 0 (update_categories body value s)
      else if String.eqb table "products"
      then reply s 0 (update_products body value s)
      else refuse s (not_served table)
  | q_delete table column value =>
      if negb (String.eqb column "id") then refuse s (not_served column)
      else if String.eqb table "categories"
      then reply s 0 (delete_category (NOW s) value (db s))
      else if String.eqb table "products"
      then reply s 0 (delete_product value (db s))
      else refuse s (not_served table)
  | q_select table columns by_column ascending =>
      if String.eqb table "categories" && String.eqb by_column "name"
      then
        if String.eqb columns "*"
        then (content (map category_json
                         (order_by (by_name ascending) (categories (db s)))),
              after s (db s) 0)
        else if String.eqb columns "id, name"
        then (content (map category_id_name_json
                         (order_by (by_name ascending) (categories (db s)))),
              after s (db s) 0)
        else refuse s (not_served columns)
      else if String.eqb table "products" &&
              String.eqb by_column "created_at" &&
              String.eqb columns "*, categories (id, name)"
      then (content (map (product_json (db s))
                       (order_by (by_created_at ascending)
                          (products (db s)))),
            after s (db s) 0)
      else refuse s (not_served table)
  end.

#[export] Instance Server_client : SupabaseClient Server :=
  {| await := serve |}.

End Postgrest.

(* ================================================================= *)
(** ** The sample data of the schema script *)

(** A multi-row [INSERT]: the rows in order, the whole statement aborted
    by the first error; [k] counts the identifiers drawn. *)
Fixpoint each_row {R : Type} (f : nat -> R -> Db -> outcome) (k : nat)
  (rows : list R) (d : Db) : outcome :=
  match rows with
  | [] => Done d
  | r :: rest =>
      match f k r d with
      | Raise e => Raise e
      | Done d' => each_row f (S k) rest d'
      end
  end.

(** *** [INSERT INTO categories (name, description) ... ON CONFLICT (name)
        DO NOTHING] *)

Definition sample_categories : list (string * string) :=
  [ ("Medications", "Prescription and over-the-counter medications for pets");
    ("Food", "Pet food and nutrition products");
    ("Grooming", "Pet grooming supplies and tools");
    ("Treats", "Pet treats and chews");
    ("Supplies", "General pet care supplies");
    ("Accessories", "Pet accessories and travel gear") ].

Definition proposed_category (s : Server) (k : nat) (v : string * string)
  : Categories.row :=
  {| Categories.id := uuids s (drawn s + k);
     Categories.name := fst v;
     Categories.description := Some (snd v);
     Categories.created_at := Some (NOW s);
     Categories.updated_at := Some (NOW s) |}.

(** One row under [ON CONFLICT (name) DO NOTHING]: a row whose name is
    taken is skipped without an error. *)
Definition insert_category_do_nothing (r : Categories.row) (d : Db)
  : outcome :=
  if existsb (fun o => String.eqb (Categories.name o) (Categories.name r))
       (categories d)
  then Done d
  else insert_category r d.

Definition seed_categories (s : Server) : outcome :=
  each_row (fun k v => insert_category_do_nothing (proposed_category s k v))
    0 sample_categories (db s).

(** *** [INSERT INTO products (...) ... ON CONFLICT (sku) DO UPDATE SET ...] *)

Record ProductValues := {
  v_name : string;
  v_description : string;
  v_category : string;
  v_sku : string;
  v_price : Z;
  v_cost : Z;
  v_stock : Z;
  v_min_stock : Z;
  v_status : string
}.

Definition sample_product (n de ca sk : string) (pr co st ms : Z)
  (sta : string) : ProductValues :=
  {| v_name := n; v_description := de; v_category := ca; v_sku := sk;
     v_price := pr; v_cost := co; v_stock := st; v_min_stock := ms;
     v_status := sta |}.

Definition sample_products : list ProductValues :=
  [ sample_product "Flea & Tick Prevention"
      "Monthly flea and tick prevention treatment for dogs"
      "Medications" "MED-001" 4599 2500 50 10 "active";
    sample_product "Dog Food - Premium"
      "High-quality dry dog food, 15kg bag"
      "Food" "FOOD-001" 8999 5000 30 5 "active";
    sample_product "Cat Food - Grain Free"
      "Grain-free wet cat food, 24-pack"
      "Food" "FOOD-002" 3499 1800 45 10 "active";
    sample_product "Pet Shampoo"
      "Hypoallergenic pet shampoo, 500ml"
      "Grooming" "GROOM-001" 1999 800 75 15 "active";
    sample_product "Dental Chews"
      "Dental health chews for dogs, 30-pack"
      "Treats" "TREAT-001" 2499 1200 60 10 "active";
    sample_product "Heartworm Prevention"
      "Monthly heartworm prevention medication"
      "Medications" "MED-002" 5299 2800 40 10 "active";
    sample_product "Cat Litter - Clumping"
      "Premium clumping cat litter, 20kg"
      "Supplies" "SUPP-001" 2999 1500 25 8 "active";
    sample_product "Pet Vitamins"
      "Daily multivitamin supplement for pets"
      "Supplies" "SUPP-002" 3999 2000 55 10 "active";
    sample_product "Nail Clippers"
      "Professional pet nail clippers"
      "Grooming" "GROOM-002" 1599 700 80 15 "active";
    sample_product "Pet Carrier"
      "Portable pet carrier for travel"
      "Accessories" "ACC-001" 6999 3500 20 5 "active" ].

(** [(SELECT id FROM categories WHERE name = n)] *)
Definition category_named (n : string) (d : Db) : option uuid :=
  option_map Categories.id
    (find (fun o => String.eqb (Categories.name o) n) (categories d)).

Definition proposed_product (s : Server) (k : nat) (v : ProductValues)
  : Products.row :=
  {| Products.id := uuids s (drawn s + k);
     Products.name := v_name v;
     Products.description := Some (v_description v);
     Products.category_id := category_named (v_category v) (db s);
     Products.sku := v_sku v;
     Products.price := v_price v;
     Products.cost := Some (v_cost v);
     Products.stock := Some (v_stock v);
     Products.min_stock := Some (v_min_stock v);
     Products.unit := Some "unit";
     Products.status := Some (v_status v);
     Products.created_at := Some (NOW s);
     Products.updated_at := Some (NOW s) |}.

(** [DO UPDATE SET name = EXCLUDED.name, description = ..., category_id,
    price, cost, stock, min_stock, status]: the other columns of the
    existing row stay. *)
Definition set_excluded (EXCLUDED old : Products.row) : Products.row :=
  {| Products.id := Products.id old;
     Products.name := Products.name EXCLUDED;
     Products.description := Products.description EXCLUDED;
     Products.category_id := Products.category_id EXCLUDED;
     Products.sku := Products.sku old;
     Products.price := Products.price EXCLUDED;
     Products.cost := Products.cost EXCLUDED;
     Products.stock := Products.stock EXCLUDED;
     Products.min_stock := Products.min_stock EXCLUDED;
     Products.unit := Products.unit old;
     Products.status := Products.status EXCLUDED;
     Products.created_at := Products.created_at old;
     Products.updated_at := Products.updated_at old |}.

Definition conflict_update (now : timestamptz) (d : Db)
  (EXCLUDED : Products.row) (others : list Products.row) (old : Products.row)
  : PostgrestError + Products.row :=
  let NEW := update_products_updated_at now (set_excluded EXCLUDED old) in
  match product_violation d others NEW with
  | Some e => inl e
  | None => inr NEW
  end.

(** One row under [ON CONFLICT (sku) DO UPDATE]. *)
Definition upsert_product (now : timestamptz) (r : Products.row) (d : Db)
  : outcome :=
  if existsb (fun o => String.eqb (Products.sku o) (Products.sku r))
       (products d)
  then
    match update_where
            (fun o => String.eqb (Products.sku o) (Products.sku r))
            (conflict_update now d r) [] (products d) with
    | inl e => Raise e
    | inr l => Done (with_products l d)
    end
  else insert_product r d.

Definition cardinality_violation : PostgrestError :=
  {| message := "ON CONFLICT DO UPDATE command cannot affect row a second time";
     code := "21000" |}.

(** The rows of the statement in order; a row of the statement whose key
    an earlier row of the same statement already had aborts it. *)
Fixpoint upsert_products (s : Server) (k : nat) (seen : list string)
  (rows : list ProductValues) (d : Db) : outcome :=
  match rows with
  | [] => Done d
  | v :: rest =>
      if existsb (String.eqb (v_sku v)) seen then Raise cardinality_violation
      else
        match upsert_product (NOW s) (proposed_product s k v) d with
        | Raise e => Raise e
        | Done d' => upsert_products s (S k) (v_sku v :: seen) rest d'
        end
  end.

Definition seed_products (s : Server) : outcome :=
  upsert_products s 0 [] sample_products (db s).

(** *** [INSERT INTO orders (...) VALUES ...] *)

Record OrderValues := {
  v_order_number : string;
  v_customer_email : string;
  v_total_amount : Z;
  v_discount : Z;
  v_tax : Z;
  v_order_status : string;
  v_payment_status : string;
  v_payment_method : option string
}.

Definition sample_order (n e : string) (t di ta : Z) (st ps : string)
  (pm : option string) : OrderValues :=
  {| v_order_number := n; v_customer_email := e; v_total_amount := t;
     v_discount := di; v_tax := ta; v_order_status := st;
     v_payment_status := ps; v_payment_method := pm |}.

Definition sample_orders : list OrderValues :=
  [ sample_order "ORD-2024-001" "john.smith@email.com" 15697 0 1256
      "completed" "paid" (Some "credit_card");
    sample_order "ORD-2024-002" "sarah.j@email.com" 8999 500 680
      "completed" "paid" (Some "debit_card");
    sample_order "ORD-2024-003" "mbrown@email.com" 7498 0 600
      "processing" "paid" (Some "credit_card");
    sample_order "ORD-2024-004" "emily.davis@email.com" 4599 0 368
      "pending" "unpaid" None;
    sample_order "ORD-2024-005" "dwilson@email.com" 12497 1000 920
      "completed" "paid" (Some "cash") ].

(** [(SELECT id FROM customers WHERE email = e)] *)
Definition customer_with_email (e : string) (d : Db) : option uuid :=
  option_map Customers.id
    (find (fun o => option_eqb (Customers.email o) e) (customers d)).

Definition proposed_order (s : Server) (k : nat) (v : OrderValues)
  : Orders.row :=
  {| Orders.id := uuids s (drawn s + k);
     Orders.order_number := v_order_number v;
     Orders.customer_id := customer_with_email (v_customer_email v) (db s);
     Orders.total_amount := v_total_amount v;
     Orders.discount := Some (v_discount v);
     Orders.tax := Some (v_tax v);
     Orders.status := Some (v_order_status v);
     Orders.payment_status := Some (v_payment_status v);
     Orders.payment_method := v_payment_method v;
     Orders.notes := None;
     Orders.created_at := Some (NOW s);
     Orders.updated_at := Some (NOW s) |}.

Definition seed_orders (s : Server) : outcome :=
  each_row (fun k v => insert_order (proposed_order s k v))
    0 sample_orders (db s).

(* ================================================================= *)
(** ** Awaited calls *)

(** How the promise of a server action settles for the component that
    awaits it: with the value the action returned, or rejected, which the
    [catch] of the component receives. *)
Inductive Settled (A : Type) : Type :=
| resolved (a : A)
| rejected.

Arguments resolved {A} a.
Arguments rejected {A}.

(* ================================================================= *)
(** ** components/categories/category-dialog.tsx *)

Module CategoryDialog.

Record Category := {
  id : option string;
  name : string;
  description : option string
}.

(** The props that are data; [onOpenChange] and [onSave] are the
    notifications below. *)
Record Props := {
  open : bool;
  category : option Category;
  isSaving : bool
}.

(** The state of the component: [formData]. *)
Definition State : Type := Category.

Definition initial : State :=
  {| id := None; name := ""; description := Some "" |}.

(** The effect on [category] and [open]. *)
Definition sync (p : Props) : State :=
  match category p with
  | Some c =>
      {| id := None;
         name := match or_else (Some (name c)) (Some "") with
                 | Some n => n
                 | None => ""
                 end;
         description := or_else (description c) (Some "") |}
  | None => {| id := None; name := ""; description := Some "" |}
  end.

(** [onChange] of the name input. *)
Definition change_name (value : string) (formData : State) : State :=
  {| id := id formData; name := value; description := description formData |}.

(** [onChange] of the description textarea. *)
Definition change_description (value : string) (formData : State) : State :=
  {| id := id formData;
     name := name formData;
     description := or_else (Some value) None |}.

(** What the component tells its parent. *)
Inductive Notification : Type :=
| onOpenChange (open : bool)
| onSave (category : Category).

Definition handleSubmit (formData : State) : Notification :=
  onSave formData.

Definition cancel : Notification := onOpenChange false.

(** The [disabled] attribute of the submit button, and its label. *)
Definition save_disabled (p : Props) : bool := isSaving p.

Definition save_label (p : Props) : string :=
  if isSaving p then "Saving..." else "Save".

(** The value shown in the textarea. *)
Definition description_value (formData : State) : string :=
  match or_else (description formData) (Some "") with
  | Some d => d
  | None => ""
  end.

End CategoryDialog.

(* ================================================================= *)
(** ** components/products/product-dialog.tsx *)

Module ProductDialog.

Inductive Mode : Type := create | edit.

Record IdName := { id : string; name : string }.

Record State := {
  loading : bool;
  error : string;
  categories : list IdName;
  isLoadingCategories : bool
}.

Definition initial : State :=
  {| loading := false; error := ""; categories := [];
     isLoadingCategories := true |}.

(** [loadCategories], once [getCategoriesForSelect] has settled. *)
Definition loadCategories (result : list IdName * option string) (s : State)
  : State :=
  {| loading := loading s;
     error := error s;
     categories :=
       match snd result with
       | Some e => if string_truthy e then categories s else fst result
       | None => fst result
       end;
     isLoadingCategories := false |}.

(** What the controls of the form hold when it is submitted. *)
Record Fields := {
  f_name : string;
  f_description : string;
  f_category_id : string;
  f_sku : string;
  f_unit : string;
  f_price : string;
  f_cost : string;
  f_stock : string;
  f_min_stock : string;
  f_status : string
}.

(** [new FormData(e.currentTarget)]: one entry per named control that is
    rendered and not disabled, in document order.  The category select is
    only rendered once the categories are loaded; its control is named
    [category_id]. *)
Definition form_data (s : State) (f : Fields) : FormData :=
  [ ("name", f_name f); ("description", f_description f) ] ++
  (if isLoadingCategories s then [] else [ ("category_id", f_category_id f) ])
  ++ [ ("sku", f_sku f) ] ++
  (if loading s then []
   else [ ("unit", f_unit f); ("price", f_price f); ("cost", f_cost f);
          ("stock", f_stock f); ("min_stock", f_min_stock f);
          ("status", f_status f) ]).

(** The server action [handleSubmit] calls. *)
Inductive Call : Type :=
| call_createProduct (formData : FormData)
| call_updateProduct (id : string) (formData : FormData).

(** [handleSubmit] up to its [await]: the state it sets and the call it
    makes; [product] is the id of the product being edited. *)
Definition handleSubmit (mode : Mode) (product : string) (f : Fields)
  (s : State) : State * Call :=
  ({| loading := true; error := ""; categories := categories s;
      isLoadingCategories := isLoadingCategories s |},
   match mode with
   | create => call_createProduct (form_data s f)
   | edit => call_updateProduct product (form_data s f)
   end).

(** [handleSubmit] after the [await]; the boolean tells the parent to
    close the dialog ([onOpenChange(false)]).  The reset of the form
    controls is not part of the state. *)
Definition settled (outcome : Settled MutationResult.t) (s : State)
  : State * bool :=
  match outcome with
  | resolved result =>
      if MutationResult.success result
      then ({| loading := false; error := error s;
               categories := categories s;
               isLoadingCategories := isLoadingCategories s |}, true)
      else ({| loading := false;
               error := match or_else (MutationResult.error result)
                                (Some "An error occurred") with
                        | Some e => e
                        | None => ""
                        end;
               categories := categories s;
               isLoadingCategories := isLoadingCategories s |}, false)
  | rejected =>
      ({| loading := false; error := "An unexpected error occurred";
          categories := categories s;
          isLoadingCategories := isLoadingCategories s |}, false)
  end.

(** The [disabled] attribute of the submit and of the cancel button. *)
Definition submit_disabled (s : State) : bool := loading s.

Definition cancel_disabled (s : State) : bool := loading s.

End ProductDialog.

(* ================================================================= *)
(** ** app/admin/categories/page.tsx *)

Module CategoriesPage.

(** The [Category] type of the actions, as the page reads it. *)
Record Category := {
  id : string;
  name : string;
  description : option string;
  created_at : string;
  updated_at : string
}.

Record State := {
  categories : list Category;
  filteredCategories : list Category;
  searchTerm : string;
  isLoading : bool;
  isDialogOpen : bool;
  currentCategory : option Category;
  isDeleting : option string
}.

Definition initial : State :=
  {| categories := []; filteredCategories := []; searchTerm := "";
     isLoading := true; isDialogOpen := false; currentCategory := None;
     isDeleting := None |}.

Definition setCategories (v : list Category) (s : State) : State :=
  {| categories := v; filteredCategories := filteredCategories s;
     searchTerm := searchTerm s; isLoading := isLoading s;
     isDialogOpen := isDialogOpen s; currentCategory := currentCategory s;
     isDeleting := isDeleting s |}.

Definition setFilteredCategories (v : list Category) (s : State) : State :=
  {| categories := categories s; filteredCategories := v;
     searchTerm := searchTerm s; isLoading := isLoading s;
     isDialogOpen := isDialogOpen s; currentCategory := currentCategory s;
     isDeleting := isDeleting s |}.

Definition setSearchTerm (v : string) (s : State) : State :=
  {| categories := categories s; filteredCategories := filteredCategories s;
     searchTerm := v; isLoading := isLoading s;
     isDialogOpen := isDialogOpen s; currentCategory := currentCategory s;
     isDeleting := isDeleting s |}.

Definition setIsLoading (v : bool) (s : State) : State :=
  {| categories := categories s; filteredCategories := filteredCategories s;
     searchTerm := searchTerm s; isLoading := v;
     isDialogOpen := isDialogOpen s; currentCategory := currentCategory s;
     isDeleting := isDeleting s |}.

Definition setIsDialogOpen (v : bool) (s : State) : State :=
  {| categories := categories s; filteredCategories := filteredCategories s;
     searchTerm := searchTerm s; isLoading := isLoading s;
     isDialogOpen := v; currentCategory := currentCategory s;
     isDeleting := isDeleting s |}.

Definition setCurrentCategory (v : option Category) (s : State) : State :=
  {| categories := categories s; filteredCategories := filteredCategories s;
     searchTerm := searchTerm s; isLoading := isLoading s;
     isDialogOpen := isDialogOpen s; currentCategory := v;
     isDeleting := isDeleting s |}.

Definition setIsDeleting (v : option string) (s : State) : State :=
  {| categories := categories s; filteredCategories := filteredCategories s;
     searchTerm := searchTerm s; isLoading := isLoading s;
     isDialogOpen := isDialogOpen s; currentCategory := currentCategory s;
     isDeleting := v |}.

(** What started a [fetchCategories]. *)
Inductive Trigger : Type := on_mount | on_save | on_delete.

(** A call to a server action that has not settled yet. *)
Inductive Call : Type :=
| getCategories_call (cause : Trigger)
| deleteCategory_call (id : string).

Inductive Toast : Type :=
| toast_error (text : string)
| toast_success (text : string).

(** The component and what it has going on around it. *)
Record Page := {
  state : State;
  in_flight : list Call;
  toasts : list Toast
}.

Definition update (f : State -> State) (p : Page) : Page :=
  {| state := f (state p); in_flight := in_flight p; toasts := toasts p |}.

Definition call (c : Call) (p : Page) : Page :=
  {| state := state p; in_flight := in_flight p ++ [c]; toasts := toasts p |}.

Definition toast (t : Toast) (p : Page) : Page :=
  {| state := state p; in_flight := in_flight p; toasts := toasts p ++ [t] |}.

Definition Call_eqb (a b : Call) : bool :=
  match a, b with
  | getCategories_call on_mount, getCategories_call on_mount => true
  | getCategories_call on_save, getCategories_call on_save => true
  | getCategories_call on_delete, getCategories_call on_delete => true
  | deleteCategory_call x, deleteCategory_call y => String.eqb x y
  | _, _ => false
  end.

(** The calls left when [c] settles, if it was in flight. *)
Fixpoint settle (c : Call) (l : list Call) : option (list Call) :=
  match l with
  | [] => None
  | x :: l' =>
      if Call_eqb c x then Some l'
      else option_map (cons x) (settle c l')
  end.

Section Handlers.
Context {P : Platform}.

(** The predicate of the search filter. *)
Definition matches (searchTerm : string) (category : Category) : bool :=
  includes (toLowerCase (name category)) (toLowerCase searchTerm) ||
  match description category with
  | Some d =>
      string_truthy d &&
      includes (toLowerCase d) (toLowerCase searchTerm)
  | None => false
  end.

(** The effect on [searchTerm] and [categories]. *)
Definition search_effect (s : State) : State :=
  if string_truthy (searchTerm s)
  then setFilteredCategories
         (filter (matches (searchTerm s)) (categories s)) s
  else setFilteredCategories (categories s) s.

(** [fetchCategories] up to its [await]. *)
Definition fetchCategories (cause : Trigger) (p : Page) : Page :=
  call (getCategories_call cause) (update (setIsLoading true) p).

(** [fetchCategories] after the [await], followed by the effect when
    [categories] was set. *)
Definition fetchCategories_settled
  (outcome : Settled (list Category * option string)) (p : Page) : Page :=
  let caught := update (setIsLoading false)
                  (toast (toast_error "Failed to load categories") p) in
  match outcome with
  | resolved result =>
      let thrown :=
        match snd result with
        | Some e => string_truthy e
        | None => false
        end in
      if thrown then caught
      else update search_effect
             (update (setIsLoading false)
                (update (setFilteredCategories (fst result))
                   (update (setCategories (fst result)) p)))
  | rejected => caught
  end.

(** [handleDelete] up to its [await]; [confirmed] is the answer to the
    confirmation prompt. *)
Definition handleDelete (id : string) (confirmed : bool) (p : Page) : Page :=
  if confirmed
  then call (deleteCategory_call id) (update (setIsDeleting (Some id)) p)
  else p.

(** [handleDelete] after the [await]. *)
Definition handleDelete_settled (outcome : Settled MutationResult.t)
  (p : Page) : Page :=
  let caught := update (setIsDeleting None)
                  (toast (toast_error "Failed to delete category") p) in
  match outcome with
  | resolved result =>
      let thrown :=
        match MutationResult.error result with
        | Some e => string_truthy e
        | None => false
        end in
      if thrown then caught
      else if MutationResult.success result
      then update (setIsDeleting None)
             (fetchCategories on_delete
                (toast (toast_success "Category deleted successfully") p))
      else update (setIsDeleting None) p
  | rejected => caught
  end.

Definition handleSaveSuccess (p : Page) : Page :=
  update (setCurrentCategory None)
    (update (setIsDialogOpen false) (fetchCategories on_save p)).

(** The props the page renders the dialog with. *)
Definition dialog_props (s : State) : CategoryDialog.Props :=
  {| CategoryDialog.open := isDialogOpen s;
     CategoryDialog.category :=
       option_map
         (fun c => {| CategoryDialog.id := Some (id c);
                      CategoryDialog.name := name c;
                      CategoryDialog.description := description c |})
         (currentCategory s);
     CategoryDialog.isSaving := false |}.

(** The [disabled] attribute of the delete button of a row. *)
Definition delete_disabled (s : State) (category : Category) : bool :=
  option_eqb (isDeleting s) (id category).

(** What the table body shows. *)
Inductive TableBody : Type :=
| loading_row
| empty_row
| rows (l : list Category).

Definition table_body (s : State) : TableBody :=
  if isLoading s then loading_row
  else match filteredCategories s with
       | [] => empty_row
       | l => rows l
       end.

(** What can happen to the page. *)
Inductive Event : Type :=
| mounted
| getCategories_settled (cause : Trigger)
    (outcome : Settled (list Category * option string))
| search_changed (value : string)
| add_clicked
| edit_clicked (row : nat)
| delete_clicked (row : nat) (confirmed : bool)
| deleteCategory_settled (id : string) (outcome : Settled MutationResult.t)
| dialog (n : CategoryDialog.Notification).

(** The row a click lands on: the table shows rows when it is not
    loading. *)
Definition shown (row : nat) (s : State) : option Category :=
  if isLoading s then None else nth_error (filteredCategories s) row.

(** The page after an event, or [None] when the event cannot happen in
    that state: a call that is not in flight does not settle, a button
    that is disabled or not shown is not clicked, and the dialog, whose
    name input is [required], is not submitted with an empty name. *)
Definition step (e : Event) (p : Page) : option Page :=
  match e with
  | mounted => Some (fetchCategories on_mount (update search_effect p))
  | getCategories_settled cause result =>
      match settle (getCategories_call cause) (in_flight p) with
      | Some l =>
          Some (fetchCategories_settled result
                  {| state := state p; in_flight := l; toasts := toasts p |})
      | None => None
      end
  | search_changed value =>
      Some (update search_effect (update (setSearchTerm value) p))
  | add_clicked =>
      Some (update (setIsDialogOpen true)
              (update (setCurrentCategory None) p))
  | edit_clicked row =>
      match shown row (state p) with
      | Some c =>
          Some (update (setIsDialogOpen true)
                  (update (setCurrentCategory (Some c)) p))
      | None => None
      end
  | delete_clicked row confirmed =>
      match shown row (state p) with
      | Some c =>
          if delete_disabled (state p) c then None
          else if string_truthy (id c)
          then Some (handleDelete (id c) confirmed p)
          else Some p
      | None => None
      end
  | deleteCategory_settled id result =>
      match settle (deleteCategory_call id) (in_flight p) with
      | Some l =>
          Some (handleDelete_settled result
                  {| state := state p; in_flight := l; toasts := toasts p |})
      | None => None
      end
  | dialog n =>
      if isDialogOpen (state p)
      then match n with
           | CategoryDialog.onOpenChange o =>
               Some (update (setIsDialogOpen o) p)
           | CategoryDialog.onSave c =>
               if CategoryDialog.save_disabled (dialog_props (state p)) ||
                  negb (string_truthy (CategoryDialog.name c))
               then None
               else Some (handleSaveSuccess p)
           end
      else None
  end.

Fixpoint run (events : list Event) (p : Page) : option Page :=
  match events with
  | [] => Some p
  | e :: rest =>
      match step e p with
      | Some p' => run rest p'
      | None => None
      end
  end.

Definition start : Page :=
  {| state := initial; in_flight := []; toasts := [] |}.

End Handlers.

End CategoriesPage.

(* ================================================================= *)
(** ** Observing what an action sends *)

Section Recorder.
Context {P : Platform}.

(** A client that keeps the requests it is given and answers each without
    an error. *)
#[export] Instance recorder : SupabaseClient (list Query) :=
  {| await := fun q l => ({| data := None; error := None |}, l ++ [q]) |}.

(** The requests an action makes when none of them fails. *)
Definition sent {A : Type} (act : Action (list Query) A) : list Query :=
  backend (snd (act {| backend := []; effects := [] |})).

(** The body of a request. *)
Definition body_of (q : Query) : option JsObject :=
  match q with
  | q_insert _ row => Some row
  | q_update _ values _ _ => Some values
  | q_delete _ _ _ => None
  | q_select _ _ _ _ => None
  end.

(** The answer the backend of the world [w] gives to the request [q]. *)
Definition answer {S : Type} {C : SupabaseClient S} (q : Query) (w : World S)
  : PostgrestResponse :=
  fst (await q (backend w)).

(** Every field of the object is read off the form entry of the same
    name: two forms that agree on an entry give the same field. *)
Definition form_derived (values : FormData -> JsObject) : Prop :=
  forall (k : string) (fd fd' : FormData),
    FormData_get k fd = FormData_get k fd' ->
    js_get k (values fd) = js_get k (values fd').

(** What the text cast makes of a [string | null]. *)
Definition cell_of (s : option string) : cell string :=
  match s with Some s => Value s | None => Null end.

End Recorder.

(* ================================================================= *)
(** ** The words of the specification *)

Section Words.
Context {P : Platform}.

(** [text] contains [term] as a substring, case not counting. *)
Definition contains_ignoring_case (text term : string) : Prop :=
  exists before after : string,
    toLowerCase text = (before ++ toLowerCase term ++ after)%string.

(** A category whose name, or whose non-null description, contains the
    search term. *)
Definition found_by (term : string) (c : CategoriesPage.Category) : Prop :=
  contains_ignoring_case (CategoriesPage.name c) term \/
  exists d, CategoriesPage.description c = Some d /\
            contains_ignoring_case d term.

(** The list the table shows is the one the effect computes from the
    current term and categories. *)
Definition filter_applied (s : CategoriesPage.State) : Prop :=
  CategoriesPage.filteredCategories s =
  CategoriesPage.filteredCategories (CategoriesPage.search_effect s).

End Words.

(* ================================================================= *)
(** ** A platform and data to run the definitions on *)

(** Numbers are integers with [None] for [NaN], read from the leading
    decimal digits of a text; lower case is that of ASCII letters; text is
    ordered by character code; a timestamp is written as its number of
    microseconds. *)

Definition lower (c : ascii) : ascii :=
  let n := nat_of_ascii c in
  if (65 <=? n)%nat && (n <=? 90)%nat then ascii_of_nat (n + 32) else c.

Fixpoint lowercase (s : string) : string :=
  match s with
  | EmptyString => EmptyString
  | String c s' => String (lower c) (lowercase s')
  end.

Definition digit (c : ascii) : option Z :=
  let n := nat_of_ascii c in
  if (48 <=? n)%nat && (n <=? 57)%nat then Some (Z.of_nat (n - 48)) else None.

Fixpoint leading_digits (s : string) (acc : option Z) : option Z :=
  match s with
  | EmptyString => acc
  | String c s' =>
      match digit c with
      | Some d =>
          leading_digits s'
            (Some (10 * match acc with Some a => a | None => 0 end + d)%Z)
      | None => acc
      end
  end.

Fixpoint decimal (fuel : nat) (n : nat) (acc : string) : string :=
  match fuel with
  | O => acc
  | S fuel' =>
      let acc' := String (ascii_of_nat (48 + n mod 10)) acc in
      if (n <? 10)%nat then acc' else decimal fuel' (n / 10) acc'
  end.

Definition simple_platform : Platform :=
  {| number := option Z;
     parseFloat := fun s => leading_digits s None;
     parseInt := fun s => leading_digits s None;
     number_truthy :=
       fun n => match n with Some z => negb (z =? 0)%Z | None => false end;
     toLowerCase := lowercase;
     numeric_in := fun n => Some (option_map (Z.mul 100) n);
     int4_in := fun n => Some n;
     numeric_out := fun z => Some (z / 100)%Z;
     int4_out := fun z => Some z;
     timestamptz_out :=
       fun z => decimal (S (Z.to_nat z)) (Z.to_nat z) "";
     timestamptz_in := fun s => leading_digits s None;
     text_le := String.leb |}.

Definition food : Categories.row :=
  {| Categories.id := "c-food";
     Categories.name := "Food";
     Categories.description := Some "Pet food and nutrition products";
     Categories.created_at := Some 1%Z;
     Categories.updated_at := Some 1%Z |}.

Definition accessories : Categories.row :=
  {| Categories.id := "c-acc";
     Categories.name := "Accessories";
     Categories.description := None;
     Categories.created_at := Some 2%Z;
     Categories.updated_at := Some 2%Z |}.

Definition dog_food : Products.row :=
  {| Products.id := "p-1";
     Products.name := "Dog Food";
     Products.description := None;
     Products.category_id := Some "c-food";
     Products.sku := "FOOD-001";
     Products.price := 100%Z;
     Products.cost := Some 50%Z;
     Products.stock := Some 3%Z;
     Products.min_stock := Some 1%Z;
     Products.unit := Some "unit";
     Products.status := Some "active";
     Products.created_at := Some 3%Z;
     Products.updated_at := Some 3%Z |}.

Definition leash : Products.row :=
  {| Products.id := "p-2";
     Products.name := "Leash";
     Products.description := Some "Two metres";
     Products.category_id := Some "c-acc";
     Products.sku := "ACC-002";
     Products.price := 1500%Z;
     Products.cost := None;
     Products.stock := Some 7%Z;
     Products.min_stock := Some 10%Z;
     Products.unit := Some "unit";
     Products.status := Some "active";
     Products.created_at := Some 4%Z;
     Products.updated_at := Some 4%Z |}.

Definition first_order : Orders.row :=
  {| Orders.id := "o-1";
     Orders.order_number := "ORD-2024-001";
     Orders.customer_id := None;
     Orders.total_amount := 100%Z;
     Orders.discount := Some 0%Z;
     Orders.tax := Some 8%Z;
     Orders.status := Some "completed";
     Orders.payment_status := Some "paid";
     Orders.payment_method := Some "cash";
     Orders.notes := None;
     Orders.created_at := Some 5%Z;
     Orders.updated_at := Some 5%Z |}.

(** Rows proposed for keys that [shop] below already has. *)
Definition second_food : Categories.row :=
  {| Categories.id := "c-food-2";
     Categories.name := "Food";
     Categories.description := Some "Kibble";
     Categories.created_at := Some 9%Z;
     Categories.updated_at := Some 9%Z |}.

Definition premium_dog_food : Products.row :=
  {| Products.id := "p-9";
     Products.name := "Dog Food - Premium";
     Products.description := Some "High-quality dry dog food, 15kg bag";
     Products.category_id := Some "c-food";
     Products.sku := "FOOD-001";
     Products.price := 8999%Z;
     Products.cost := Some 5000%Z;
     Products.stock := Some 30%Z;
     Products.min_stock := Some 5%Z;
     Products.unit := Some "unit";
     Products.status := Some "active";
     Products.created_at := Some 9%Z;
     Products.updated_at := Some 9%Z |}.

Definition second_first_order : Orders.row :=
  {| Orders.id := "o-9";
     Orders.order_number := "ORD-2024-001";
     Orders.customer_id := None;
     Orders.total_amount := 15697%Z;
     Orders.discount := Some 0%Z;
     Orders.tax := Some 1256%Z;
     Orders.status := Some "completed";
     Orders.payment_status := Some "paid";
     Orders.payment_method := Some "credit_card";
     Orders.notes := None;
     Orders.created_at := Some 9%Z;
     Orders.updated_at := Some 9%Z |}.

Definition shop : Db :=
  {| customers := [];
     categories := [food; accessories];
     products := [dog_food; leash];
     orders := [first_order];
     order_items := [] |}.

(** A server holding [shop] on which the next statement runs at time 9
    and the next identifier drawn is [new-0]. *)
Definition shop_server : Server :=
  {| db := shop;
     clock := fun n => (9 + Z.of_nat n)%Z;
     statements := 0;
     uuids := fun n => ("new-" ++ decimal (S n) n "")%string;
     drawn := 0 |}.

Definition shop_world : World Server :=
  {| backend := shop_server; effects := [] |}.

Definition food_category : CategoriesPage.Category :=
  {| CategoriesPage.id := "c-food";
     CategoriesPage.name := "Food";
     CategoriesPage.description := Some "Pet food and nutrition products";
     CategoriesPage.created_at := "2024-01-01T00:00:00Z";
     CategoriesPage.updated_at := "2024-01-01T00:00:00Z" |}.

Definition accessories_category : CategoriesPage.Category :=
  {| CategoriesPage.id := "c-acc";
     CategoriesPage.name := "Accessories";
     CategoriesPage.description := None;
     CategoriesPage.created_at := "2024-01-02T00:00:00Z";
     CategoriesPage.updated_at := "2024-01-02T00:00:00Z" |}.

(** What the user has typed into the category dialog. *)
Definition toys_typed : CategoryDialog.Category :=
  {| CategoryDialog.id := None;
     CategoryDialog.name := "Toys";
     CategoryDialog.description := None |}.

(** The page showing one category, nothing in flight. *)
Definition food_page : CategoriesPage.Page :=
  {| CategoriesPage.state :=
       {| CategoriesPage.categories := [food_category];
          CategoriesPage.filteredCategories := [food_category];
          CategoriesPage.searchTerm := "";
          CategoriesPage.isLoading := false;
          CategoriesPage.isDialogOpen := false;
          CategoriesPage.currentCategory := None;
          CategoriesPage.isDeleting := None |};
     CategoriesPage.in_flight := [];
     CategoriesPage.toasts := [] |}.

Definition collar_fields : ProductDialog.Fields :=
  {| ProductDialog.f_name := "Collar";
     ProductDialog.f_description := "";
     ProductDialog.f_category_id := "c-acc";
     ProductDialog.f_sku := "ACC-009";
     ProductDialog.f_unit := "unit";
     ProductDialog.f_price := "12";
     ProductDialog.f_cost := "";
     ProductDialog.f_stock := "5";
     ProductDialog.f_min_stock := "2";
     ProductDialog.f_status := "active" |}.

(** The product dialog with its categories loaded. *)
Definition ready_dialog : ProductDialog.State :=
  {| ProductDialog.loading := false;
     ProductDialog.error := "";
     ProductDialog.categories :=
       [ {| ProductDialog.id := "c-food"; ProductDialog.name := "Food" |};
         {| ProductDialog.id := "c-acc";
            ProductDialog.name := "Accessories" |} ];
     ProductDialog.isLoadingCategories := false |}.

(* ================================================================= *)
(** ** getCategory *)

(** The [{ category, error }] pair of [getCategory]. *)
Module CategoryResult.
Record t {P : Platform} := { category : option JsObject; error : option string }.
End CategoryResult.

Section Single.
Context {P : Platform}.

(** [from(table).select(columns).eq(column, value).single()] *)
Record SingleQuery := {
  from_table : string;
  select_columns : string;
  eq_column : string;
  eq_value : string
}.

(** The answer to a [single()] request: one row or [null]. *)
Record PostgrestSingleResponse := {
  single_data : option JsObject;
  single_error : option PostgrestError
}.

Class SupabaseSingleClient (S : Type) := {
  await_single : SingleQuery -> S -> PostgrestSingleResponse * S
}.

Definition getCategory {S : Type} {C : SupabaseSingleClient S} (id : string)
  : Action S CategoryResult.t :=
  fun w =>
    let (r, s') :=
      await_single {| from_table := "categories"; select_columns := "*";
                      eq_column := "id"; eq_value := id |} (backend w) in
    let w' := {| backend := s'; effects := effects w |} in
    match single_error r with
    | Some e =>
        ({| CategoryResult.category := None;
            CategoryResult.error := Some (message e) |}, w')
    | None =>
        ({| CategoryResult.category := single_data r;
            CategoryResult.error := None |}, w')
    end.

(** PostgREST's answer to [single()] when the rows are not exactly one
    (code [PGRST116]; the wording is that of one of its versions). *)
Definition not_a_single_row : PostgrestError :=
  {| message := "JSON object requested, multiple (or no) rows returned";
     code := "PGRST116" |}.

(** The request of [getCategory], answered from the tables. *)
Definition serve_single (q : SingleQuery) (s : Server)
  : PostgrestSingleResponse * Server :=
  if String.eqb (from_table q) "categories" &&
     String.eqb (select_columns q) "*" &&
     String.eqb (eq_column q) "id"
  then
    match filter (fun r => String.eqb (Categories.id r) (eq_value q))
            (categories (db s)) with
    | [r] =>
        ({| single_data := Some (category_json r); single_error := None |},
         after s (db s) 0)
    | _ =>
        ({| single_data := None; single_error := Some not_a_single_row |},
         after s (db s) 0)
    end
  else
    ({| single_data := None;
        single_error := Some (not_served (from_table q)) |}, s).

#[export] Instance Server_single_client : SupabaseSingleClient Server :=
  {| await_single := serve_single |}.

End Single.

(* ================================================================= *)
(** ** What the schema promises *)

(** The [CHECK] constraints of a [products] row. *)
Definition product_checks (r : Products.row) : bool :=
  (0 <=? Products.price r)%Z &&
  nonneg (Products.cost r) &&
  nonneg (Products.stock r) &&
  one_of ["active"; "inactive"; "discontinued"] (Products.status r).

(** A nullable reference is null or names one of the keys. *)
Definition refers_into (keys : list uuid) (reference : option uuid) : Prop :=
  match reference with
  | Some k => In k keys
  | None => True
  end.

(** The primary keys, the [UNIQUE] and [CHECK] constraints and the foreign
    keys of [categories], [products] and [order_items.product_id]. *)
Record consistent (d : Db) : Prop := {
  categories_pkey : NoDup (map Categories.id (categories d));
  categories_name_key : NoDup (map Categories.name (categories d));
  products_pkey : NoDup (map Products.id (products d));
  products_sku_key : NoDup (map Products.sku (products d));
  products_check :
    Forall (fun r => product_checks r = true) (products d);
  products_category_id_fkey :
    Forall (fun r => refers_into (map Categories.id (categories d))
                       (Products.category_id r)) (products d);
  order_items_product_id_fkey :
    Forall (fun o => refers_into (map Products.id (products d))
                       (OrderItems.product_id o)) (order_items d)
}.

(** What [ON CONFLICT (sku) DO UPDATE] leaves of a row: its [id], [sku],
    [unit] and [created_at]. *)
Definition same_product (old new : Products.row) : Prop :=
  Products.id new = Products.id old /\
  Products.sku new = Products.sku old /\
  Products.unit new = Products.unit old /\
  Products.created_at new = Products.created_at old.

(* ================================================================= *)
(** ** The dialogs and the page, end to end *)

Section EndToEnd.
Context {P : Platform}.

(** The call of the product dialog, made against the data base. *)
Definition perform (c : ProductDialog.Call)
  : Action Server MutationResult.t :=
  match c with
  | ProductDialog.call_createProduct formData => createProduct formData
  | ProductDialog.call_updateProduct id formData => updateProduct id formData
  end.

(** A submission of the product dialog from the click to the state after
    the call has resolved; the boolean is [onOpenChange(false)]. *)
Definition submit_product (mode : ProductDialog.Mode) (product : string)
  (fields : ProductDialog.Fields) (s : ProductDialog.State)
  (w : World Server) : ProductDialog.State * bool * World Server :=
  let (waiting, c) := ProductDialog.handleSubmit mode product fields s in
  let (result, w') := perform c w in
  (ProductDialog.settled (resolved result) waiting, w').

(** Whether [fetchCategories] takes the answer: it throws on a truthy
    [error]. *)
Definition accepted (answer : list CategoriesPage.Category * option string)
  : bool :=
  match snd answer with
  | Some e => negb (string_truthy e)
  | None => true
  end.

(** The categories of the last answer among [events] that the page
    accepted, and [loaded] when there is none. *)
Fixpoint last_accepted (events : list CategoriesPage.Event)
  (loaded : list CategoriesPage.Category) : list CategoriesPage.Category :=
  match events with
  | [] => loaded
  | CategoriesPage.getCategories_settled _ (resolved a) :: rest =>
      last_accepted rest (if accepted a then fst a else loaded)
  | _ :: rest => last_accepted rest loaded
  end.

(** The marks the page shows stand for calls that are in flight: the row
    marked as being deleted has its delete in flight, and while the table
    shows the loading row a fetch is in flight. *)
Definition marks_are_backed (p : CategoriesPage.Page) : Prop :=
  (forall id,
      CategoriesPage.isDeleting (CategoriesPage.state p) = Some id ->
      In (CategoriesPage.deleteCategory_call id)
         (CategoriesPage.in_flight p)) /\
  (CategoriesPage.isLoading (CategoriesPage.state p) = true ->
   exists cause,
     In (CategoriesPage.getCategories_call cause)
        (CategoriesPage.in_flight p)).

End EndToEnd.

(* ================================================================= *)
(** ** More data to run the definitions on *)

(** An item of [first_order] that refers to [dog_food]. *)
Definition dog_food_item : OrderItems.row :=
  {| OrderItems.id := "i-1";
     OrderItems.order_id := "o-1";
     OrderItems.product_id := Some "p-1";
     OrderItems.product_name := "Dog Food";
     OrderItems.quantity := 1%Z;
     OrderItems.unit_price := 100%Z;
     OrderItems.subtotal := 100%Z;
     OrderItems.created_at := Some 5%Z |}.

(** [shop] with that item. *)
Definition busy_shop : Db :=
  {| customers := customers shop;
     categories := categories shop;
     products := products shop;
     orders := orders shop;
     order_items := [dog_food_item] |}.

Definition busy_server : Server :=
  {| db := busy_shop;
     clock := clock shop_server;
     statements := 0;
     uuids := uuids shop_server;
     drawn := 0 |}.

Definition busy_world : World Server :=
  {| backend := busy_server; effects := [] |}.

(* ================================================================= *)
(** * Properties *)

(** ** Running an action *)

Section ActionFacts.
Context {P : Platform} {S : Type} {C : SupabaseClient S}.

Lemma query_runs (q : Query) (w : World S) :
  query q w =
  (answer q w,
   {| backend := snd (await q (backend w)); effects := effects w |}).
Proof.
  unfold query, answer. destruct (await q (backend w)); reflexivity.
Qed.

(** A mutation without [revalidatePath] is its request and the reading of
    the answer. *)
Lemma plain_mutation_result (q : Query) (w : World S) :
  fst ((r <- query q ;;
        match error r with
        | Some e => ret (failed e)
        | None => ret succeeded
        end) w) =
  match error (answer q w) with
  | Some e => failed e
  | None => succeeded
  end.
Proof.
  unfold bind. rewrite query_runs.
  destruct (error (answer q w)); reflexivity.
Qed.

Lemma revalidating_mutation_result (q : Query) (path : string) (w : World S) :
  fst ((r <- query q ;;
        match error r with
        | Some e => ret (failed e)
        | None => revalidatePath path ;;; ret succeeded
        end) w) =
  match error (answer q w) with
  | Some e => failed e
  | None => succeeded
  end.
Proof.
  unfold bind. rewrite query_runs.
  destruct (error (answer q w)); reflexivity.
Qed.

(** The backend after a mutation is the one the request left. *)
Lemma plain_mutation_backend (q : Query) (w : World S) :
  backend (snd ((r <- query q ;;
                 match error r with
                 | Some e => ret (failed e)
                 | None => ret succeeded
                 end) w)) =
  snd (await q (backend w)).
Proof.
  unfold bind. rewrite query_runs.
  destruct (error (answer q w)); reflexivity.
Qed.

Lemma revalidating_mutation_backend (q : Query) (path : string)
  (w : World S) :
  backend (snd ((r <- query q ;;
                 match error r with
                 | Some e => ret (failed e)
                 | None => revalidatePath path ;;; ret succeeded
                 end) w)) =
  snd (await q (backend w)).
Proof.
  unfold bind. rewrite query_runs.
  destruct (error (answer q w)); reflexivity.
Qed.

End ActionFacts.

(** ** C2: results mirror the error of the data base *)

(** C2.  Whatever the backend, each of the six mutations returns
    [{ success: true, error: null }] when the answer to its request has no
    error and [{ success: false, error: e.message }] when the answer has
    the error [e]; each of the three listings returns an empty array with
    [e.message] in the second case, and the rows of the answer with a
    [null] error in the first. *)
Theorem results_mirror_database_error :
  forall (P : Platform) (S : Type) (C : SupabaseClient S) (w : World S)
    (now id : string) (formData : FormData),
    let mutation (q : Query) : MutationResult.t :=
      match error (answer q w) with
      | Some e =>
          {| MutationResult.success := false;
             MutationResult.error := Some (message e) |}
      | None =>
          {| MutationResult.success := true; MutationResult.error := None |}
      end in
    let rows_of (q : Query) : list JsObject :=
      match data (answer q w) with Some rows => rows | None => [] end in
    fst (createCategory formData w) =
      mutation (q_insert "categories" (createCategory_values formData)) /\
    fst (updateCategory now id formData w) =
      mutation (q_update "categories" (updateCategory_values now formData)
                  "id" id) /\
    fst (deleteCategory id w) = mutation (q_delete "categories" "id" id) /\
    fst (createProduct formData w) =
      mutation (q_insert "products" (product_values formData)) /\
    fst (updateProduct id formData w) =
      mutation (q_update "products" (product_values formData) "id" id) /\
    fst (deleteProduct id w) = mutation (q_delete "products" "id" id) /\
    fst (getCategories w) =
      match error (answer (q_select "categories" "*" "name" true) w) with
      | Some e =>
          {| CategoriesResult.categories := [];
             CategoriesResult.error := Some (message e) |}
      | None =>
          {| CategoriesResult.categories :=
               rows_of (q_select "categories" "*" "name" true);
             CategoriesResult.error := None |}
      end /\
    fst (getCategoriesForSelect w) =
      match error (answer (q_select "categories" "id, name" "name" true) w)
      with
      | Some e =>
          {| CategoriesResult.categories := [];
             CategoriesResult.error := Some (message e) |}
      | None =>
          {| CategoriesResult.categories :=
               rows_of (q_select "categories" "id, name" "name" true);
             CategoriesResult.error := None |}
      end /\
    fst (getProducts w) =
      match error (answer (q_select "products" "*, categories (id, name)"
                             "created_at" false) w) with
      | Some e =>
          {| ProductsResult.products := [];
             ProductsResult.error := Some (message e) |}
      | None =>
          {| ProductsResult.products :=
               map with_category_name
                 (rows_of (q_select "products" "*, categories (id, name)"
                             "created_at" false));
             ProductsResult.error := None |}
      end.
Proof.
  intros P S C w now id formData. cbv zeta.
  unfold createCategory, updateCategory, deleteCategory,
    createProduct, updateProduct, deleteProduct.
  rewrite !plain_mutation_result, !revalidating_mutation_result.
  unfold failed, succeeded.
  repeat split.
  - unfold getCategories, bind. rewrite query_runs.
    destruct (error (answer _ w)); reflexivity.
  - unfold getCategoriesForSelect, bind. rewrite query_runs.
    destruct (error (answer _ w)); reflexivity.
  - unfold getProducts, bind. rewrite query_runs.
    destruct (error (answer _ w)); reflexivity.
Qed.

(** ** C3: what the mutations send *)

Ltac by_key k Hget :=
  repeat match goal with
         | |- context [String.eqb k ?c] =>
             destruct (String.eqb_spec k c) as [->|?];
             [ rewrite ?Hget; reflexivity | ]
         end;
  try reflexivity.

Lemma createCategory_values_form_derived {P : Platform} :
  form_derived createCategory_values.
Proof.
  intros k fd fd' Hget. unfold createCategory_values. cbn [js_get].
  by_key k Hget.
Qed.

Lemma product_values_form_derived {P : Platform} :
  form_derived product_values.
Proof.
  intros k fd fd' Hget. unfold product_values. cbn [js_get].
  by_key k Hget.
Qed.

(** C3, as amended.  Each mutation makes one request, whatever the form
    holds.  The bodies of [createCategory], [createProduct] and
    [updateProduct] have the form fields as their keys, each read off the
    form entry of the same name, and no [updated_at]; the deletions have no
    body; the body of [updateCategory] is that of [createCategory] followed
    by [updated_at], set to the time of the application. *)
Theorem mutation_bodies :
  forall (P : Platform) (now id : string) (formData : FormData),
    sent (createCategory formData) =
      [q_insert "categories" (createCategory_values formData)] /\
    sent (updateCategory now id formData) =
      [q_update "categories" (updateCategory_values now formData) "id" id] /\
    sent (deleteCategory id) = [q_delete "categories" "id" id] /\
    sent (createProduct formData) =
      [q_insert "products" (product_values formData)] /\
    sent (updateProduct id formData) =
      [q_update "products" (product_values formData) "id" id] /\
    sent (deleteProduct id) = [q_delete "products" "id" id] /\
    js_keys (createCategory_values formData) = ["name"; "description"] /\
    js_keys (product_values formData) =
      ["name"; "description"; "category"; "sku"; "price"; "cost"; "stock";
       "min_stock"; "unit"; "status"] /\
    updateCategory_values now formData =
      createCategory_values formData ++ [("updated_at", JStr now)] /\
    form_derived createCategory_values /\
    form_derived product_values.
Proof.
  intros P now id formData.
  repeat split; try reflexivity.
  - apply createCategory_values_form_derived.
  - apply product_values_form_derived.
Qed.

(** C3 as stated fails: the body [updateCategory] sends for the category
    [c-food] has an [updated_at] key. *)
Lemma updateCategory_sends_updated_at :
  ~ (forall body : @JsObject simple_platform,
       In (Some body)
          (map body_of
             (sent (updateCategory (P := simple_platform)
                      "2024-05-01T10:00:00.000Z" "c-food"
                      [("name", "Food"); ("description", "Kibble")]))) ->
       ~ In "updated_at" (js_keys body)).
Proof.
  intro claim.
  apply (claim [("name", JStr "Food"); ("description", JStr "Kibble");
                ("updated_at", JStr "2024-05-01T10:00:00.000Z")]).
  - left. reflexivity.
  - right. right. left. reflexivity.
Qed.

(** ** The server's side of a mutation *)

Section ServerFacts.
Context {P : Platform}.

Lemma reply_error (s : Server) (draws : nat) (o : outcome) :
  error (fst (reply s draws o)) =
  match o with Done _ => None | Raise e => Some e end.
Proof. destruct o; reflexivity. Qed.

Lemma reply_db (s : Server) (draws : nat) (o : outcome) :
  db (snd (reply s draws o)) =
  match o with Done d => d | Raise _ => db s end.
Proof. destruct o; reflexivity. Qed.

Lemma text_in_nullable (x : option string) :
  text_in (Some (nullable x)) = Some (cell_of x).
Proof. destruct x; reflexivity. Qed.

(** The columns the body of [createCategory] names. *)
Lemma createCategory_cells (formData : FormData) :
  category_cells (createCategory_values formData) =
  inr {| c_id := Absent;
         c_name := cell_of (FormData_get "name" formData);
         c_description :=
           cell_of (or_else (FormData_get "description" formData) None);
         c_created_at := Absent;
         c_updated_at := Absent |}.
Proof.
  unfold createCategory_values.
  destruct (FormData_get "name" formData);
    destruct (or_else (FormData_get "description" formData) None);
    reflexivity.
Qed.

Lemma updateCategory_cells (now : string) (formData : FormData) :
  category_cells (updateCategory_values now formData) =
  match timestamptz_in now with
  | Some t =>
      inr {| c_id := Absent;
             c_name := cell_of (FormData_get "name" formData);
             c_description :=
               cell_of (or_else (FormData_get "description" formData) None);
             c_created_at := Absent;
             c_updated_at := Value t |}
  | None => inl (invalid_input "updated_at")
  end.
Proof.
  unfold updateCategory_values, category_cells.
  destruct (FormData_get "name" formData);
    destruct (or_else (FormData_get "description" formData) None);
    cbn; destruct (timestamptz_in now); reflexivity.
Qed.

(** PostgREST refuses the body of [createProduct] and [updateProduct]:
    [category] is no column of [products]. *)
Lemma product_values_refused (formData : FormData) :
  product_cells (product_values formData) =
  inl (column_not_found "category" "products").
Proof. reflexivity. Qed.

(** What [update_where] leaves: rows for which [Q] held and that did not
    match, and new versions of rows that matched. *)
Lemma update_where_Forall {R : Type} (Q : R -> Prop) (matches : R -> bool)
  (upd : list R -> R -> PostgrestError + R) :
  (forall others old r',
      matches old = true -> upd others old = inr r' -> Q r') ->
  forall (rest visited l : list R),
    update_where matches upd visited rest = inr l ->
    Forall Q visited ->
    Forall (fun r => matches r = false -> Q r) rest ->
    Forall Q l.
Proof.
  intros Hupd rest.
  induction rest as [|r rest IH]; intros visited l Hrun Hvisited Hrest.
  - cbn in Hrun. inversion Hrun; subst. exact Hvisited.
  - cbn in Hrun. inversion Hrest as [|? ? Hr Hrest']; subst.
    destruct (matches r) eqn:Hm.
    + destruct (upd (visited ++ rest) r) as [e|r'] eqn:Hu; [discriminate|].
      apply (IH (visited ++ [r']) l Hrun); [|exact Hrest'].
      apply Forall_app. split; [exact Hvisited|].
      constructor; [|constructor]. exact (Hupd _ _ _ Hm Hu).
    + apply (IH (visited ++ [r]) l Hrun); [|exact Hrest'].
      apply Forall_app. split; [exact Hvisited|].
      constructor; [|constructor]. exact (Hr eq_refl).
Qed.

End ServerFacts.

(** ** C1: the category of a product *)

(** C1, evaluated on the code.  The form of the product dialog has no
    entry named [category], the name [createProduct] and [updateProduct]
    read, so the body they send has [category: null] and no [category_id]
    whatever the user selected; and the data base, whose [products] table
    has no [category] column, answers both with an error and writes no
    row. *)
Theorem product_category_is_not_persisted :
  forall (P : Platform) (dialog : ProductDialog.State)
    (fields : ProductDialog.Fields) (id : string) (w : World Server),
    let formData := ProductDialog.form_data dialog fields in
    let refused :=
      {| MutationResult.success := false;
         MutationResult.error :=
           Some (message (column_not_found "category" "products")) |} in
    FormData_get "category" formData = None /\
    sent (createProduct formData) =
      [q_insert "products" (product_values formData)] /\
    sent (updateProduct id formData) =
      [q_update "products" (product_values formData) "id" id] /\
    js_get "category_id" (product_values formData) = None /\
    js_get "category" (product_values formData) = Some JNull /\
    fst (createProduct formData w) = refused /\
    db (backend (snd (createProduct formData w))) = db (backend w) /\
    fst (updateProduct id formData w) = refused /\
    db (backend (snd (updateProduct id formData w))) = db (backend w).
Proof.
  intros P dialog fields id w. cbv zeta.
  assert (Hcategory :
            FormData_get "category" (ProductDialog.form_data dialog fields)
            = None).
  { unfold ProductDialog.form_data.
    destruct (ProductDialog.isLoadingCategories dialog);
      destruct (ProductDialog.loading dialog); reflexivity. }
  split; [exact Hcategory|].
  split; [reflexivity|]. split; [reflexivity|]. split; [reflexivity|].
  split.
  { assert (Hread : forall fd : FormData,
               js_get "category" (product_values fd) =
               Some (nullable (FormData_get "category" fd)))
      by reflexivity.
    rewrite Hread, Hcategory. reflexivity. }
  unfold createProduct, updateProduct.
  rewrite !revalidating_mutation_result, !revalidating_mutation_backend.
  unfold answer. cbn [await Server_client serve].
  cbn [String.eqb Ascii.eqb Bool.eqb negb andb].
  unfold insert_into_products, update_products.
  rewrite product_values_refused. cbn.
  repeat split.
Qed.

(** ** C10: an empty description *)

Section EmptyDescription.
Context {P : Platform}.

Lemma created_category_description (formData : FormData) (s : Server)
  (d : Db) :
  FormData_get "description" formData = Some "" ->
  insert_into_categories (createCategory_values formData) s = Done d ->
  exists r, categories d = categories (db s) ++ [r] /\
            Categories.description r = None.
Proof.
  intros Hempty Hrun. unfold insert_into_categories in Hrun.
  rewrite createCategory_cells, Hempty in Hrun.
  unfold new_category in Hrun. cbn [c_id c_name assigned] in Hrun.
  destruct (cell_of (FormData_get "name" formData)) as [| |n];
    cbn in Hrun; try discriminate.
  unfold insert_category in Hrun.
  destruct (category_violation _ _); [discriminate|].
  inversion Hrun; subst. eexists. split; reflexivity.
Qed.

Lemma updated_category_description (now id : string) (formData : FormData)
  (s : Server) (d : Db) :
  FormData_get "description" formData = Some "" ->
  update_categories (updateCategory_values now formData) id s = Done d ->
  Forall (fun r => Categories.id r = id -> Categories.description r = None)
    (categories d).
Proof.
  intros Hempty Hrun. unfold update_categories in Hrun.
  rewrite updateCategory_cells, Hempty in Hrun.
  destruct (timestamptz_in now) as [t|]; [|discriminate].
  destruct (update_where _ _ _ _) as [e|l] eqn:Hupdate; [discriminate|].
  inversion Hrun; subst. cbn [categories with_categories].
  refine (update_where_Forall _ _ _ _ _ _ _ Hupdate _ _).
  - intros others old r' _ Hnew _. unfold updated_category in Hnew.
    cbn [c_id c_name c_description c_created_at c_updated_at assigned]
      in Hnew.
    destruct (assigned (cell_of (FormData_get "name" formData)) _);
      [|discriminate].
    destruct (category_violation _ _); [discriminate|].
    destruct (_ && _); [discriminate|].
    inversion Hnew; subst. reflexivity.
  - constructor.
  - apply Forall_forall. intros r _ Hother Hid.
    apply String.eqb_neq in Hother. contradiction.
Qed.

End EmptyDescription.

(** C10.  When the [description] entry of the form is the empty string,
    the body [createCategory] inserts and the body [updateCategory] sends
    have [description: null]; on the schema, a successful [createCategory]
    appends a row whose description is [NULL] and after a successful
    [updateCategory] the row with the given id has a [NULL] description;
    and the dialog turns a description textarea changed to the empty
    string into [null] in the category it hands to [onSave]. *)
Theorem empty_description_is_null :
  forall (P : Platform) (now id : string) (formData : FormData)
    (typed : CategoryDialog.State) (w : World Server),
    FormData_get "description" formData = Some "" ->
    sent (createCategory formData) =
      [q_insert "categories" (createCategory_values formData)] /\
    js_get "description" (createCategory_values formData) = Some JNull /\
    sent (updateCategory now id formData) =
      [q_update "categories" (updateCategory_values now formData) "id" id] /\
    js_get "description" (updateCategory_values now formData) = Some JNull /\
    (MutationResult.success (fst (createCategory formData w)) = true ->
     exists r,
       categories (db (backend (snd (createCategory formData w)))) =
         categories (db (backend w)) ++ [r] /\
       Categories.description r = None) /\
    (MutationResult.success (fst (updateCategory now id formData w)) = true ->
     Forall (fun r => Categories.id r = id -> Categories.description r = None)
       (categories (db (backend (snd (updateCategory now id formData w)))))) /\
    CategoryDialog.change_description "" typed =
      {| CategoryDialog.id := CategoryDialog.id typed;
         CategoryDialog.name := CategoryDialog.name typed;
         CategoryDialog.description := None |} /\
    CategoryDialog.handleSubmit (CategoryDialog.change_description "" typed) =
      CategoryDialog.onSave
        {| CategoryDialog.id := CategoryDialog.id typed;
           CategoryDialog.name := CategoryDialog.name typed;
           CategoryDialog.description := None |}.
Proof.
  intros P now id formData typed w Hempty.
  assert (Hcreate : js_get "description" (createCategory_values formData)
                    = Some JNull).
  { change (js_get "description" (createCategory_values formData))
      with (Some (nullable
                    (or_else (FormData_get "description" formData) None))).
    rewrite Hempty. reflexivity. }
  assert (Hupdate : js_get "description" (updateCategory_values now formData)
                    = Some JNull).
  { change (js_get "description" (updateCategory_values now formData))
      with (Some (nullable
                    (or_else (FormData_get "description" formData) None))).
    rewrite Hempty. reflexivity. }
  split; [reflexivity|]. split; [exact Hcreate|].
  split; [reflexivity|]. split; [exact Hupdate|].
  split; [|split; [|split; reflexivity]].
  - unfold createCategory.
    rewrite plain_mutation_result, plain_mutation_backend.
    unfold answer.
    change (await (q_insert "categories" (createCategory_values formData))
              (backend w))
      with (reply (backend w) 1
              (insert_into_categories (createCategory_values formData)
                 (backend w))).
    rewrite reply_error, reply_db.
    destruct (insert_into_categories _ _) as [d|e] eqn:Hrun;
      [|discriminate].
    intros _. exact (created_category_description _ _ _ Hempty Hrun).
  - unfold updateCategory.
    rewrite plain_mutation_result, plain_mutation_backend.
    unfold answer.
    change (await (q_update "categories" (updateCategory_values now formData)
                     "id" id) (backend w))
      with (reply (backend w) 0
              (update_categories (updateCategory_values now formData) id
                 (backend w))).
    rewrite reply_error, reply_db.
    destruct (update_categories _ _ _) as [d|e] eqn:Hrun; [|discriminate].
    intros _. exact (updated_category_description _ _ _ _ _ Hempty Hrun).
Qed.

Lemma empty_description_is_null_witness :
  FormData_get "description" [("name", "Toys"); ("description", "")]
    = Some "" /\
  js_get "description"
    (createCategory_values (P := simple_platform)
       [("name", "Toys"); ("description", "")]) = Some JNull /\
  exists r,
    categories
      (db (backend
             (snd (createCategory (P := simple_platform)
                     [("name", "Toys"); ("description", "")] shop_world))))
    = categories shop ++ [r] /\
    Categories.description r = None.
Proof.
  destruct (empty_description_is_null simple_platform "17" "c-food"
              [("name", "Toys"); ("description", "")]
              CategoryDialog.initial shop_world eq_refl)
    as (_ & Hbody & _ & _ & Hrow & _).
  split; [reflexivity|]. split; [exact Hbody|].
  apply Hrow. reflexivity.
Defined.

(** ** C5: deleting a category that products refer to *)

Lemma Forall2_map_image {A : Type} (R : A -> A -> Prop) (f : A -> A)
  (l : list A) :
  (forall x, R x (f x)) -> Forall2 R l (map f l).
Proof.
  intros Hf. induction l as [|x l IH]; cbn; constructor; auto.
Qed.

Lemma delete_category_request {P : Platform} (id : string) (s : Server) :
  await (q_delete "categories" "id" id) s =
  reply s 0 (delete_category (NOW s) id (db s)).
Proof. reflexivity. Qed.

(** C5, as amended.  Deleting a category that exists succeeds, and every
    product that referred to it is afterwards the same row with
    [category_id] null and with [updated_at] set to the time of the
    deletion, which the update trigger of [products] writes; the other
    products are unchanged. *)
Theorem deleting_referenced_category :
  forall (P : Platform) (w : World Server) (category : Categories.row)
    (product : Products.row),
    In category (categories (db (backend w))) ->
    In product (products (db (backend w))) ->
    Products.category_id product = Some (Categories.id category) ->
    let detached (old : Products.row) : Products.row :=
      {| Products.id := Products.id old;
         Products.name := Products.name old;
         Products.description := Products.description old;
         Products.category_id := None;
         Products.sku := Products.sku old;
         Products.price := Products.price old;
         Products.cost := Products.cost old;
         Products.stock := Products.stock old;
         Products.min_stock := Products.min_stock old;
         Products.unit := Products.unit old;
         Products.status := Products.status old;
         Products.created_at := Products.created_at old;
         Products.updated_at := Some (NOW (backend w)) |} in
    let after :=
      db (backend (snd (deleteCategory (Categories.id category) w))) in
    fst (deleteCategory (Categories.id category) w) =
      {| MutationResult.success := true; MutationResult.error := None |} /\
    In (detached product) (products after) /\
    Forall2
      (fun old new =>
         new = if option_eqb (Products.category_id old)
                    (Categories.id category)
               then detached old
               else old)
      (products (db (backend w))) (products after).
Proof.
  intros P w category product Hcategory Hproduct Hrefers. cbv zeta.
  unfold deleteCategory.
  rewrite plain_mutation_result, plain_mutation_backend.
  unfold answer. rewrite delete_category_request, reply_error, reply_db.
  unfold delete_category.
  assert (Hexists :
            existsb (fun c => String.eqb (Categories.id c)
                                (Categories.id category))
              (categories (db (backend w))) = true).
  { apply existsb_exists. exists category. split; [exact Hcategory|].
    apply String.eqb_refl. }
  rewrite Hexists. cbn [products with_products].
  split; [reflexivity|]. split.
  - apply in_map_iff. exists product. split; [|exact Hproduct].
    unfold category_deleted. rewrite Hrefers. cbn [option_eqb].
    rewrite String.eqb_refl. reflexivity.
  - apply Forall2_map_image. intros old. unfold category_deleted.
    destruct (option_eqb _ _); reflexivity.
Qed.

Lemma deleting_referenced_category_witness :
  In food (categories shop) /\
  In dog_food (products shop) /\
  Products.category_id dog_food = Some (Categories.id food) /\
  fst (deleteCategory (P := simple_platform) "c-food" shop_world) =
    {| MutationResult.success := true; MutationResult.error := None |}.
Proof.
  split; [left; reflexivity|]. split; [left; reflexivity|].
  split; [reflexivity|].
  exact (proj1 (deleting_referenced_category simple_platform shop_world
                  food dog_food (or_introl eq_refl) (or_introl eq_refl)
                  eq_refl)).
Defined.

(** C5 as stated fails: after the category [c-food] is deleted, the
    product that referred to it is not the old row with only
    [category_id] set to null. *)
Lemma deleting_category_touches_updated_at :
  ~ (forall product : Products.row,
       In product (products shop) ->
       Products.category_id product = Some "c-food" ->
       In (set_category_id None product)
          (products
             (db (backend
                    (snd (deleteCategory (P := simple_platform) "c-food"
                            shop_world)))))).
Proof.
  intro claim.
  specialize (claim dog_food (or_introl eq_refl) eq_refl).
  vm_compute in claim.
  destruct claim as [H|[H|[]]]; discriminate H.
Qed.

(** ** C6: duplicate keys *)

Lemma insert_category_duplicate_name (r : Categories.row) (d : Db) :
  existsb (fun o => String.eqb (Categories.name o) (Categories.name r))
    (categories d) = true ->
  exists e, insert_category r d = Raise e.
Proof.
  intros Htaken. unfold insert_category, category_violation.
  rewrite Htaken.
  match goal with
  | |- context [if ?c then _ else _] => destruct c
  end; eexists; reflexivity.
Qed.

Lemma insert_product_duplicate_sku (r : Products.row) (d : Db) :
  existsb (fun o => String.eqb (Products.sku o) (Products.sku r))
    (products d) = true ->
  exists e, insert_product r d = Raise e.
Proof.
  intros Htaken. unfold insert_product, product_violation.
  repeat match goal with
         | |- context [if negb ?c then _ else _] =>
             destruct (negb c); [eexists; reflexivity|]
         end.
  rewrite Htaken.
  match goal with
  | |- context [if ?c then _ else _] => destruct c
  end; eexists; reflexivity.
Qed.

Lemma insert_order_duplicate_number (r : Orders.row) (d : Db) :
  existsb
    (fun o => String.eqb (Orders.order_number o) (Orders.order_number r))
    (orders d) = true ->
  exists e, insert_order r d = Raise e.
Proof.
  intros Htaken. unfold insert_order, order_violation.
  repeat match goal with
         | |- context [if negb ?c then _ else _] =>
             destruct (negb c); [eexists; reflexivity|]
         end.
  rewrite Htaken.
  match goal with
  | |- context [if ?c then _ else _] => destruct c
  end; eexists; reflexivity.
Qed.

(** Rows that do not match pass through [update_where]. *)
Lemma update_where_none {R : Type} (matches : R -> bool)
  (upd : list R -> R -> PostgrestError + R) (rest : list R) :
  forall visited,
    existsb matches rest = false ->
    update_where matches upd visited rest = inr (visited ++ rest).
Proof.
  induction rest as [|r rest IH]; intros visited Hnone; cbn.
  - rewrite app_nil_r. reflexivity.
  - cbn in Hnone. apply orb_false_iff in Hnone as [Hr Hrest].
    rewrite Hr, (IH _ Hrest), <- app_assoc. reflexivity.
Qed.

(** [update_where] on a table in which one row matches. *)
Lemma update_where_one {R : Type} (matches : R -> bool)
  (upd : list R -> R -> PostgrestError + R) (old NEW : R)
  (above below : list R) :
  forall visited,
    existsb matches (above ++ below) = false ->
    matches old = true ->
    upd (visited ++ above ++ below) old = inr NEW ->
    update_where matches upd visited (above ++ old :: below) =
    inr (visited ++ above ++ NEW :: below).
Proof.
  induction above as [|r above IH]; intros visited Hnone Hold Hupd; cbn.
  - cbn in Hnone, Hupd. rewrite Hold, Hupd.
    rewrite (update_where_none _ _ _ _ Hnone), <- app_assoc. reflexivity.
  - cbn in Hnone. apply orb_false_iff in Hnone as [Hr Hrest].
    rewrite Hr. rewrite (IH (visited ++ [r]) Hrest Hold).
    + rewrite <- app_assoc. reflexivity.
    + rewrite <- app_assoc. exact Hupd.
Qed.

Lemma createCategory_duplicate_name {P : Platform} (formData : FormData)
  (n : string) (s : Server) :
  FormData_get "name" formData = Some n ->
  existsb (fun o => String.eqb (Categories.name o) n) (categories (db s))
    = true ->
  exists e, insert_into_categories (createCategory_values formData) s
            = Raise e.
Proof.
  intros Hname Htaken. unfold insert_into_categories.
  rewrite createCategory_cells, Hname. cbn.
  apply insert_category_duplicate_name. exact Htaken.
Qed.

(** C6, as amended.  On a data base that already has a category named as
    the form says, [createCategory] returns [{ success: false, error }]
    and leaves the tables as they were; [createProduct] does so for every
    form, a taken SKU included; an [INSERT] of a category, a product or an
    order whose name, SKU or order number is taken raises an error.  The
    sample data has two statements that do not: under
    [ON CONFLICT (sku) DO UPDATE] the row of [products] with the SKU is
    replaced by its update with the proposed values, and under
    [ON CONFLICT (name) DO NOTHING] the proposed category is dropped
    without an error and the tables stay as they were. *)
Theorem duplicate_keys :
  forall (P : Platform) (w : World Server) (formData productForm : FormData)
    (n : string) (category : Categories.row) (product : Products.row)
    (order : Orders.row) (now : timestamptz)
    (above below : list Products.row) (old : Products.row),
    let d := db (backend w) in
    let NEW := update_products_updated_at now (set_excluded product old) in
    FormData_get "name" formData = Some n ->
    existsb (fun o => String.eqb (Categories.name o) n) (categories d)
      = true ->
    existsb (fun o => String.eqb (Categories.name o)
                        (Categories.name category)) (categories d) = true ->
    existsb (fun o => String.eqb (Orders.order_number o)
                        (Orders.order_number order)) (orders d) = true ->
    products d = above ++ old :: below ->
    Products.sku old = Products.sku product ->
    existsb (fun o => String.eqb (Products.sku o) (Products.sku product))
      (above ++ below) = false ->
    product_violation d (above ++ below) NEW = None ->
    (exists m,
        fst (createCategory formData w) =
          {| MutationResult.success := false;
             MutationResult.error := Some m |}) /\
    db (backend (snd (createCategory formData w))) = d /\
    (exists m,
        fst (createProduct productForm w) =
          {| MutationResult.success := false;
             MutationResult.error := Some m |}) /\
    db (backend (snd (createProduct productForm w))) = d /\
    (exists e, insert_category category d = Raise e) /\
    (exists e, insert_product product d = Raise e) /\
    (exists e, insert_order order d = Raise e) /\
    upsert_product now product d =
      Done (with_products (above ++ NEW :: below) d) /\
    insert_category_do_nothing category d = Done d.
Proof.
  intros P w formData productForm n category product order now above below
    old. cbv zeta.
  intros Hname Htaken Hcategory Horder Htable Hsku Hothers Hvalid.
  assert (Hproduct :
            existsb (fun o => String.eqb (Products.sku o)
                                (Products.sku product))
              (products (db (backend w))) = true).
  { rewrite Htable. apply existsb_exists. exists old. split.
    - apply in_elt.
    - rewrite Hsku. apply String.eqb_refl. }
  destruct (createCategory_duplicate_name formData n (backend w) Hname Htaken)
    as [e He].
  unfold createCategory, createProduct.
  rewrite plain_mutation_result, plain_mutation_backend,
    revalidating_mutation_result, revalidating_mutation_backend.
  unfold answer.
  change (await (q_insert "categories" (createCategory_values formData))
            (backend w))
    with (reply (backend w) 1
            (insert_into_categories (createCategory_values formData)
               (backend w))).
  change (await (q_insert "products" (product_values productForm))
            (backend w))
    with (reply (backend w) 1 (Raise (column_not_found "category" "products"))).
  rewrite !reply_error, !reply_db, He.
  split; [eexists; reflexivity|]. split; [reflexivity|].
  split; [eexists; reflexivity|]. split; [reflexivity|].
  split; [exact (insert_category_duplicate_name _ _ Hcategory)|].
  split; [exact (insert_product_duplicate_sku _ _ Hproduct)|].
  split; [exact (insert_order_duplicate_number _ _ Horder)|].
  split.
  - unfold upsert_product. rewrite Hproduct, Htable.
    rewrite (update_where_one _ _ old
               (update_products_updated_at now (set_excluded product old))
               above below [] Hothers).
    + reflexivity.
    + rewrite Hsku. apply String.eqb_refl.
    + unfold conflict_update. cbn [app]. rewrite Hvalid. reflexivity.
  - unfold insert_category_do_nothing. rewrite Hcategory. reflexivity.
Qed.

Lemma duplicate_keys_witness :
  FormData_get "name" [("name", "Food"); ("description", "Kibble")]
    = Some "Food" /\
  existsb (fun o => String.eqb (Categories.name o) "Food") (categories shop)
    = true /\
  existsb (fun o => String.eqb (Orders.order_number o)
                      (Orders.order_number second_first_order))
    (orders shop) = true /\
  products shop = [] ++ dog_food :: [leash] /\
  Products.sku dog_food = Products.sku premium_dog_food /\
  existsb (fun o => String.eqb (Products.sku o)
                      (Products.sku premium_dog_food)) ([] ++ [leash])
    = false /\
  product_violation shop ([] ++ [leash])
    (update_products_updated_at 9%Z (set_excluded premium_dog_food dog_food))
    = None /\
  (exists m,
      fst (createCategory (P := simple_platform)
             [("name", "Food"); ("description", "Kibble")] shop_world) =
        {| MutationResult.success := false;
           MutationResult.error := Some m |}) /\
  upsert_product 9%Z premium_dog_food shop =
    Done (with_products
            ([] ++ update_products_updated_at 9%Z
                     (set_excluded premium_dog_food dog_food) :: [leash])
            shop) /\
  insert_category_do_nothing second_food shop = Done shop.
Proof.
  pose proof (duplicate_keys simple_platform shop_world
                [("name", "Food"); ("description", "Kibble")]
                (ProductDialog.form_data ready_dialog collar_fields)
                "Food" second_food premium_dog_food second_first_order 9%Z
                [] [leash] dog_food
                eq_refl eq_refl eq_refl eq_refl eq_refl eq_refl eq_refl
                eq_refl)
    as (Hcreate & _ & _ & _ & _ & _ & _ & Hupsert & Hnothing).
  repeat (split; [reflexivity|]).
  split; [exact Hcreate|]. split; [exact Hupsert|exact Hnothing].
Defined.

(** C6 as stated fails: the sample categories include one named [Food],
    the data base has a category of that name, and the statement that
    inserts the sample categories raises no error. *)
Lemma seed_categories_raises_no_error :
  ~ (In "Food" (map fst sample_categories) ->
     existsb (fun o => String.eqb (Categories.name o) "Food")
       (categories (db shop_server)) = true ->
     exists e, seed_categories shop_server = Raise e).
Proof.
  intro claim.
  destruct claim as [e He].
  - right. left. reflexivity.
  - reflexivity.
  - vm_compute in He. discriminate He.
Qed.

(** ** C9: the order of the listings *)

Section OrderBy.
Variable R : Type.
Variable le : R -> R -> bool.
Hypothesis le_total : forall a b, le a b = true \/ le b a = true.

Lemma insert_sorted_permutation (x : R) (l : list R) :
  Permutation (insert_sorted le x l) (x :: l).
Proof.
  induction l as [|y l IH]; cbn.
  - apply Permutation_refl.
  - destruct (le x y).
    + apply Permutation_refl.
    + apply perm_trans with (y :: x :: l).
      * apply perm_skip. exact IH.
      * apply perm_swap.
Qed.

Lemma order_by_permutation (l : list R) : Permutation (order_by le l) l.
Proof.
  induction l as [|x l IH]; cbn.
  - apply perm_nil.
  - apply perm_trans with (x :: order_by le l).
    + apply insert_sorted_permutation.
    + apply perm_skip. exact IH.
Qed.

Lemma insert_sorted_head (x y : R) (l : list R) :
  le y x = true ->
  HdRel (fun a b => le a b = true) y l ->
  HdRel (fun a b => le a b = true) y (insert_sorted le x l).
Proof.
  intros Hyx Hhd. destruct l as [|z l]; cbn.
  - constructor. exact Hyx.
  - destruct (le x z).
    + constructor. exact Hyx.
    + constructor. inversion Hhd; assumption.
Qed.

Lemma insert_sorted_sorted (x : R) (l : list R) :
  Sorted (fun a b => le a b = true) l ->
  Sorted (fun a b => le a b = true) (insert_sorted le x l).
Proof.
  induction l as [|y l IH]; intros Hsorted; cbn.
  - constructor; constructor.
  - destruct (le x y) eqn:Hxy.
    + constructor; [exact Hsorted|]. constructor. exact Hxy.
    + inversion Hsorted as [|? ? Htail Hhd]; subst.
      constructor; [exact (IH Htail)|].
      apply insert_sorted_head; [|exact Hhd].
      destruct (le_total x y) as [H|H]; [congruence|exact H].
Qed.

Lemma order_by_sorted (l : list R) :
  Sorted (fun a b => le a b = true) (order_by le l).
Proof.
  induction l as [|x l IH]; cbn.
  - constructor.
  - apply insert_sorted_sorted. exact IH.
Qed.

End OrderBy.

Lemma timestamptz_le_total (x y : option timestamptz) :
  timestamptz_le x y = true \/ timestamptz_le y x = true.
Proof.
  destruct x as [a|], y as [b|]; cbn; auto.
  destruct (Z.leb_spec a b); [left; reflexivity|].
  right. apply Z.leb_le. lia.
Qed.

(** C9.  On the schema, with a collation that compares any two texts,
    [getCategories] and [getCategoriesForSelect] return the rows of
    [categories] in ascending order of [name], and [getProducts] returns
    the rows of [products] in descending order of [created_at], each with
    a [null] error. *)
Theorem listings_are_ordered :
  forall (P : Platform) (w : World Server),
    (forall a b : string, text_le a b = true \/ text_le b a = true) ->
    exists (by_name : list Categories.row)
           (newest_first : list Products.row),
      Permutation by_name (categories (db (backend w))) /\
      Sorted (fun a b => text_le (Categories.name a) (Categories.name b)
                         = true) by_name /\
      fst (getCategories w) =
        {| CategoriesResult.categories := map category_json by_name;
           CategoriesResult.error := None |} /\
      fst (getCategoriesForSelect w) =
        {| CategoriesResult.categories := map category_id_name_json by_name;
           CategoriesResult.error := None |} /\
      Permutation newest_first (products (db (backend w))) /\
      Sorted (fun a b => timestamptz_le (Products.created_at b)
                           (Products.created_at a) = true) newest_first /\
      fst (getProducts w) =
        {| ProductsResult.products :=
             map (fun r => with_category_name
                             (product_json (db (backend w)) r))
               newest_first;
           ProductsResult.error := None |}.
Proof.
  intros P w Htotal.
  exists (order_by (by_name true) (categories (db (backend w)))),
         (order_by (by_created_at false) (products (db (backend w)))).
  split; [apply order_by_permutation|].
  split.
  { apply (order_by_sorted _ (by_name true)).
    intros a b. apply Htotal. }
  split.
  { unfold getCategories, bind. rewrite query_runs. reflexivity. }
  split.
  { unfold getCategoriesForSelect, bind. rewrite query_runs. reflexivity. }
  split; [apply order_by_permutation|].
  split.
  { apply (order_by_sorted _ (by_created_at false)).
    intros a b. apply timestamptz_le_total. }
  unfold getProducts, bind. rewrite query_runs.
  cbn. rewrite map_map. reflexivity.
Qed.

Lemma listings_are_ordered_witness :
  exists (by_name : list Categories.row) (newest_first : list Products.row),
    Permutation by_name [food; accessories] /\
    fst (getCategories (P := simple_platform) shop_world) =
      {| CategoriesResult.categories := map category_json by_name;
         CategoriesResult.error := None |} /\
    Permutation newest_first [dog_food; leash] /\
    fst (getProducts (P := simple_platform) shop_world) =
      {| ProductsResult.products :=
           map (fun r => with_category_name (product_json shop r))
             newest_first;
         ProductsResult.error := None |}.
Proof.
  destruct (listings_are_ordered simple_platform shop_world String.leb_total)
    as (by_name & newest_first & Hc & _ & Hget & _ & Hp & _ & Hproducts).
  exists by_name, newest_first.
  split; [exact Hc|]. split; [exact Hget|].
  split; [exact Hp|exact Hproducts].
Defined.

(** ** C7: the search filter *)

Lemma starts_with_spec (p s : string) :
  starts_with p s = true <-> exists rest, s = (p ++ rest)%string.
Proof.
  revert s. induction p as [|a p IH]; intros s; cbn.
  - split; [intros _; exists s; reflexivity|reflexivity].
  - destruct s as [|b s].
    + split; [discriminate|]. intros [rest Hrest]. discriminate Hrest.
    + rewrite andb_true_iff, IH. split.
      * intros [Hab [rest Hrest]]. apply Ascii.eqb_eq in Hab. subst.
        exists rest. reflexivity.
      * intros [rest Hrest]. inversion Hrest; subst. split.
        -- apply Ascii.eqb_refl.
        -- exists rest. reflexivity.
Qed.

(** [includes] decides the substring relation. *)
Lemma includes_spec (s needle : string) :
  includes s needle = true <->
  exists before after, s = (before ++ needle ++ after)%string.
Proof.
  induction s as [|a s IH]; cbn [includes].
  - rewrite orb_false_r, starts_with_spec. split.
    + intros [rest Hrest]. exists EmptyString, rest. exact Hrest.
    + intros [before [after Hs]]. destruct before; [|discriminate Hs].
      exists after. exact Hs.
  - rewrite orb_true_iff, starts_with_spec, IH. split.
    + intros [[rest Hrest]|[before [after Hs]]].
      * exists EmptyString, rest. exact Hrest.
      * exists (String a before), after. cbn. rewrite Hs. reflexivity.
    + intros [before [after Hs]]. destruct before as [|b before].
      * left. exists after. exact Hs.
      * right. cbn in Hs. inversion Hs; subst.
        exists before, after. reflexivity.
Qed.

Lemma string_truthy_spec (s : string) :
  string_truthy s = true <-> s <> "".
Proof.
  destruct s; cbn; split; congruence.
Qed.

Section SearchFilter.
Context {P : Platform}.
Hypothesis lower_empty : toLowerCase "" = "".
Hypothesis lower_nonempty : forall t, toLowerCase t = "" -> t = "".

(** The predicate of the filter is the one the specification words. *)
Lemma matches_spec (term : string) (c : CategoriesPage.Category) :
  term <> "" ->
  (CategoriesPage.matches term c = true <-> found_by term c).
Proof.
  intros Hterm. unfold CategoriesPage.matches, found_by,
    contains_ignoring_case.
  rewrite orb_true_iff, includes_spec. split.
  - intros [Hname|Hdescription]; [left; exact Hname|right].
    destruct (CategoriesPage.description c) as [d|]; [|discriminate].
    apply andb_true_iff in Hdescription as [_ Hd].
    exists d. split; [reflexivity|]. apply includes_spec. exact Hd.
  - intros [Hname|[d [Hsome Hd]]]; [left; exact Hname|right].
    rewrite Hsome. apply andb_true_iff. split.
    + apply string_truthy_spec. intros ->.
      destruct Hd as [before [after Hd]]. rewrite lower_empty in Hd.
      apply Hterm, lower_nonempty.
      destruct before; [|discriminate Hd].
      destruct (toLowerCase term); [reflexivity|discriminate Hd].
    + apply includes_spec. exact Hd.
Qed.

End SearchFilter.

Section ShownList.
Context {P : Platform}.

Lemma search_effect_filtered (s : CategoriesPage.State) :
  CategoriesPage.filteredCategories (CategoriesPage.search_effect s) =
  if string_truthy (CategoriesPage.searchTerm s)
  then filter (CategoriesPage.matches (CategoriesPage.searchTerm s))
         (CategoriesPage.categories s)
  else CategoriesPage.categories s.
Proof.
  unfold CategoriesPage.search_effect.
  destruct (string_truthy (CategoriesPage.searchTerm s)); reflexivity.
Qed.

Lemma filter_applied_after_effect (s : CategoriesPage.State) :
  filter_applied (CategoriesPage.search_effect s).
Proof.
  unfold filter_applied. rewrite !search_effect_filtered.
  unfold CategoriesPage.search_effect.
  destruct (string_truthy (CategoriesPage.searchTerm s)) eqn:Hterm;
    cbn; rewrite Hterm; reflexivity.
Qed.

Lemma filter_applied_frame (s s' : CategoriesPage.State) :
  CategoriesPage.filteredCategories s' = CategoriesPage.filteredCategories s ->
  CategoriesPage.searchTerm s' = CategoriesPage.searchTerm s ->
  CategoriesPage.categories s' = CategoriesPage.categories s ->
  filter_applied s -> filter_applied s'.
Proof.
  unfold filter_applied. rewrite !search_effect_filtered.
  intros -> -> ->. auto.
Qed.

Ltac framed p :=
  apply (filter_applied_frame (CategoriesPage.state p));
  [reflexivity|reflexivity|reflexivity|assumption].

Lemma step_keeps_filter_applied (e : CategoriesPage.Event)
  (p p' : CategoriesPage.Page) :
  CategoriesPage.step e p = Some p' ->
  filter_applied (CategoriesPage.state p) ->
  filter_applied (CategoriesPage.state p').
Proof.
  intros Hstep Hok.
  destruct e as [|cause outcome|value| |row|row confirmed|id outcome|n];
    cbn [CategoriesPage.step] in Hstep.
  - inversion Hstep; subst.
    apply (filter_applied_frame
             (CategoriesPage.search_effect (CategoriesPage.state p)));
      try reflexivity.
    apply filter_applied_after_effect.
  - destruct (CategoriesPage.settle _ _) as [l|]; [|discriminate].
    inversion Hstep; subst. unfold CategoriesPage.fetchCategories_settled.
    destruct outcome as [result|]; [|framed p].
    destruct (match snd result with Some e => string_truthy e | None => false
              end); [framed p|].
    apply filter_applied_after_effect.
  - inversion Hstep; subst. apply filter_applied_after_effect.
  - inversion Hstep; subst. framed p.
  - destruct (CategoriesPage.shown _ _); [|discriminate].
    inversion Hstep; subst. framed p.
  - destruct (CategoriesPage.shown _ _) as [c|]; [|discriminate].
    destruct (CategoriesPage.delete_disabled _ _); [discriminate|].
    destruct (string_truthy _); inversion Hstep; subst; [|assumption].
    unfold CategoriesPage.handleDelete.
    destruct confirmed; [framed p|assumption].
  - destruct (CategoriesPage.settle _ _) as [l|]; [|discriminate].
    inversion Hstep; subst. unfold CategoriesPage.handleDelete_settled.
    destruct outcome as [result|]; [|framed p].
    destruct (match MutationResult.error result with
              | Some e => string_truthy e
              | None => false
              end); [framed p|].
    destruct (MutationResult.success result); framed p.
  - destruct (CategoriesPage.isDialogOpen _); [|discriminate].
    destruct n as [o|c].
    + inversion Hstep; subst. framed p.
    + destruct (_ || _); [discriminate|].
      inversion Hstep; subst. framed p.
Qed.

Lemma run_keeps_filter_applied (events : list CategoriesPage.Event) :
  forall p p' : CategoriesPage.Page,
    CategoriesPage.run events p = Some p' ->
    filter_applied (CategoriesPage.state p) ->
    filter_applied (CategoriesPage.state p').
Proof.
  induction events as [|e events IH]; intros p p' Hrun Hok; cbn in Hrun.
  - inversion Hrun; subst. exact Hok.
  - destruct (CategoriesPage.step e p) as [q|] eqn:Hstep; [|discriminate].
    apply (IH q p' Hrun). exact (step_keeps_filter_applied _ _ _ Hstep Hok).
Qed.

End ShownList.

(** C7.  The effect on the search term and the categories sets the
    filtered list to the categories, in their order, whose name or
    non-null description contains the term ignoring case, and to all
    categories when the term is empty; it changes nothing else.  And in
    every state the page reaches from its start, the list it shows is the
    one the effect gives for the current term and categories.  The
    lower-casing of the engine is assumed to send the empty text, and no
    other, to the empty text. *)
Theorem search_shows_matching_categories :
  forall (P : Platform) (s : CategoriesPage.State)
    (events : list CategoriesPage.Event) (p : CategoriesPage.Page),
    toLowerCase "" = "" ->
    (forall t, toLowerCase t = "" -> t = "") ->
    (exists shown : CategoriesPage.Category -> bool,
        (forall c, shown c = true <->
                   CategoriesPage.searchTerm s = "" \/
                   found_by (CategoriesPage.searchTerm s) c) /\
        CategoriesPage.search_effect s =
          CategoriesPage.setFilteredCategories
            (filter shown (CategoriesPage.categories s)) s /\
        (CategoriesPage.searchTerm s = "" ->
         CategoriesPage.filteredCategories (CategoriesPage.search_effect s) =
         CategoriesPage.categories s)) /\
    (CategoriesPage.run events CategoriesPage.start = Some p ->
     CategoriesPage.filteredCategories (CategoriesPage.state p) =
     CategoriesPage.filteredCategories
       (CategoriesPage.search_effect (CategoriesPage.state p))).
Proof.
  intros P s events p Hempty Hnonempty.
  split;
    [|intros Hrun;
      exact (run_keeps_filter_applied events _ _ Hrun eq_refl)].
  unfold CategoriesPage.search_effect.
  destruct (CategoriesPage.searchTerm s) as [|a term] eqn:Hterm.
  - exists (fun _ => true). cbn [string_truthy]. split; [|split].
    + intros c. split; auto.
    + f_equal. clear. induction (CategoriesPage.categories s) as [|c l IH];
        cbn; [reflexivity|]. rewrite <- IH. reflexivity.
    + reflexivity.
  - exists (CategoriesPage.matches (String a term)). cbn [string_truthy].
    split; [|split].
    + intros c. rewrite (matches_spec Hempty Hnonempty); [|discriminate].
      split; [auto|]. intros [H|H]; [discriminate H|exact H].
    + reflexivity.
    + discriminate.
Qed.

Lemma search_shows_matching_categories_witness :
  toLowerCase (Platform := simple_platform) "" = "" /\
  (forall t, toLowerCase (Platform := simple_platform) t = "" -> t = "") /\
  exists shown : CategoriesPage.Category -> bool,
    (forall c, shown c = true <->
               "FOOD" = "" \/ found_by (P := simple_platform) "FOOD" c) /\
    CategoriesPage.filteredCategories
      (CategoriesPage.search_effect (P := simple_platform)
         (CategoriesPage.setSearchTerm "FOOD"
            (CategoriesPage.state food_page))) =
    filter shown [food_category].
Proof.
  assert (Hnonempty :
            forall t, toLowerCase (Platform := simple_platform) t = "" ->
                      t = "").
  { intros t. destruct t; cbn; [reflexivity|discriminate]. }
  split; [reflexivity|]. split; [exact Hnonempty|].
  destruct (search_shows_matching_categories simple_platform
              (CategoriesPage.setSearchTerm "FOOD"
                 (CategoriesPage.state food_page))
              [] CategoriesPage.start
              eq_refl Hnonempty) as ((shown & Hshown & Heffect & _) & _).
  exists shown. split; [exact Hshown|].
  rewrite Heffect. reflexivity.
Defined.

(** ** C8: failed calls and the rendered list *)

Section FailedCalls.
Context {P : Platform}.

(** A fetch that fails with a message leaves both lists as they were and
    raises a toast. *)
Lemma failed_fetch_keeps_lists (result : list CategoriesPage.Category)
  (e : string) (p : CategoriesPage.Page) :
  e <> "" ->
  CategoriesPage.fetchCategories_settled (resolved (result, Some e)) p =
  CategoriesPage.update (CategoriesPage.setIsLoading false)
    (CategoriesPage.toast
       (CategoriesPage.toast_error "Failed to load categories") p).
Proof.
  intros He. unfold CategoriesPage.fetchCategories_settled. cbn [snd].
  apply string_truthy_spec in He. rewrite He. reflexivity.
Qed.

(** So does a fetch whose call was rejected. *)
Lemma rejected_fetch_keeps_lists (p : CategoriesPage.Page) :
  CategoriesPage.fetchCategories_settled rejected p =
  CategoriesPage.update (CategoriesPage.setIsLoading false)
    (CategoriesPage.toast
       (CategoriesPage.toast_error "Failed to load categories") p).
Proof. reflexivity. Qed.

(** A delete that did not succeed leaves both lists as they were and
    starts no fetch. *)
Lemma failed_delete_keeps_lists (result : MutationResult.t)
  (p : CategoriesPage.Page) :
  MutationResult.success result = false ->
  let after := CategoriesPage.handleDelete_settled (resolved result) p in
  CategoriesPage.categories (CategoriesPage.state after) =
    CategoriesPage.categories (CategoriesPage.state p) /\
  CategoriesPage.filteredCategories (CategoriesPage.state after) =
    CategoriesPage.filteredCategories (CategoriesPage.state p) /\
  CategoriesPage.in_flight after = CategoriesPage.in_flight p.
Proof.
  intros Hfailed. cbv zeta. unfold CategoriesPage.handleDelete_settled.
  rewrite Hfailed.
  destruct (MutationResult.error result) as [e|];
    [destruct (string_truthy e)|]; repeat split.
Qed.

End FailedCalls.

(** C8, evaluated on the code.  The page shows the category [Food] and a
    fetch is in flight.  [getCategories] settles with an empty array and
    the error message of a response that had no body, the empty string:
    the page takes the result for a success, replaces its list by the
    empty array, shows the empty table and raises no toast. *)
Theorem empty_error_message_clears_the_list :
  forall (P : Platform),
    let waiting :=
      CategoriesPage.fetchCategories CategoriesPage.on_save food_page in
    exists after,
      CategoriesPage.step
        (CategoriesPage.getCategories_settled CategoriesPage.on_save
           (resolved ([], Some ""))) waiting = Some after /\
      CategoriesPage.filteredCategories (CategoriesPage.state waiting) =
        [food_category] /\
      CategoriesPage.categories (CategoriesPage.state after) = [] /\
      CategoriesPage.filteredCategories (CategoriesPage.state after) = [] /\
      CategoriesPage.table_body (CategoriesPage.state after) =
        CategoriesPage.empty_row /\
      CategoriesPage.toasts after = [].
Proof.
  intros P. cbv zeta. eexists. split; [reflexivity|].
  repeat split.
Qed.

(** ** C4: buttons while a call is in flight *)

(** C4, evaluated on the code.  The page renders the category dialog with
    [isSaving] false in every state, so its submit button is never
    disabled.  After the page has loaded, the user opens the dialog and
    submits it; the call this starts is in flight when the user opens the
    dialog again, and the submit button is enabled and can be pressed a
    second time. *)
Theorem save_button_is_never_disabled :
  forall (P : Platform),
    (forall s : CategoriesPage.State,
        CategoryDialog.save_disabled (CategoriesPage.dialog_props s)
        = false) /\
    exists p,
      CategoriesPage.run
        [ CategoriesPage.mounted;
          CategoriesPage.getCategories_settled CategoriesPage.on_mount
            (resolved ([food_category], None));
          CategoriesPage.add_clicked;
          CategoriesPage.dialog (CategoryDialog.onSave toys_typed);
          CategoriesPage.add_clicked ]
        CategoriesPage.start = Some p /\
      CategoriesPage.in_flight p =
        [CategoriesPage.getCategories_call CategoriesPage.on_save] /\
      CategoriesPage.isDialogOpen (CategoriesPage.state p) = true /\
      CategoryDialog.save_disabled
        (CategoriesPage.dialog_props (CategoriesPage.state p)) = false /\
      exists p',
        CategoriesPage.step
          (CategoriesPage.dialog (CategoryDialog.onSave toys_typed)) p
        = Some p' /\
        CategoriesPage.in_flight p' =
          [CategoriesPage.getCategories_call CategoriesPage.on_save;
           CategoriesPage.getCategories_call CategoriesPage.on_save].
Proof.
  intros P. split; [reflexivity|].
  eexists. split; [reflexivity|].
  split; [reflexivity|]. split; [reflexivity|]. split; [reflexivity|].
  eexists. split; reflexivity.
Qed.

(** The page keeps one [isDeleting]: a second delete started while the
    first is in flight takes the mark, and the button of the first row is
    enabled again although its call has not settled. *)
Lemma second_delete_enables_first_button :
  forall (P : Platform),
    exists p,
      CategoriesPage.run
        [ CategoriesPage.mounted;
          CategoriesPage.getCategories_settled CategoriesPage.on_mount
            (resolved ([food_category; accessories_category], None));
          CategoriesPage.delete_clicked 0 true;
          CategoriesPage.delete_clicked 1 true ]
        CategoriesPage.start = Some p /\
      CategoriesPage.in_flight p =
        [CategoriesPage.deleteCategory_call "c-food";
         CategoriesPage.deleteCategory_call "c-acc"] /\
      CategoriesPage.delete_disabled (CategoriesPage.state p) food_category
      = false.
Proof.
  intros P. eexists. split; [reflexivity|]. split; reflexivity.
Qed.

(** The product dialog does disable its buttons from the submission until
    the call has settled. *)
Lemma product_dialog_disables_submit (mode : ProductDialog.Mode)
  (product : string) (fields : ProductDialog.Fields)
  (s : ProductDialog.State) (outcome : Settled MutationResult.t) :
  let submitted := fst (ProductDialog.handleSubmit mode product fields s) in
  ProductDialog.submit_disabled submitted = true /\
  ProductDialog.cancel_disabled submitted = true /\
  ProductDialog.submit_disabled
    (fst (ProductDialog.settled outcome submitted)) = false.
Proof.
  cbv zeta. split; [reflexivity|]. split; [reflexivity|].
  unfold ProductDialog.settled.
  destruct outcome as [result|];
    [destruct (MutationResult.success result)|]; reflexivity.
Qed.

(* ================================================================= *)
(** * Further properties *)

(** ** Keys and references *)

Lemma key_absent {R : Type} (k : R -> string) (x : string) (l : list R) :
  existsb (fun o => String.eqb (k o) x) l = false -> ~ In x (map k l).
Proof.
  induction l as [|r l IH]; cbn; intros Hnone; [tauto|].
  apply orb_false_iff in Hnone as [Hr Hl]. intros [Hx|Hx].
  - rewrite Hx, String.eqb_refl in Hr. discriminate Hr.
  - exact (IH Hl Hx).
Qed.

Lemma key_present {R : Type} (k : R -> string) (x : string) (l : list R) :
  existsb (fun o => String.eqb (k o) x) l = true <-> In x (map k l).
Proof.
  rewrite existsb_exists, in_map_iff. split.
  - intros [r [Hr Hk]]. apply String.eqb_eq in Hk. exists r. auto.
  - intros [r [Hk Hr]]. exists r. split; [exact Hr|].
    apply String.eqb_eq. exact Hk.
Qed.

Lemma reference_present {R : Type} (ref : R -> option uuid) (x : uuid)
  (l : list R) :
  existsb (fun o => option_eqb (ref o) x) l = true <->
  exists r, In r l /\ ref r = Some x.
Proof.
  rewrite existsb_exists. split; intros [r [Hr Hx]]; exists r;
    (split; [exact Hr|]).
  - destruct (ref r) as [y|]; [|discriminate Hx].
    apply String.eqb_eq in Hx. subst. reflexivity.
  - rewrite Hx. apply String.eqb_refl.
Qed.

Lemma category_violation_none (others : list Categories.row)
  (r : Categories.row) :
  category_violation others r = None ->
  ~ In (Categories.id r) (map Categories.id others) /\
  ~ In (Categories.name r) (map Categories.name others).
Proof.
  unfold category_violation.
  destruct (existsb (fun o => String.eqb (Categories.id o) _) others)
    eqn:Hid; [discriminate|].
  destruct (existsb (fun o => String.eqb (Categories.name o) _) others)
    eqn:Hname; [discriminate|].
  intros _. split; eapply key_absent; eassumption.
Qed.

Lemma product_violation_none (d : Db) (others : list Products.row)
  (r : Products.row) :
  product_violation d others r = None ->
  product_checks r = true /\
  ~ In (Products.id r) (map Products.id others) /\
  ~ In (Products.sku r) (map Products.sku others) /\
  refers_into (map Categories.id (categories d)) (Products.category_id r).
Proof.
  unfold product_violation, product_checks.
  destruct (0 <=? Products.price r)%Z; [|discriminate].
  destruct (nonneg (Products.cost r)); [|discriminate].
  destruct (nonneg (Products.stock r)); [|discriminate].
  destruct (one_of _ (Products.status r)); [|discriminate].
  cbn [negb andb].
  destruct (existsb (fun o => String.eqb (Products.id o) _) others)
    eqn:Hid; [discriminate|].
  destruct (existsb (fun o => String.eqb (Products.sku o) _) others)
    eqn:Hsku; [discriminate|].
  intros Hfk. split; [reflexivity|].
  split; [eapply key_absent; eassumption|].
  split; [eapply key_absent; eassumption|].
  destruct (Products.category_id r) as [c|]; [|exact I].
  destruct (existsb (fun o => String.eqb (Categories.id o) c) (categories d))
    eqn:Hc; [|discriminate Hfk].
  apply (key_present Categories.id). exact Hc.
Qed.

(** ** What an [UPDATE] keeps *)

Section UpdateWhere.
Variable R : Type.
Variable matches : R -> bool.
Variable upd : list R -> R -> PostgrestError + R.

Lemma update_where_length :
  forall (rest visited l : list R),
    update_where matches upd visited rest = inr l ->
    length l = length visited + length rest.
Proof.
  induction rest as [|r rest IH]; intros visited l Hrun; cbn in Hrun.
  - inversion Hrun; subst. cbn. lia.
  - destruct (matches r).
    + destruct (upd (visited ++ rest) r) as [e|r']; [discriminate|].
      rewrite (IH _ _ Hrun), length_app. cbn. lia.
    + rewrite (IH _ _ Hrun), length_app. cbn. lia.
Qed.

(** A key stays unique when every new row is checked against the others. *)
Lemma update_where_NoDup (k : R -> string) :
  (forall others old r',
      upd others old = inr r' -> ~ In (k r') (map k others)) ->
  forall (rest visited l : list R),
    update_where matches upd visited rest = inr l ->
    NoDup (map k (visited ++ rest)) ->
    NoDup (map k l).
Proof.
  intros Hfresh rest.
  induction rest as [|r rest IH]; intros visited l Hrun Hkeys;
    cbn in Hrun.
  - inversion Hrun; subst. rewrite app_nil_r in Hkeys. exact Hkeys.
  - destruct (matches r).
    + destruct (upd (visited ++ rest) r) as [e|r'] eqn:Hupd; [discriminate|].
      apply (IH (visited ++ [r']) l Hrun).
      rewrite <- app_assoc. cbn [app].
      rewrite map_app in Hkeys. cbn [map] in Hkeys.
      apply NoDup_remove_1 in Hkeys.
      rewrite map_app. cbn [map].
      apply (Permutation_NoDup (Permutation_middle _ _ _)).
      constructor; [|exact Hkeys].
      rewrite <- map_app. exact (Hfresh _ _ _ Hupd).
    + apply (IH (visited ++ [r]) l Hrun).
      rewrite <- app_assoc. exact Hkeys.
Qed.

(** A key that every update of a row carrying it leaves alone is still
    there afterwards. *)
Lemma update_where_key_kept (k : R -> string) (x : string) :
  (forall others old r',
      k old = x -> upd others old = inr r' -> k r' = x) ->
  forall (rest visited l : list R),
    update_where matches upd visited rest = inr l ->
    In x (map k (visited ++ rest)) ->
    In x (map k l).
Proof.
  intros Hkept rest.
  induction rest as [|r rest IH]; intros visited l Hrun Hx; cbn in Hrun.
  - inversion Hrun; subst. rewrite app_nil_r in Hx. exact Hx.
  - rewrite map_app in Hx. cbn [map] in Hx.
    destruct (matches r).
    + destruct (upd (visited ++ rest) r) as [e|r'] eqn:Hupd; [discriminate|].
      apply (IH (visited ++ [r']) l Hrun).
      rewrite <- app_assoc, map_app. cbn [app map].
      apply in_app_or in Hx as [Hx|[Hx|Hx]].
      * apply in_or_app. left. exact Hx.
      * apply in_or_app. right. left. exact (Hkept _ _ _ Hx Hupd).
      * apply in_or_app. right. right. exact Hx.
    + apply (IH (visited ++ [r]) l Hrun).
      rewrite <- app_assoc, map_app. exact Hx.
Qed.

End UpdateWhere.

Lemma NoDup_map_filter {R : Type} (k : R -> string) (f : R -> bool)
  (l : list R) :
  NoDup (map k l) -> NoDup (map k (filter f l)).
Proof.
  induction l as [|r l IH]; cbn; intros Hkeys; [constructor|].
  inversion Hkeys as [|? ? Hr Hl]; subst.
  destruct (f r); [|exact (IH Hl)].
  cbn. constructor; [|exact (IH Hl)].
  intros Hin. apply Hr. apply in_map_iff in Hin as [o [Hk Ho]].
  apply filter_In in Ho as [Ho _]. apply in_map_iff. exists o. auto.
Qed.

Lemma references_follow {R : Type} (ref : R -> option uuid)
  (keys keys' : list uuid) (l : list R) :
  (forall r x, In r l -> ref r = Some x -> In x keys -> In x keys') ->
  Forall (fun r => refers_into keys (ref r)) l ->
  Forall (fun r => refers_into keys' (ref r)) l.
Proof.
  intros Hfollow Hrefs. apply Forall_forall. intros r Hr.
  rewrite Forall_forall in Hrefs. specialize (Hrefs r Hr).
  unfold refers_into in *. destruct (ref r) as [x|] eqn:Hx; [|exact I].
  exact (Hfollow r x Hr Hx Hrefs).
Qed.

(** ** The constraints under each statement *)

Lemma NoDup_snoc {A : Type} (x : A) (l : list A) :
  NoDup l -> ~ In x l -> NoDup (l ++ [x]).
Proof.
  intros Hl Hx. apply (Permutation_NoDup (Permutation_cons_append l x)).
  constructor; assumption.
Qed.

Lemma insert_category_consistent (r : Categories.row) (d d' : Db) :
  insert_category r d = Done d' -> consistent d -> consistent d'.
Proof.
  unfold insert_category.
  destruct (category_violation (categories d) r) eqn:Hok; [discriminate|].
  intros Hdone [Hcid Hcname Hpid Hpsku Hcheck Hfk Hitems].
  inversion Hdone; subst.
  apply category_violation_none in Hok as [Hid Hname].
  constructor; cbn [categories products order_items with_categories];
    try assumption.
  - rewrite map_app. apply NoDup_snoc; assumption.
  - rewrite map_app. apply NoDup_snoc; assumption.
  - revert Hfk. apply references_follow. intros _ x _ _ Hx.
    rewrite map_app. apply in_or_app. left. exact Hx.
Qed.

Lemma insert_product_consistent (r : Products.row) (d d' : Db) :
  insert_product r d = Done d' -> consistent d -> consistent d'.
Proof.
  unfold insert_product.
  destruct (product_violation d (products d) r) eqn:Hok; [discriminate|].
  intros Hdone [Hcid Hcname Hpid Hpsku Hcheck Hfk Hitems].
  inversion Hdone; subst.
  apply product_violation_none in Hok as (Hchecks & Hid & Hsku & Href).
  constructor; cbn [categories products order_items with_products];
    try assumption.
  - rewrite map_app. apply NoDup_snoc; assumption.
  - rewrite map_app. apply NoDup_snoc; assumption.
  - apply Forall_app. split; [exact Hcheck|]. constructor; [exact Hchecks|].
    constructor.
  - apply Forall_app. split; [exact Hfk|]. constructor; [exact Href|].
    constructor.
  - revert Hitems. apply references_follow. intros _ x _ _ Hx.
    rewrite map_app. apply in_or_app. left. exact Hx.
Qed.

Lemma key_survives_filter {R : Type} (k : R -> string) (gone x : string)
  (l : list R) :
  x <> gone ->
  In x (map k l) ->
  In x (map k (filter (fun r => negb (String.eqb (k r) gone)) l)).
Proof.
  intros Hx Hin. apply in_map_iff in Hin as [r [Hk Hr]].
  apply in_map_iff. exists r. split; [exact Hk|].
  apply filter_In. split; [exact Hr|].
  apply negb_true_iff, String.eqb_neq. congruence.
Qed.

Lemma category_deleted_keeps (now : timestamptz) (category : uuid)
  (r : Products.row) :
  Products.id (category_deleted now category r) = Products.id r /\
  Products.sku (category_deleted now category r) = Products.sku r /\
  product_checks (category_deleted now category r) = product_checks r.
Proof.
  unfold category_deleted. destruct (option_eqb _ _); repeat split.
Qed.

Lemma delete_category_consistent (now : timestamptz) (category : uuid)
  (d d' : Db) :
  delete_category now category d = Done d' -> consistent d -> consistent d'.
Proof.
  unfold delete_category.
  destruct (existsb _ (categories d)); intros Hdone Hd;
    inversion Hdone; subst; [|exact Hd].
  destruct Hd as [Hcid Hcname Hpid Hpsku Hcheck Hfk Hitems].
  assert (Hids : map Products.id
                   (map (category_deleted now category) (products d))
                 = map Products.id (products d)).
  { rewrite map_map. apply map_ext. intros r.
    apply category_deleted_keeps. }
  constructor;
    cbn [categories products order_items with_categories with_products].
  - apply NoDup_map_filter. exact Hcid.
  - apply NoDup_map_filter. exact Hcname.
  - rewrite Hids. exact Hpid.
  - rewrite map_map.
    rewrite (map_ext _ Products.sku); [exact Hpsku|].
    intros r. apply category_deleted_keeps.
  - apply Forall_map. revert Hcheck. apply Forall_impl. intros r Hr.
    rewrite <- Hr. apply category_deleted_keeps.
  - apply Forall_map. revert Hfk. apply Forall_impl. intros r Hr.
    unfold category_deleted.
    destruct (Products.category_id r) as [x|] eqn:Hx; cbn [option_eqb].
    + destruct (String.eqb x category) eqn:Hsame; [exact I|].
      rewrite Hx. cbn. apply (key_survives_filter Categories.id).
      * apply String.eqb_neq. exact Hsame.
      * exact Hr.
    + rewrite Hx. exact I.
  - rewrite Hids. exact Hitems.
Qed.

Lemma delete_product_consistent (product : uuid) (d d' : Db) :
  delete_product product d = Done d' -> consistent d -> consistent d'.
Proof.
  unfold delete_product.
  destruct (existsb _ (products d)); intros Hdone Hd;
    inversion Hdone; subst; [|exact Hd].
  destruct Hd as [Hcid Hcname Hpid Hpsku Hcheck Hfk Hitems].
  constructor;
    cbn [categories products order_items with_order_items with_products];
    try assumption.
  - apply NoDup_map_filter. exact Hpid.
  - apply NoDup_map_filter. exact Hpsku.
  - apply Forall_forall. intros r Hr. apply filter_In in Hr as [Hr _].
    rewrite Forall_forall in Hcheck. exact (Hcheck r Hr).
  - apply Forall_forall. intros r Hr. apply filter_In in Hr as [Hr _].
    rewrite Forall_forall in Hfk. exact (Hfk r Hr).
  - apply Forall_map. revert Hitems. apply Forall_impl. intros o Ho.
    unfold product_deleted.
    destruct (OrderItems.product_id o) as [x|] eqn:Hx; cbn [option_eqb].
    + destruct (String.eqb x product) eqn:Hsame; [exact I|].
      rewrite Hx. cbn. apply (key_survives_filter Products.id).
      * apply String.eqb_neq. exact Hsame.
      * exact Ho.
    + rewrite Hx. exact I.
Qed.

Section UpdatesKeep.
Context {P : Platform}.

(** A new version of a category passed the constraints, and kept its
    [id] unless no product referred to it. *)
Lemma updated_category_checked (s : Server) (c : CategoryCells)
  (others : list Categories.row) (old r' : Categories.row) :
  updated_category s c others old = inr r' ->
  category_violation others r' = None /\
  (Categories.id r' = Categories.id old \/
   existsb (fun p => option_eqb (Products.category_id p) (Categories.id old))
     (products (db s)) = false).
Proof.
  unfold updated_category.
  destruct (assigned (c_id c) _) as [i|]; [|discriminate].
  destruct (assigned (c_name c) _) as [n|]; [|discriminate].
  destruct (category_violation others _) eqn:Hok; [discriminate|].
  destruct (String.eqb i (Categories.id old)) eqn:Hsame; cbn [negb andb].
  - intros Hnew. inversion Hnew; subst. split; [exact Hok|].
    left. apply String.eqb_eq. exact Hsame.
  - destruct (existsb _ (products (db s))) eqn:Hrefs; [discriminate|].
    intros Hnew. inversion Hnew; subst. split; [exact Hok|].
    right. reflexivity.
Qed.

Lemma updated_product_checked (s : Server) (c : ProductCells)
  (others : list Products.row) (old r' : Products.row) :
  updated_product s c others old = inr r' ->
  product_violation (db s) others r' = None /\
  (Products.id r' = Products.id old \/
   existsb (fun o => option_eqb (OrderItems.product_id o) (Products.id old))
     (order_items (db s)) = false).
Proof.
  unfold updated_product.
  destruct (assigned (p_id c) _) as [i|]; [|discriminate].
  destruct (assigned (p_name c) _) as [n|]; [|discriminate].
  destruct (assigned (p_sku c) _) as [sk|]; [|discriminate].
  destruct (assigned (p_price c) _) as [pr|]; [|discriminate].
  destruct (product_violation (db s) others _) eqn:Hok; [discriminate|].
  destruct (String.eqb i (Products.id old)) eqn:Hsame; cbn [negb andb].
  - intros Hnew. inversion Hnew; subst. split; [exact Hok|].
    left. apply String.eqb_eq. exact Hsame.
  - destruct (existsb _ (order_items (db s))) eqn:Hrefs; [discriminate|].
    intros Hnew. inversion Hnew; subst. split; [exact Hok|].
    right. reflexivity.
Qed.

Lemma update_categories_consistent (body : JsObject) (id : string)
  (s : Server) (d' : Db) :
  update_categories body id s = Done d' ->
  consistent (db s) -> consistent d'.
Proof.
  unfold update_categories.
  destruct (category_cells body) as [e|c]; [discriminate|].
  destruct (update_where _ _ _ _) as [e|l] eqn:Hrun; [discriminate|].
  intros Hdone [Hcid Hcname Hpid Hpsku Hcheck Hfk Hitems].
  inversion Hdone; subst.
  constructor; cbn [categories products order_items with_categories];
    try assumption.
  - refine (update_where_NoDup _ _ _ Categories.id _ _ _ _ Hrun Hcid).
    intros others old r' Hnew.
    apply updated_category_checked in Hnew as [Hok _].
    apply category_violation_none in Hok. tauto.
  - refine (update_where_NoDup _ _ _ Categories.name _ _ _ _ Hrun Hcname).
    intros others old r' Hnew.
    apply updated_category_checked in Hnew as [Hok _].
    apply category_violation_none in Hok. tauto.
  - revert Hfk. apply references_follow. intros r x Hr Hx Hin.
    refine (update_where_key_kept _ _ _ Categories.id x _ _ _ _ Hrun Hin).
    intros others old r' Hold Hnew.
    apply updated_category_checked in Hnew as [_ [Hkept|Hnone]];
      [congruence|].
    assert (Hrefs : existsb (fun p => option_eqb (Products.category_id p)
                                        (Categories.id old))
                      (products (db s)) = true).
    { apply reference_present. exists r. split; [exact Hr|]. congruence. }
    congruence.
Qed.

Lemma update_products_consistent (body : JsObject) (id : string)
  (s : Server) (d' : Db) :
  update_products body id s = Done d' ->
  consistent (db s) -> consistent d'.
Proof.
  unfold update_products.
  destruct (product_cells body) as [e|c]; [discriminate|].
  destruct (update_where _ _ _ _) as [e|l] eqn:Hrun; [discriminate|].
  intros Hdone [Hcid Hcname Hpid Hpsku Hcheck Hfk Hitems].
  inversion Hdone; subst.
  constructor; cbn [categories products order_items with_products];
    try assumption.
  - refine (update_where_NoDup _ _ _ Products.id _ _ _ _ Hrun Hpid).
    intros others old r' Hnew.
    apply updated_product_checked in Hnew as [Hok _].
    apply product_violation_none in Hok. tauto.
  - refine (update_where_NoDup _ _ _ Products.sku _ _ _ _ Hrun Hpsku).
    intros others old r' Hnew.
    apply updated_product_checked in Hnew as [Hok _].
    apply product_violation_none in Hok. tauto.
  - refine (update_where_Forall _ _ _ _ _ _ _ Hrun _ _).
    + intros others old r' _ Hnew.
      apply updated_product_checked in Hnew as [Hok _].
      apply product_violation_none in Hok. tauto.
    + constructor.
    + revert Hcheck. apply Forall_impl. auto.
  - refine (update_where_Forall _ _ _ _ _ _ _ Hrun _ _).
    + intros others old r' _ Hnew.
      apply updated_product_checked in Hnew as [Hok _].
      apply product_violation_none in Hok. tauto.
    + constructor.
    + revert Hfk. apply Forall_impl. auto.
  - revert Hitems. apply references_follow. intros o x Ho Hx Hin.
    refine (update_where_key_kept _ _ _ Products.id x _ _ _ _ Hrun Hin).
    intros others old r' Hold Hnew.
    apply updated_product_checked in Hnew as [_ [Hkept|Hnone]];
      [congruence|].
    assert (Hrefs : existsb (fun o => option_eqb (OrderItems.product_id o)
                                        (Products.id old))
                      (order_items (db s)) = true).
    { apply reference_present. exists o. split; [exact Ho|]. congruence. }
    congruence.
Qed.

Lemma reply_consistent (s : Server) (draws : nat) (o : outcome) :
  consistent (db s) ->
  (forall d', o = Done d' -> consistent d') ->
  consistent (db (snd (reply s draws o))).
Proof.
  intros Hs Ho. rewrite reply_db. destruct o as [d'|e]; auto.
Qed.

End UpdatesKeep.

(** X1.  Whatever request the server answers, with whatever body, the
    primary keys, unique keys, check constraints and foreign keys that held
    before hold afterwards. *)
Theorem requests_keep_the_constraints :
  forall (P : Platform) (q : Query) (s : Server),
    consistent (db s) -> consistent (db (snd (await q s))).
Proof.
  intros P q s Hs. cbn [await Server_client].
  destruct q as [table body|table body column value|table column value
                |table columns by_column ascending]; cbn [serve].
  - cbv zeta. destruct (String.eqb table "categories").
    + apply reply_consistent; [exact Hs|]. intros d' Hdone.
      unfold insert_into_categories in Hdone.
      destruct (category_cells body) as [e|c]; [discriminate|].
      destruct (new_category s c) as [e|r]; [discriminate|].
      exact (insert_category_consistent _ _ _ Hdone Hs).
    + destruct (String.eqb table "products"); [|exact Hs].
      apply reply_consistent; [exact Hs|]. intros d' Hdone.
      unfold insert_into_products in Hdone.
      destruct (product_cells body) as [e|c]; [discriminate|].
      destruct (new_product s c) as [e|r]; [discriminate|].
      exact (insert_product_consistent _ _ _ Hdone Hs).
  - destruct (negb (String.eqb column "id")); [exact Hs|].
    destruct (String.eqb table "categories").
    + apply reply_consistent; [exact Hs|]. intros d' Hdone.
      exact (update_categories_consistent _ _ _ _ Hdone Hs).
    + destruct (String.eqb table "products"); [|exact Hs].
      apply reply_consistent; [exact Hs|]. intros d' Hdone.
      exact (update_products_consistent _ _ _ _ Hdone Hs).
  - destruct (negb (String.eqb column "id")); [exact Hs|].
    destruct (String.eqb table "categories").
    + apply reply_consistent; [exact Hs|]. intros d' Hdone.
      exact (delete_category_consistent _ _ _ _ Hdone Hs).
    + destruct (String.eqb table "products"); [|exact Hs].
      apply reply_consistent; [exact Hs|]. intros d' Hdone.
      exact (delete_product_consistent _ _ _ Hdone Hs).
  - destruct (String.eqb table "categories" && String.eqb by_column "name").
    + destruct (String.eqb columns "*"); [exact Hs|].
      destruct (String.eqb columns "id, name"); exact Hs.
    + destruct (_ && _); exact Hs.
Qed.

Lemma busy_shop_consistent : consistent busy_shop.
Proof.
  constructor; cbn.
  1-4: repeat constructor; cbn; intuition discriminate.
  - repeat constructor.
  - repeat (apply Forall_cons || apply Forall_nil); cbn; auto.
  - repeat (apply Forall_cons || apply Forall_nil); cbn; auto.
Qed.

Lemma requests_keep_the_constraints_witness :
  consistent (db busy_server) /\
  consistent
    (db (snd (await (SupabaseClient := Server_client (P := simple_platform))
                (q_delete "products" "id" "p-1") busy_server))).
Proof.
  split; [exact busy_shop_consistent|].
  exact (requests_keep_the_constraints simple_platform
           (q_delete "products" "id" "p-1") busy_server
           busy_shop_consistent).
Defined.

(** ** The category actions on the schema *)


Lemma with_products_same (d : Db) : with_products (products d) d = d.
Proof. destruct d; reflexivity. Qed.

Section Requests.
Context {P : Platform}.

Lemma insert_category_request (body : JsObject) (s : Server) :
  js_get "id" body = None ->
  await (q_insert "categories" body) s =
  reply s 1 (insert_into_categories body s).
Proof. intros Hid. cbn. rewrite Hid. reflexivity. Qed.

Lemma update_category_request (body : JsObject) (id : string) (s : Server) :
  await (q_update "categories" body "id" id) s =
  reply s 0 (update_categories body id s).
Proof. reflexivity. Qed.

Lemma delete_product_request (id : string) (s : Server) :
  await (q_delete "products" "id" id) s =
  reply s 0 (delete_product id (db s)).
Proof. reflexivity. Qed.

End Requests.

(** X2.  On the schema [createCategory] fails when the form has no name
    entry, when the identifier drawn for the row is taken and when the
    name is taken, each time leaving the tables as they were; in every
    other case, an empty name included, it succeeds and appends one row
    with the name of the form, the description of the form or null when
    that is empty or missing, and the time of the statement as
    [created_at] and [updated_at]. *)
Theorem createCategory_on_the_schema :
  forall (P : Platform) (w : World Server) (formData : FormData),
    let s := backend w in
    let result := fst (createCategory formData w) in
    let tables := db (backend (snd (createCategory formData w))) in
    match FormData_get "name" formData with
    | None => result = failed (not_null_violation "name") /\ tables = db s
    | Some n =>
        if existsb (fun o => String.eqb (Categories.id o) (gen_random_uuid s))
             (categories (db s))
        then result = failed (unique_violation "categories_pkey") /\
             tables = db s
        else if existsb (fun o => String.eqb (Categories.name o) n)
                  (categories (db s))
        then result = failed (unique_violation "categories_name_key") /\
             tables = db s
        else
          result = succeeded /\
          tables =
            with_categories
              (categories (db s) ++
               [ {| Categories.id := gen_random_uuid s;
                    Categories.name := n;
                    Categories.description :=
                      or_else (FormData_get "description" formData) None;
                    Categories.created_at := Some (NOW s);
                    Categories.updated_at := Some (NOW s) |} ])
              (db s)
    end.
Proof.
  intros P w formData. cbv zeta. unfold createCategory.
  rewrite plain_mutation_result, plain_mutation_backend. unfold answer.
  rewrite insert_category_request by reflexivity.
  rewrite reply_error, reply_db.
  unfold insert_into_categories. rewrite createCategory_cells.
  unfold new_category. cbn [c_id c_name c_description c_created_at
                              c_updated_at assigned].
  destruct (FormData_get "name" formData) as [n|]; cbn [cell_of assigned];
    [|split; reflexivity].
  unfold insert_category, category_violation.
  cbn [Categories.id Categories.name].
  destruct (existsb (fun o => String.eqb (Categories.id o) _) _);
    [split; reflexivity|].
  destruct (existsb (fun o => String.eqb (Categories.name o) _) _);
    [split; reflexivity|].
  split; [reflexivity|].
  destruct (or_else (FormData_get "description" formData) None);
    reflexivity.
Qed.



(** X4.  [updateCategory] for the id of a category, with a name no other
    category has: it succeeds, and the row keeps its place, its id and its
    [created_at], takes the name of the form and its description (null
    when empty or missing), and gets the time of the data base as
    [updated_at], not the time the application sent; the other rows and
    tables are as they were. *)
Theorem updateCategory_on_the_schema :
  forall (P : Platform) (w : World Server) (now id n : string)
    (formData : FormData) (t : timestamptz)
    (above below : list Categories.row) (old : Categories.row),
    timestamptz_in now = Some t ->
    FormData_get "name" formData = Some n ->
    categories (db (backend w)) = above ++ old :: below ->
    Categories.id old = id ->
    existsb (fun c => String.eqb (Categories.id c) id) (above ++ below)
      = false ->
    existsb (fun c => String.eqb (Categories.name c) n) (above ++ below)
      = false ->
    fst (updateCategory now id formData w) = succeeded /\
    db (backend (snd (updateCategory now id formData w))) =
      with_categories
        (above ++
         {| Categories.id := id;
            Categories.name := n;
            Categories.description :=
              or_else (FormData_get "description" formData) None;
            Categories.created_at := Categories.created_at old;
            Categories.updated_at := Some (NOW (backend w)) |} :: below)
        (db (backend w)).
Proof.
  intros P w now id n formData t above below old
    Htime Hname Htable Hold Hids Hnames.
  unfold updateCategory.
  rewrite plain_mutation_result, plain_mutation_backend. unfold answer.
  rewrite update_category_request, reply_error, reply_db.
  unfold update_categories. rewrite updateCategory_cells, Htime, Htable.
  erewrite (update_where_one _ _ old _ above below [] Hids).
  - split; reflexivity.
  - rewrite Hold. apply String.eqb_refl.
  - unfold updated_category.
    cbn [c_id c_name c_description c_created_at c_updated_at assigned app].
    rewrite Hname. cbn [cell_of assigned].
    unfold category_violation, update_categories_updated_at.
    cbn [Categories.id Categories.name Categories.description
           Categories.created_at].
    rewrite Hold, Hids, Hnames, String.eqb_refl. cbn [negb andb].
    destruct (or_else (FormData_get "description" formData) None);
      reflexivity.
Qed.

Lemma updateCategory_on_the_schema_witness :
  timestamptz_in (Platform := simple_platform) "17" = Some 17%Z /\
  categories (db (backend shop_world)) = [food] ++ accessories :: [] /\
  existsb (fun c => String.eqb (Categories.name c) "Gear") ([food] ++ [])
    = false /\
  db (backend (snd (updateCategory (P := simple_platform) "17" "c-acc"
                      [("name", "Gear"); ("description", "")] shop_world)))
  = with_categories
      ([food] ++
       {| Categories.id := "c-acc";
          Categories.name := "Gear";
          Categories.description := None;
          Categories.created_at := Some 2%Z;
          Categories.updated_at := Some 9%Z |} :: [])
      shop.
Proof.
  destruct (updateCategory_on_the_schema simple_platform shop_world "17"
              "c-acc" "Gear" [("name", "Gear"); ("description", "")] 17%Z
              [food] [] accessories
              eq_refl eq_refl eq_refl eq_refl eq_refl eq_refl)
    as [_ Htables].
  do 3 (split; [reflexivity|]). exact Htables.
Defined.

(** ** Deleting a product *)

(** X5.  Deleting a product that exists succeeds and removes its row; an
    order item that referred to it keeps its place and all its columns,
    the product name and the unit price it recorded among them, and has
    only [product_id] set to null; the other order items and the other
    tables are unchanged. *)
Theorem deleting_an_ordered_product :
  forall (P : Platform) (w : World Server) (product : Products.row),
    In product (products (db (backend w))) ->
    let d := db (backend w) in
    let after :=
      db (backend (snd (deleteProduct (Products.id product) w))) in
    let detached (o : OrderItems.row) : OrderItems.row :=
      {| OrderItems.id := OrderItems.id o;
         OrderItems.order_id := OrderItems.order_id o;
         OrderItems.product_id := None;
         OrderItems.product_name := OrderItems.product_name o;
         OrderItems.quantity := OrderItems.quantity o;
         OrderItems.unit_price := OrderItems.unit_price o;
         OrderItems.subtotal := OrderItems.subtotal o;
         OrderItems.created_at := OrderItems.created_at o |} in
    fst (deleteProduct (Products.id product) w) = succeeded /\
    products after =
      filter (fun p => negb (String.eqb (Products.id p)
                               (Products.id product))) (products d) /\
    ~ In (Products.id product) (map Products.id (products after)) /\
    Forall2
      (fun old new =>
         new = if option_eqb (OrderItems.product_id old)
                    (Products.id product)
               then detached old
               else old)
      (order_items d) (order_items after) /\
    categories after = categories d /\
    orders after = orders d /\
    customers after = customers d.
Proof.
  intros P w product Hproduct. cbv zeta. unfold deleteProduct.
  rewrite revalidating_mutation_result, revalidating_mutation_backend.
  unfold answer. rewrite delete_product_request, reply_error, reply_db.
  unfold delete_product.
  assert (Hexists :
            existsb (fun p => String.eqb (Products.id p)
                                (Products.id product))
              (products (db (backend w))) = true).
  { apply existsb_exists. exists product. split; [exact Hproduct|].
    apply String.eqb_refl. }
  rewrite Hexists.
  cbn [products order_items categories orders customers with_products
         with_order_items].
  split; [reflexivity|]. split; [reflexivity|]. split.
  - intros Hin. apply in_map_iff in Hin as [p [Hid Hp]].
    apply filter_In in Hp as [_ Hp].
    rewrite Hid, String.eqb_refl in Hp. discriminate Hp.
  - split; [|repeat split].
    apply Forall2_map_image. intros o. unfold product_deleted.
    destruct (option_eqb _ _); reflexivity.
Qed.

Lemma deleting_an_ordered_product_witness :
  In dog_food (products (db (backend busy_world))) /\
  order_items
    (db (backend (snd (deleteProduct (P := simple_platform) "p-1"
                         busy_world)))) =
  [ {| OrderItems.id := "i-1";
       OrderItems.order_id := "o-1";
       OrderItems.product_id := None;
       OrderItems.product_name := "Dog Food";
       OrderItems.quantity := 1%Z;
       OrderItems.unit_price := 100%Z;
       OrderItems.subtotal := 100%Z;
       OrderItems.created_at := Some 5%Z |} ].
Proof.
  split; [left; reflexivity|].
  destruct (deleting_an_ordered_product simple_platform busy_world dog_food
              (or_introl eq_refl)) as (_ & _ & _ & Hitems & _).
  inversion Hitems as [|o o' l l' Ho Hl]; subst.
  inversion Hl; subst. reflexivity.
Defined.

(** ** What a request that fails leaves behind *)

Section Atomic.
Context {P : Platform}.

Lemma await_error_keeps_tables (q : Query) (s : Server) :
  error (fst (await q s)) <> None -> db (snd (await q s)) = db s.
Proof.
  cbn [await Server_client].
  assert (Hreply : forall draws o,
             error (fst (reply s draws o)) <> None ->
             db (snd (reply s draws o)) = db s).
  { intros draws o. rewrite reply_error, reply_db.
    destruct o; [congruence|reflexivity]. }
  destruct q as [table body|table body column value|table column value
                |table columns by_column ascending]; cbn [serve].
  - cbv zeta.
    destruct (String.eqb table "categories"); [apply Hreply|].
    destruct (String.eqb table "products"); [apply Hreply|reflexivity].
  - destruct (negb (String.eqb column "id")); [reflexivity|].
    destruct (String.eqb table "categories"); [apply Hreply|].
    destruct (String.eqb table "products"); [apply Hreply|reflexivity].
  - destruct (negb (String.eqb column "id")); [reflexivity|].
    destruct (String.eqb table "categories"); [apply Hreply|].
    destruct (String.eqb table "products"); [apply Hreply|reflexivity].
  - intros _.
    destruct (String.eqb table "categories" && String.eqb by_column "name").
    + destruct (String.eqb columns "*"); [reflexivity|].
      destruct (String.eqb columns "id, name"); reflexivity.
    + destruct (_ && _); reflexivity.
Qed.

Lemma select_keeps_tables (table columns by_column : string)
  (ascending : bool) (s : Server) :
  db (snd (await (q_select table columns by_column ascending) s)) = db s.
Proof.
  cbn [await Server_client serve].
  destruct (String.eqb table "categories" && String.eqb by_column "name").
  - destruct (String.eqb columns "*"); [reflexivity|].
    destruct (String.eqb columns "id, name"); reflexivity.
  - destruct (_ && _); reflexivity.
Qed.

Lemma failed_or_unchanged (q : Query) (w : World Server) :
  match error (answer q w) with
  | Some e => failed e
  | None => succeeded
  end = succeeded \/
  db (snd (await q (backend w))) = db (backend w).
Proof.
  destruct (error (answer q w)) eqn:Herror; [right|left; reflexivity].
  apply await_error_keeps_tables. unfold answer in Herror. congruence.
Qed.

End Atomic.

(** X6.  On the schema every mutation either succeeds or leaves all
    tables as they were, and the three listings leave the tables as they
    were. *)
Theorem failed_mutations_change_nothing :
  forall (P : Platform) (w : World Server) (now id : string)
    (formData : FormData),
    let d := db (backend w) in
    (fst (createCategory formData w) = succeeded \/
     db (backend (snd (createCategory formData w))) = d) /\
    (fst (updateCategory now id formData w) = succeeded \/
     db (backend (snd (updateCategory now id formData w))) = d) /\
    (fst (deleteCategory id w) = succeeded \/
     db (backend (snd (deleteCategory id w))) = d) /\
    (fst (createProduct formData w) = succeeded \/
     db (backend (snd (createProduct formData w))) = d) /\
    (fst (updateProduct id formData w) = succeeded \/
     db (backend (snd (updateProduct id formData w))) = d) /\
    (fst (deleteProduct id w) = succeeded \/
     db (backend (snd (deleteProduct id w))) = d) /\
    db (backend (snd (getCategories w))) = d /\
    db (backend (snd (getCategoriesForSelect w))) = d /\
    db (backend (snd (getProducts w))) = d.
Proof.
  intros P w now id formData. cbv zeta.
  unfold createCategory, updateCategory, deleteCategory, createProduct,
    updateProduct, deleteProduct.
  rewrite !plain_mutation_result, !plain_mutation_backend,
    !revalidating_mutation_result, !revalidating_mutation_backend.
  repeat (split; [apply failed_or_unchanged|]).
  unfold getCategories, getCategoriesForSelect, getProducts, bind.
  rewrite !query_runs.
  split; [|split].
  - destruct (error (answer _ w)); apply select_keeps_tables.
  - destruct (error (answer (q_select "categories" "id, name" _ _) w));
      apply select_keeps_tables.
  - destruct (error (answer (q_select "products" _ _ _) w));
      apply select_keeps_tables.
Qed.

(** ** What the actions do besides their request *)

(** X7.  Whatever the backend: the three product mutations revalidate
    [/admin/products] when they succeed and do nothing else when they
    fail; the category mutations and [getCategories] have no effect
    besides their request; [getProducts] and [getCategoriesForSelect] log
    the error they are answered with. *)
Theorem effects_of_the_actions :
  forall (P : Platform) (S : Type) (C : SupabaseClient S) (w : World S)
    (now id : string) (formData : FormData),
    let revalidated (result : MutationResult.t) : list Effect :=
      if MutationResult.success result
      then [RevalidatePath "/admin/products"]
      else [] in
    let logged (label : string) (q : Query) : list Effect :=
      match error (answer q w) with
      | Some e => [ConsoleError label e]
      | None => []
      end in
    effects (snd (createCategory formData w)) = effects w /\
    effects (snd (updateCategory now id formData w)) = effects w /\
    effects (snd (deleteCategory id w)) = effects w /\
    effects (snd (getCategories w)) = effects w /\
    effects (snd (createProduct formData w)) =
      effects w ++ revalidated (fst (createProduct formData w)) /\
    effects (snd (updateProduct id formData w)) =
      effects w ++ revalidated (fst (updateProduct id formData w)) /\
    effects (snd (deleteProduct id w)) =
      effects w ++ revalidated (fst (deleteProduct id w)) /\
    effects (snd (getProducts w)) =
      effects w ++
      logged "Error fetching products:"
        (q_select "products" "*, categories (id, name)" "created_at" false) /\
    effects (snd (getCategoriesForSelect w)) =
      effects w ++
      logged "Error fetching categories:"
        (q_select "categories" "id, name" "name" true).
Proof.
  intros P S C w now id formData. cbv zeta.
  unfold createCategory, updateCategory, deleteCategory, getCategories,
    createProduct, updateProduct, deleteProduct, getProducts,
    getCategoriesForSelect, bind.
  rewrite !query_runs.
  repeat split;
    match goal with
    | |- context [error (answer ?q w)] =>
        destruct (error (answer q w)); cbn; rewrite ?app_nil_r; reflexivity
    end.
Qed.

(** ** Reading back what was written *)

Section ReadBack.
Context {P : Platform}.

(** The statement [createCategory] sends, on the tables. *)
Lemma createCategory_statement (formData : FormData) (s : Server) :
  insert_into_categories (createCategory_values formData) s =
  match FormData_get "name" formData with
  | None => Raise (not_null_violation "name")
  | Some n =>
      insert_category
        {| Categories.id := gen_random_uuid s;
           Categories.name := n;
           Categories.description :=
             or_else (FormData_get "description" formData) None;
           Categories.created_at := Some (NOW s);
           Categories.updated_at := Some (NOW s) |} (db s)
  end.
Proof.
  unfold insert_into_categories. rewrite createCategory_cells.
  unfold new_category. cbn [c_id c_name c_description c_created_at
                              c_updated_at assigned].
  destruct (FormData_get "name" formData) as [n|]; cbn [cell_of assigned];
    [|reflexivity].
  destruct (or_else (FormData_get "description" formData) None);
    reflexivity.
Qed.

Lemma getCategories_on_the_schema (w : World Server) :
  fst (getCategories w) =
  {| CategoriesResult.categories :=
       map category_json
         (order_by (by_name true) (categories (db (backend w))));
     CategoriesResult.error := None |}.
Proof. unfold getCategories, bind. rewrite query_runs. reflexivity. Qed.

Lemma filter_none {R : Type} (f : R -> bool) (l : list R) :
  existsb f l = false -> filter f l = [].
Proof.
  induction l as [|r l IH]; cbn; [reflexivity|].
  intros Hnone. apply orb_false_iff in Hnone as [Hr Hl].
  rewrite Hr. exact (IH Hl).
Qed.


End ReadBack.



(** X9.  After [createCategory] has succeeded, the table has one more
    row, with the name of the form, and both [getCategories] and
    [getCategory] for its id return that row: the listing is longer by
    one and contains it. *)
Theorem created_category_is_read_back :
  forall (P : Platform) (w : World Server) (formData : FormData),
    fst (createCategory formData w) = succeeded ->
    let w' := snd (createCategory formData w) in
    exists n,
      FormData_get "name" formData = Some n /\
      let r :=
        {| Categories.id := gen_random_uuid (backend w);
           Categories.name := n;
           Categories.description :=
             or_else (FormData_get "description" formData) None;
           Categories.created_at := Some (NOW (backend w));
           Categories.updated_at := Some (NOW (backend w)) |} in
      categories (db (backend w')) = categories (db (backend w)) ++ [r] /\
      In (category_json r)
         (CategoriesResult.categories (fst (getCategories w'))) /\
      length (CategoriesResult.categories (fst (getCategories w'))) =
        S (length (CategoriesResult.categories (fst (getCategories w)))) /\
      fst (getCategory (Categories.id r) w') =
        {| CategoryResult.category := Some (category_json r);
           CategoryResult.error := None |}.
Proof.
  intros P w formData. cbv zeta.
  rewrite !getCategories_on_the_schema. unfold getCategory.
  cbn [CategoriesResult.categories await_single Server_single_client].
  unfold createCategory.
  rewrite plain_mutation_result, !plain_mutation_backend. unfold answer.
  rewrite insert_category_request by reflexivity.
  rewrite reply_error, !reply_db, createCategory_statement.
  destruct (FormData_get "name" formData) as [n|]; [|discriminate].
  unfold insert_category, category_violation.
  cbn [Categories.id Categories.name].
  destruct (existsb (fun o => String.eqb (Categories.id o) _) _) eqn:Hid;
    [discriminate|].
  destruct (existsb (fun o => String.eqb (Categories.name o) _) _);
    [discriminate|].
  intros _. exists n. split; [reflexivity|].
  cbn [categories with_categories].
  split; [reflexivity|]. split; [|split].
  - apply in_map.
    apply (Permutation_in _ (Permutation_sym (order_by_permutation _ _ _))).
    apply in_or_app. right. left. reflexivity.
  - rewrite !length_map.
    rewrite (Permutation_length (order_by_permutation _ _ _)).
    rewrite (Permutation_length
               (order_by_permutation _ _ (categories (db (backend w))))).
    rewrite length_app. cbn. lia.
  - unfold serve_single.
    cbn [from_table select_columns eq_column eq_value String.eqb Ascii.eqb
           Bool.eqb andb reply snd db after categories with_categories].
    rewrite filter_app, (filter_none _ _ Hid). cbn [filter Categories.id].
    rewrite String.eqb_refl. reflexivity.
Qed.

Lemma created_category_is_read_back_witness :
  fst (createCategory (P := simple_platform)
         [("name", "Toys"); ("description", "")] shop_world) = succeeded /\
  In (category_json (P := simple_platform)
        {| Categories.id := "new-0";
           Categories.name := "Toys";
           Categories.description := None;
           Categories.created_at := Some 9%Z;
           Categories.updated_at := Some 9%Z |})
     (CategoriesResult.categories
        (fst (getCategories
                (snd (createCategory (P := simple_platform)
                        [("name", "Toys"); ("description", "")]
                        shop_world))))).
Proof.
  split; [reflexivity|].
  destruct (created_category_is_read_back simple_platform shop_world
              [("name", "Toys"); ("description", "")] eq_refl)
    as (n & Hn & _ & Hlisted & _).
  inversion Hn; subst. exact Hlisted.
Defined.

(** ** The rows of getProducts *)

Section Objects.
Context {P : Platform}.

Lemma js_get_set_same (k : string) (v : JsValue) (o : JsObject) :
  js_get k (js_set k v o) = Some v.
Proof.
  induction o as [|[k' v'] o IH]; cbn.
  - rewrite String.eqb_refl. reflexivity.
  - destruct (String.eqb k k') eqn:Hk; cbn.
    + rewrite String.eqb_refl. reflexivity.
    + rewrite Hk. exact IH.
Qed.

Lemma js_get_set_other (k k' : string) (v : JsValue) (o : JsObject) :
  k <> k' -> js_get k (js_set k' v o) = js_get k o.
Proof.
  intros Hk. apply String.eqb_neq in Hk.
  induction o as [|[k'' v''] o IH]; cbn.
  - rewrite Hk. reflexivity.
  - destruct (String.eqb k' k'') eqn:Hsame; cbn.
    + apply String.eqb_eq in Hsame. subst. rewrite Hk. reflexivity.
    + destruct (String.eqb k k''); [reflexivity|exact IH].
Qed.

(** Writing a field back with the value it has changes nothing. *)
Lemma js_set_same (k : string) (v : JsValue) (o : JsObject) :
  js_get k o = Some v -> js_set k v o = o.
Proof.
  induction o as [|[k' v'] o IH]; cbn; [discriminate|].
  destruct (String.eqb k k') eqn:Hk.
  - intros Hv. apply String.eqb_eq in Hk. congruence.
  - intros Hv. rewrite (IH Hv). reflexivity.
Qed.

End Objects.

(** X10.  The transformation [getProducts] applies to a row adds the
    field [category_name] and leaves every other field as it was,
    whatever the row.  On the schema each product is returned with its
    columns and the embedded category, followed by [category_name]: the
    name of the category it refers to, and null when it refers to none or
    when that name is empty. *)
Theorem products_carry_their_category_name :
  forall (P : Platform) (product : JsObject) (k : string)
    (w : World Server),
    js_get "category_name" (with_category_name product) =
      Some (category_name_of product) /\
    (k = "category_name" \/
     js_get k (with_category_name product) = js_get k product) /\
    fst (getProducts w) =
      {| ProductsResult.products :=
           map (fun r =>
                  product_json (db (backend w)) r ++
                  [ ("category_name",
                     match Products.category_id r with
                     | Some c =>
                         match find (fun o => String.eqb (Categories.id o) c)
                                 (categories (db (backend w))) with
                         | Some o =>
                             if string_truthy (Categories.name o)
                             then JStr (Categories.name o)
                             else JNull
                         | None => JNull
                         end
                     | None => JNull
                     end) ])
             (order_by (by_created_at false) (products (db (backend w))));
         ProductsResult.error := None |}.
Proof.
  intros P product k w. split; [|split].
  - unfold with_category_name. apply js_get_set_same.
  - destruct (String.eqb_spec k "category_name") as [Hk|Hk];
      [left; exact Hk|right].
    unfold with_category_name.
    rewrite (js_get_set_other _ _ _ _ Hk).
    destruct (js_get "category_id" product) as [v|] eqn:Hv; [|reflexivity].
    rewrite (js_set_same _ _ _ Hv). reflexivity.
  - unfold getProducts, bind. rewrite query_runs. cbn. rewrite map_map.
    f_equal. apply map_ext. intros r.
    unfold with_category_name, category_name_of, product_json,
      embedded_category.
    destruct (Products.category_id r) as [c|]; [|reflexivity].
    destruct (find _ _) as [o|]; [|reflexivity].
    cbn. destruct (Categories.name o); reflexivity.
Qed.

(** ** The sample data statements *)

(** What the rows of a statement under [ON CONFLICT (name) DO NOTHING]
    leave: the categories that were there, then the rows that were new,
    and every proposed name taken. *)
Lemma do_nothing_rows (s : Server) (rows : list (string * string)) :
  forall (k : nat) (d d' : Db),
    each_row (fun k v => insert_category_do_nothing (proposed_category s k v))
      k rows d = Done d' ->
    (exists added, categories d' = categories d ++ added) /\
    customers d' = customers d /\ products d' = products d /\
    orders d' = orders d /\ order_items d' = order_items d /\
    (forall v, In v rows ->
               In (fst v) (map Categories.name (categories d'))).
Proof.
  induction rows as [|v rows IH]; intros k d d' Hrun; cbn in Hrun.
  - inversion Hrun; subst. split; [exists []; symmetry; apply app_nil_r|].
    repeat split. intros v [].
  - destruct (insert_category_do_nothing _ d) as [d1|e] eqn:Hrow;
      [|discriminate].
    destruct (IH _ _ _ Hrun) as ([added Hadded] & Hc & Hp & Ho & Hi & Hnames).
    unfold insert_category_do_nothing in Hrow.
    destruct (existsb _ (categories d)) eqn:Htaken.
    + inversion Hrow; subst. split; [exists added; exact Hadded|].
      repeat split; try assumption. intros v' [Hv|Hv]; [|auto].
      subst. rewrite Hadded, map_app. apply in_or_app. left.
      apply (key_present Categories.name). exact Htaken.
    + unfold insert_category in Hrow.
      destruct (category_violation _ _); [discriminate|].
      inversion Hrow; subst.
      cbn [categories customers products orders order_items with_categories]
        in *.
      split.
      { eexists. rewrite Hadded, <- app_assoc. reflexivity. }
      repeat split; try assumption. intros v' [Hv|Hv]; [|auto].
      subst. rewrite Hadded, !map_app. apply in_or_app. left.
      apply in_or_app. right. left. reflexivity.
Qed.

(** When every proposed name is taken, the statement changes nothing. *)
Lemma do_nothing_when_taken (s : Server) (rows : list (string * string)) :
  forall (k : nat) (d : Db),
    (forall v, In v rows -> In (fst v) (map Categories.name (categories d))) ->
    each_row (fun k v => insert_category_do_nothing (proposed_category s k v))
      k rows d = Done d.
Proof.
  induction rows as [|v rows IH]; intros k d Htaken; cbn; [reflexivity|].
  unfold insert_category_do_nothing at 1. cbn [proposed_category Categories.name].
  assert (Hv : existsb (fun o => String.eqb (Categories.name o) (fst v))
                 (categories d) = true).
  { apply (key_present Categories.name). apply Htaken. left. reflexivity. }
  rewrite Hv. apply IH. intros v' Hv'. apply Htaken. right. exact Hv'.
Qed.

(** X11.  When the statement that inserts the sample categories
    succeeds, the categories that were there are still there, unchanged
    and in their place, followed by the ones that were new; no other table
    is touched; and running the statement again, whenever and with
    whatever identifiers drawn, succeeds and changes nothing. *)
Theorem sample_categories_can_be_inserted_again :
  forall (s s' : Server) (d : Db),
    seed_categories s = Done d ->
    (exists added, categories d = categories (db s) ++ added) /\
    customers d = customers (db s) /\
    products d = products (db s) /\
    orders d = orders (db s) /\
    order_items d = order_items (db s) /\
    (db s' = d -> seed_categories s' = Done d).
Proof.
  intros s s' d Hrun. unfold seed_categories in Hrun.
  destruct (do_nothing_rows _ _ _ _ _ Hrun)
    as (Hadded & Hc & Hp & Ho & Hi & Hnames).
  repeat (split; [assumption|]).
  intros Hs'. unfold seed_categories. rewrite Hs'.
  apply do_nothing_when_taken. exact Hnames.
Qed.

Lemma sample_categories_can_be_inserted_again_witness :
  exists d,
    seed_categories shop_server = Done d /\
    (exists added, categories d = [food; accessories] ++ added) /\
    seed_categories (after shop_server d 6) = Done d.
Proof.
  destruct (seed_categories shop_server) as [d|e] eqn:Hrun;
    [|vm_compute in Hrun; discriminate Hrun].
  exists d.
  destruct (sample_categories_can_be_inserted_again shop_server
              (after shop_server d 6) d Hrun)
    as (Hadded & _ & _ & _ & _ & Hagain).
  split; [reflexivity|]. split; [exact Hadded|].
  apply Hagain. reflexivity.
Defined.

(** The rows of a plain multi-row [INSERT] into [orders]: every proposed
    order number is in the table afterwards. *)
Lemma inserted_order_numbers (s : Server) (rows : list OrderValues) :
  forall (k : nat) (d d' : Db),
    each_row (fun k v => insert_order (proposed_order s k v)) k rows d
      = Done d' ->
    (forall n, In n (map Orders.order_number (orders d)) ->
               In n (map Orders.order_number (orders d'))) /\
    (forall v, In v rows ->
               In (v_order_number v) (map Orders.order_number (orders d'))).
Proof.
  induction rows as [|v rows IH]; intros k d d' Hrun; cbn in Hrun.
  - inversion Hrun; subst. split; [auto|]. intros v [].
  - destruct (insert_order _ d) as [d1|e] eqn:Hrow; [|discriminate].
    destruct (IH _ _ _ Hrun) as [Hkept Hnew].
    unfold insert_order in Hrow.
    destruct (order_violation _ _ _); [discriminate|].
    inversion Hrow; subst. cbn [orders with_orders] in *.
    split.
    + intros n Hn. apply Hkept. rewrite map_app. apply in_or_app. left.
      exact Hn.
    + intros v' [Hv|Hv]; [|auto]. subst. apply Hkept.
      rewrite map_app. apply in_or_app. right. left. reflexivity.
Qed.

(** X12.  The statement that inserts the sample orders has no
    [ON CONFLICT] clause: once it has succeeded, running it again on the
    tables it left raises an error, whenever and with whatever identifiers
    drawn. *)
Theorem sample_orders_cannot_be_inserted_again :
  forall (s s' : Server) (d : Db),
    seed_orders s = Done d ->
    db s' = d ->
    exists e, seed_orders s' = Raise e.
Proof.
  intros s s' d Hrun Hs'. unfold seed_orders in Hrun.
  destruct (inserted_order_numbers _ _ _ _ _ Hrun) as [_ Hnumbers].
  assert (Hfirst : existsb
                     (fun o => String.eqb (Orders.order_number o)
                                 "ORD-2024-001")
                     (orders (db s')) = true).
  { apply (key_present Orders.order_number). rewrite Hs'.
    apply (Hnumbers (sample_order "ORD-2024-001" "john.smith@email.com"
                       15697 0 1256 "completed" "paid"
                       (Some "credit_card"))).
    left. reflexivity. }
  unfold seed_orders, sample_orders. cbn [each_row].
  destruct (insert_order_duplicate_number
              (proposed_order s' 0
                 (sample_order "ORD-2024-001" "john.smith@email.com"
                    15697 0 1256 "completed" "paid" (Some "credit_card")))
              (db s') Hfirst) as [e He].
  rewrite He. exists e. reflexivity.
Qed.

Lemma sample_orders_cannot_be_inserted_again_witness :
  exists d e,
    seed_orders
      {| db := with_orders [] shop; clock := clock shop_server;
         statements := 0; uuids := uuids shop_server; drawn := 0 |}
    = Done d /\
    seed_orders (after shop_server d 5) = Raise e.
Proof.
  destruct (seed_orders
              {| db := with_orders [] shop; clock := clock shop_server;
                 statements := 0; uuids := uuids shop_server; drawn := 0 |})
    as [d|e] eqn:Hrun; [|vm_compute in Hrun; discriminate Hrun].
  destruct (sample_orders_cannot_be_inserted_again _
              (after shop_server d 5) d Hrun eq_refl) as [e He].
  exists d, e. split; [reflexivity|exact He].
Defined.

Lemma update_where_Forall2 {R : Type} (related : R -> R -> Prop)
  (matches : R -> bool) (upd : list R -> R -> PostgrestError + R) :
  (forall r, related r r) ->
  (forall others old r', upd others old = inr r' -> related old r') ->
  forall (rest visited l : list R),
    update_where matches upd visited rest = inr l ->
    exists rest', l = visited ++ rest' /\ Forall2 related rest rest'.
Proof.
  intros Hrefl Hupd rest.
  induction rest as [|r rest IH]; intros visited l Hrun; cbn in Hrun.
  - inversion Hrun; subst. exists []. split; [|constructor].
    symmetry. apply app_nil_r.
  - destruct (matches r).
    + destruct (upd (visited ++ rest) r) as [e|r'] eqn:Hnew; [discriminate|].
      destruct (IH _ _ Hrun) as (rest' & Hl & Hrest).
      exists (r' :: rest'). split.
      * rewrite Hl, <- app_assoc. reflexivity.
      * constructor; [exact (Hupd _ _ _ Hnew)|exact Hrest].
    + destruct (IH _ _ Hrun) as (rest' & Hl & Hrest).
      exists (r :: rest'). split.
      * rewrite Hl, <- app_assoc. reflexivity.
      * constructor; [apply Hrefl|exact Hrest].
Qed.

Lemma same_product_refl (r : Products.row) : same_product r r.
Proof. repeat split. Qed.

Lemma same_product_trans (a b c : Products.row) :
  same_product a b -> same_product b c -> same_product a c.
Proof.
  unfold same_product. intros (H1 & H2 & H3 & H4) (K1 & K2 & K3 & K4).
  repeat split; congruence.
Qed.

Lemma Forall2_same_product_refl (l : list Products.row) :
  Forall2 same_product l l.
Proof.
  induction l; constructor; [apply same_product_refl|assumption].
Qed.

Lemma Forall2_same_product_trans (l1 l2 l3 : list Products.row) :
  Forall2 same_product l1 l2 -> Forall2 same_product l2 l3 ->
  Forall2 same_product l1 l3.
Proof.
  intros H12. revert l3.
  induction H12 as [|a b l1 l2 Hab _ IH]; intros l3 H23;
    inversion H23; subst; constructor.
  - eapply same_product_trans; eassumption.
  - apply IH. assumption.
Qed.

(** One row under [ON CONFLICT (sku) DO UPDATE]. *)
Lemma upsert_product_keeps (now : timestamptz) (r : Products.row)
  (d d' : Db) :
  upsert_product now r d = Done d' ->
  (exists kept added,
      products d' = kept ++ added /\
      Forall2 same_product (products d) kept) /\
  customers d' = customers d /\ categories d' = categories d /\
  orders d' = orders d /\ order_items d' = order_items d.
Proof.
  unfold upsert_product.
  destruct (existsb _ (products d)).
  - destruct (update_where _ _ _ _) as [e|l] eqn:Hrun; [discriminate|].
    intros Hdone. inversion Hdone; subst.
    split; [|repeat split].
    assert (Hupd : forall others old r',
               conflict_update now d r others old = inr r' ->
               same_product old r').
    { intros others old r' Hnew. unfold conflict_update in Hnew.
      destruct (product_violation _ _ _); [discriminate|].
      inversion Hnew; subst. repeat split. }
    destruct (update_where_Forall2 same_product _ _ same_product_refl
                Hupd _ _ _ Hrun) as (kept & Hl & Hkept).
    exists kept, []. rewrite app_nil_r. auto.
  - unfold insert_product.
    destruct (product_violation _ _ _); [discriminate|].
    intros Hdone. inversion Hdone; subst.
    split; [|repeat split].
    exists (products d), [r]. split; [reflexivity|].
    apply Forall2_same_product_refl.
Qed.

Lemma upsert_products_keep (s : Server) (rows : list ProductValues) :
  forall (k : nat) (seen : list string) (d d' : Db),
    upsert_products s k seen rows d = Done d' ->
    (exists kept added,
        products d' = kept ++ added /\
        Forall2 same_product (products d) kept) /\
    customers d' = customers d /\ categories d' = categories d /\
    orders d' = orders d /\ order_items d' = order_items d.
Proof.
  induction rows as [|v rows IH]; intros k seen d d' Hrun; cbn in Hrun.
  - inversion Hrun; subst. split; [|repeat split].
    exists (products d'), []. rewrite app_nil_r.
    split; [reflexivity|apply Forall2_same_product_refl].
  - destruct (existsb _ seen); [discriminate|].
    destruct (upsert_product _ _ d) as [d1|e] eqn:Hrow; [|discriminate].
    destruct (upsert_product_keeps _ _ _ _ Hrow)
      as ((kept1 & added1 & Hd1 & Hkept1) & Hc1 & Hg1 & Ho1 & Hi1).
    destruct (IH _ _ _ _ Hrun)
      as ((kept & added & Hd' & Hkept) & Hc & Hg & Ho & Hi).
    split; [|repeat split; congruence].
    rewrite Hd1 in Hkept.
    apply Forall2_app_inv_l in Hkept as (kept' & kept'' & Hk' & _ & Hsplit).
    exists kept', (kept'' ++ added). split.
    + rewrite Hd', Hsplit, <- app_assoc. reflexivity.
    + exact (Forall2_same_product_trans _ _ _ Hkept1 Hk').
Qed.

(** X13.  When the statement that upserts the sample products succeeds,
    every product that was in the table is still there, in place, with
    the [id], [sku], [unit] and [created_at] it had, whether or not it was
    updated; new products come after them; no other table is touched. *)
Theorem sample_products_keep_their_identity :
  forall (s : Server) (d : Db),
    seed_products s = Done d ->
    (exists kept added,
        products d = kept ++ added /\
        Forall2
          (fun old new =>
             Products.id new = Products.id old /\
             Products.sku new = Products.sku old /\
             Products.unit new = Products.unit old /\
             Products.created_at new = Products.created_at old)
          (products (db s)) kept) /\
    customers d = customers (db s) /\
    categories d = categories (db s) /\
    orders d = orders (db s) /\
    order_items d = order_items (db s).
Proof.
  intros s d Hrun. exact (upsert_products_keep _ _ _ _ _ _ Hrun).
Qed.

Lemma sample_products_keep_their_identity_witness :
  exists d kept added,
    seed_products
      {| db := with_products [dog_food] shop; clock := clock shop_server;
         statements := 0; uuids := uuids shop_server; drawn := 0 |}
    = Done d /\
    products d = kept ++ added /\
    Forall2
      (fun old new =>
         Products.id new = Products.id old /\
         Products.sku new = Products.sku old /\
         Products.unit new = Products.unit old /\
         Products.created_at new = Products.created_at old)
      [dog_food] kept.
Proof.
  destruct (seed_products
              {| db := with_products [dog_food] shop;
                 clock := clock shop_server; statements := 0;
                 uuids := uuids shop_server; drawn := 0 |})
    as [d|e] eqn:Hrun; [|vm_compute in Hrun; discriminate Hrun].
  destruct (sample_products_keep_their_identity _ d Hrun)
    as ((kept & added & Hd & Hkept) & _).
  exists d, kept, added. split; [reflexivity|]. split; assumption.
Defined.

(** ** The categories page over its runs *)

Lemma settle_keeps_others (c : CategoriesPage.Call)
  (l l' : list CategoriesPage.Call) :
  CategoriesPage.settle c l = Some l' ->
  forall x, CategoriesPage.Call_eqb c x = false -> In x l -> In x l'.
Proof.
  revert l'. induction l as [|y l IH]; intros l' Hsettle x Hx Hin;
    cbn in Hsettle; [discriminate|].
  destruct (CategoriesPage.Call_eqb c y) eqn:Hy.
  - inversion Hsettle; subst. destruct Hin as [Hin|Hin]; [|exact Hin].
    subst. congruence.
  - destruct (CategoriesPage.settle c l) as [l0|]; [|discriminate].
    inversion Hsettle; subst. destruct Hin as [Hin|Hin].
    + left. exact Hin.
    + right. exact (IH _ eq_refl x Hx Hin).
Qed.

Section PageRuns.
Context {P : Platform}.

Lemma search_effect_keeps (s : CategoriesPage.State) :
  CategoriesPage.categories (CategoriesPage.search_effect s) =
    CategoriesPage.categories s /\
  CategoriesPage.isLoading (CategoriesPage.search_effect s) =
    CategoriesPage.isLoading s /\
  CategoriesPage.isDeleting (CategoriesPage.search_effect s) =
    CategoriesPage.isDeleting s.
Proof.
  unfold CategoriesPage.search_effect.
  destruct (string_truthy _); repeat split.
Qed.

Lemma marks_frame (p p' : CategoriesPage.Page) :
  CategoriesPage.isDeleting (CategoriesPage.state p') =
    CategoriesPage.isDeleting (CategoriesPage.state p) ->
  CategoriesPage.isLoading (CategoriesPage.state p') =
    CategoriesPage.isLoading (CategoriesPage.state p) ->
  (forall x, In x (CategoriesPage.in_flight p) ->
             In x (CategoriesPage.in_flight p')) ->
  marks_are_backed p -> marks_are_backed p'.
Proof.
  intros Hdeleting Hloading Hcalls [Hd Hl]. split.
  - intros id Hid. apply Hcalls, Hd. congruence.
  - intros Hload. rewrite Hloading in Hload.
    destruct (Hl Hload) as [cause Hc]. exists cause. auto.
Qed.

(** After a fetch is started the marks are backed when the delete mark
    was. *)
Lemma marks_after_fetch (cause : CategoriesPage.Trigger)
  (p : CategoriesPage.Page) :
  (forall id,
      CategoriesPage.isDeleting (CategoriesPage.state p) = Some id ->
      In (CategoriesPage.deleteCategory_call id)
         (CategoriesPage.in_flight p)) ->
  marks_are_backed (CategoriesPage.fetchCategories cause p).
Proof.
  intros Hd. split; cbn.
  - intros id Hid. apply in_or_app. left. exact (Hd id Hid).
  - intros _. exists cause. apply in_or_app. right. left. reflexivity.
Qed.

Lemma step_keeps_marks (e : CategoriesPage.Event)
  (p p' : CategoriesPage.Page) :
  CategoriesPage.step e p = Some p' ->
  marks_are_backed p -> marks_are_backed p'.
Proof.
  intros Hstep Hp.
  destruct e as [|cause outcome|value| |row|row confirmed|id outcome|n];
    cbn [CategoriesPage.step] in Hstep.
  - inversion Hstep; subst. apply marks_after_fetch. cbn.
    destruct (search_effect_keeps (CategoriesPage.state p))
      as (_ & _ & Hdel).
    rewrite Hdel. exact (proj1 Hp).
  - destruct (CategoriesPage.settle _ _) as [l|] eqn:Hsettle;
      [|discriminate].
    inversion Hstep; subst.
    assert (Hd : forall id,
               CategoriesPage.isDeleting (CategoriesPage.state p) = Some id ->
               In (CategoriesPage.deleteCategory_call id) l).
    { intros id Hid.
      apply (settle_keeps_others _ _ _ Hsettle); [|exact (proj1 Hp id Hid)].
      destruct cause; reflexivity. }
    unfold CategoriesPage.fetchCategories_settled.
    destruct outcome as [result|];
      [destruct (match snd result with
                 | Some e => string_truthy e
                 | None => false
                 end)|];
      (split; [|cbn; rewrite ?(proj1 (proj2 (search_effect_keeps _)));
                cbn; discriminate]);
      cbn; rewrite ?(proj2 (proj2 (search_effect_keeps _))); exact Hd.
  - inversion Hstep; subst.
    apply (marks_frame p); cbn;
      rewrite ?(proj1 (proj2 (search_effect_keeps _))),
        ?(proj2 (proj2 (search_effect_keeps _))); auto.
  - inversion Hstep; subst. apply (marks_frame p); cbn; auto.
  - destruct (CategoriesPage.shown _ _); [|discriminate].
    inversion Hstep; subst. apply (marks_frame p); cbn; auto.
  - destruct (CategoriesPage.shown _ _) as [c|]; [|discriminate].
    destruct (CategoriesPage.delete_disabled _ _); [discriminate|].
    destruct (string_truthy _); inversion Hstep; subst; [|exact Hp].
    unfold CategoriesPage.handleDelete.
    destruct confirmed; [|exact Hp]. split; cbn.
    + intros id Hid. inversion Hid; subst.
      apply in_or_app. right. left. reflexivity.
    + intros Hload. destruct (proj2 Hp Hload) as [cause Hc].
      exists cause. apply in_or_app. left. exact Hc.
  - destruct (CategoriesPage.settle _ _) as [l|] eqn:Hsettle;
      [|discriminate].
    inversion Hstep; subst.
    assert (Hl : CategoriesPage.isLoading (CategoriesPage.state p) = true ->
                 exists cause, In (CategoriesPage.getCategories_call cause) l).
    { intros Hload. destruct (proj2 Hp Hload) as [cause Hc].
      exists cause. apply (settle_keeps_others _ _ _ Hsettle); [|exact Hc].
      reflexivity. }
    unfold CategoriesPage.handleDelete_settled.
    destruct outcome as [result|];
      [destruct (match MutationResult.error result with
                 | Some e => string_truthy e
                 | None => false
                 end);
       [|destruct (MutationResult.success result)]|];
      (split; [cbn; discriminate|]); cbn; try exact Hl.
    intros _. exists CategoriesPage.on_delete.
    apply in_or_app. right. left. reflexivity.
  - destruct (CategoriesPage.isDialogOpen _); [|discriminate].
    destruct n as [o|c].
    + inversion Hstep; subst. apply (marks_frame p); cbn; auto.
    + destruct (_ || _); [discriminate|].
      inversion Hstep; subst. unfold CategoriesPage.handleSaveSuccess.
      apply (marks_frame (CategoriesPage.fetchCategories
                            CategoriesPage.on_save p)); cbn; auto.
      apply marks_after_fetch. exact (proj1 Hp).
Qed.

Lemma run_keeps_marks (events : list CategoriesPage.Event) :
  forall p p' : CategoriesPage.Page,
    CategoriesPage.run events p = Some p' ->
    marks_are_backed p -> marks_are_backed p'.
Proof.
  induction events as [|e events IH]; intros p p' Hrun Hp; cbn in Hrun.
  - inversion Hrun; subst. exact Hp.
  - destruct (CategoriesPage.step e p) as [q|] eqn:Hstep; [|discriminate].
    exact (IH q p' Hrun (step_keeps_marks _ _ _ Hstep Hp)).
Qed.

(** What one event does to the list of categories. *)
Lemma step_categories (e : CategoriesPage.Event)
  (p p' : CategoriesPage.Page) :
  CategoriesPage.step e p = Some p' ->
  CategoriesPage.categories (CategoriesPage.state p') =
  last_accepted [e] (CategoriesPage.categories (CategoriesPage.state p)).
Proof.
  intros Hstep.
  destruct e as [|cause outcome|value| |row|row confirmed|id outcome|n];
    cbn [CategoriesPage.step] in Hstep.
  - inversion Hstep; subst. cbn.
    apply (proj1 (search_effect_keeps _)).
  - destruct (CategoriesPage.settle _ _) as [l|]; [|discriminate].
    inversion Hstep; subst. unfold CategoriesPage.fetchCategories_settled.
    destruct outcome as [result|]; [|reflexivity].
    cbn [last_accepted]. unfold accepted.
    destruct (snd result) as [e|]; [destruct (string_truthy e)|];
      cbn; rewrite ?(proj1 (search_effect_keeps _)); reflexivity.
  - inversion Hstep; subst. cbn.
    rewrite (proj1 (search_effect_keeps _)). reflexivity.
  - inversion Hstep; subst. reflexivity.
  - destruct (CategoriesPage.shown _ _); [|discriminate].
    inversion Hstep; subst. reflexivity.
  - destruct (CategoriesPage.shown _ _) as [c|]; [|discriminate].
    destruct (CategoriesPage.delete_disabled _ _); [discriminate|].
    destruct (string_truthy _); inversion Hstep; subst; [|reflexivity].
    unfold CategoriesPage.handleDelete. destruct confirmed; reflexivity.
  - destruct (CategoriesPage.settle _ _) as [l|]; [|discriminate].
    inversion Hstep; subst. unfold CategoriesPage.handleDelete_settled.
    destruct outcome as [result|]; [|reflexivity].
    destruct (match MutationResult.error result with
              | Some e => string_truthy e
              | None => false
              end); [reflexivity|].
    destruct (MutationResult.success result); reflexivity.
  - destruct (CategoriesPage.isDialogOpen _); [|discriminate].
    destruct n as [o|c].
    + inversion Hstep; subst. reflexivity.
    + destruct (_ || _); [discriminate|].
      inversion Hstep; subst. reflexivity.
Qed.

Lemma last_accepted_cons (e : CategoriesPage.Event)
  (events : list CategoriesPage.Event)
  (loaded : list CategoriesPage.Category) :
  last_accepted (e :: events) loaded =
  last_accepted events (last_accepted [e] loaded).
Proof.
  destruct e as [|cause outcome|value| |row|row confirmed|id outcome|n];
    try reflexivity.
  destruct outcome; reflexivity.
Qed.

End PageRuns.

(** X14.  Along every run of the page from its mount the marks it shows
    stand for calls in flight: a row is marked as being deleted only while
    its [deleteCategory] is in flight, and the loading row is shown only
    while some [getCategories] is in flight. *)
Theorem marks_stand_for_calls_in_flight :
  forall (P : Platform) (events : list CategoriesPage.Event)
    (p : CategoriesPage.Page),
    CategoriesPage.run (CategoriesPage.mounted :: events)
      CategoriesPage.start = Some p ->
    (forall id,
        CategoriesPage.isDeleting (CategoriesPage.state p) = Some id ->
        In (CategoriesPage.deleteCategory_call id)
           (CategoriesPage.in_flight p)) /\
    (CategoriesPage.table_body (CategoriesPage.state p) =
       CategoriesPage.loading_row ->
     exists cause,
       In (CategoriesPage.getCategories_call cause)
          (CategoriesPage.in_flight p)).
Proof.
  intros P events p Hrun. cbn [CategoriesPage.run CategoriesPage.step] in Hrun.
  assert (Hmarks : marks_are_backed p).
  { apply (run_keeps_marks events _ _ Hrun).
    apply marks_after_fetch. cbn. discriminate. }
  destruct Hmarks as [Hd Hl]. split; [exact Hd|].
  intros Hbody. apply Hl. unfold CategoriesPage.table_body in Hbody.
  destruct (CategoriesPage.isLoading _); [reflexivity|].
  destruct (CategoriesPage.filteredCategories _); discriminate Hbody.
Qed.

Lemma marks_stand_for_calls_in_flight_witness :
  exists p,
    CategoriesPage.run (P := simple_platform)
      [ CategoriesPage.mounted;
        CategoriesPage.getCategories_settled CategoriesPage.on_mount
          (resolved ([food_category], None));
        CategoriesPage.delete_clicked 0 true ]
      CategoriesPage.start = Some p /\
    In (CategoriesPage.deleteCategory_call "c-food")
       (CategoriesPage.in_flight p).
Proof.
  eexists. split; [reflexivity|].
  refine (proj1 (marks_stand_for_calls_in_flight simple_platform
                   [ CategoriesPage.getCategories_settled
                       CategoriesPage.on_mount
                       (resolved ([food_category], None));
                     CategoriesPage.delete_clicked 0 true ] _ eq_refl)
            "c-food" eq_refl).
Defined.

(** X15.  The categories the page holds after a run are those of the
    last answer of [getCategories] it accepted, whichever call that answer
    belonged to: no other event changes them, so a deleted row stays
    listed until a later fetch is answered, and of two fetches in flight
    the one answered last wins. *)
Theorem categories_are_the_last_accepted_answer :
  forall (P : Platform) (events : list CategoriesPage.Event)
    (p p' : CategoriesPage.Page),
    CategoriesPage.run events p = Some p' ->
    CategoriesPage.categories (CategoriesPage.state p') =
    last_accepted events (CategoriesPage.categories (CategoriesPage.state p)).
Proof.
  intros P events. induction events as [|e events IH]; intros p p' Hrun;
    cbn [CategoriesPage.run] in Hrun.
  - inversion Hrun; subst. reflexivity.
  - destruct (CategoriesPage.step e p) as [q|] eqn:Hstep; [|discriminate].
    rewrite last_accepted_cons, <- (step_categories _ _ _ Hstep).
    exact (IH q p' Hrun).
Qed.

Lemma categories_are_the_last_accepted_answer_witness :
  exists p,
    CategoriesPage.run (P := simple_platform)
      [ CategoriesPage.mounted;
        CategoriesPage.add_clicked;
        CategoriesPage.dialog (CategoryDialog.onSave toys_typed);
        CategoriesPage.getCategories_settled CategoriesPage.on_save
          (resolved ([food_category; accessories_category], None));
        CategoriesPage.getCategories_settled CategoriesPage.on_mount
          (resolved ([food_category], None)) ]
      CategoriesPage.start = Some p /\
    CategoriesPage.categories (CategoriesPage.state p) = [food_category].
Proof.
  eexists. split; [reflexivity|].
  exact (categories_are_the_last_accepted_answer simple_platform
           [ CategoriesPage.mounted;
             CategoriesPage.add_clicked;
             CategoriesPage.dialog (CategoryDialog.onSave toys_typed);
             CategoriesPage.getCategories_settled CategoriesPage.on_save
               (resolved ([food_category; accessories_category], None));
             CategoriesPage.getCategories_settled CategoriesPage.on_mount
               (resolved ([food_category], None)) ]
           CategoriesPage.start _ eq_refl).
Defined.

(** ** The page and its dialog *)

(** X16.  Clicking the edit button of a row opens the dialog filled
    with the name of the row and its description, a null description
    shown as the empty text; clicking "Add Category" opens it empty,
    whatever category was edited before. *)
Theorem dialog_opens_filled :
  forall (P : Platform) (p : CategoriesPage.Page) (row : nat)
    (c : CategoriesPage.Category),
    CategoriesPage.shown row (CategoriesPage.state p) = Some c ->
    exists edited added,
      CategoriesPage.step (CategoriesPage.edit_clicked row) p = Some edited /\
      CategoriesPage.isDialogOpen (CategoriesPage.state edited) = true /\
      CategoryDialog.sync
        (CategoriesPage.dialog_props (CategoriesPage.state edited)) =
        {| CategoryDialog.id := None;
           CategoryDialog.name := CategoriesPage.name c;
           CategoryDialog.description :=
             Some (match CategoriesPage.description c with
                   | Some d => d
                   | None => ""
                   end) |} /\
      CategoriesPage.step CategoriesPage.add_clicked edited = Some added /\
      CategoriesPage.isDialogOpen (CategoriesPage.state added) = true /\
      CategoryDialog.sync
        (CategoriesPage.dialog_props (CategoriesPage.state added)) =
        CategoryDialog.initial.
Proof.
  intros P p row c Hshown. cbn [CategoriesPage.step]. rewrite Hshown.
  eexists. eexists. split; [reflexivity|]. split; [reflexivity|].
  split; [|repeat split].
  cbn. unfold CategoryDialog.sync. cbn.
  destruct (CategoriesPage.name c);
    destruct (CategoriesPage.description c) as [[|]|]; reflexivity.
Qed.

Lemma dialog_opens_filled_witness :
  CategoriesPage.shown 0 (CategoriesPage.state food_page)
    = Some food_category /\
  exists edited,
    CategoriesPage.step (P := simple_platform)
      (CategoriesPage.edit_clicked 0) food_page = Some edited /\
    CategoryDialog.sync
      (CategoriesPage.dialog_props (CategoriesPage.state edited)) =
      {| CategoryDialog.id := None;
         CategoryDialog.name := "Food";
         CategoryDialog.description :=
           Some "Pet food and nutrition products" |}.
Proof.
  split; [reflexivity|].
  destruct (dialog_opens_filled simple_platform food_page 0 food_category
              eq_refl) as (edited & _ & Hstep & _ & Hsync & _).
  exists edited. split; [exact Hstep|exact Hsync].
Defined.

(** X17.  Submitting the category dialog has the same effect whatever
    was typed: the page starts a fetch of the categories, closes the
    dialog and forgets the category being edited; its list of categories
    is unchanged and no other call is made. *)
Theorem saving_ignores_what_was_typed :
  forall (P : Platform) (p : CategoriesPage.Page)
    (typed other : CategoryDialog.Category),
    CategoriesPage.isDialogOpen (CategoriesPage.state p) = true ->
    CategoryDialog.name typed <> "" ->
    CategoryDialog.name other <> "" ->
    exists p',
      CategoriesPage.step (CategoriesPage.dialog (CategoryDialog.onSave typed))
        p = Some p' /\
      CategoriesPage.step (CategoriesPage.dialog (CategoryDialog.onSave other))
        p = Some p' /\
      CategoriesPage.in_flight p' =
        CategoriesPage.in_flight p ++
        [CategoriesPage.getCategories_call CategoriesPage.on_save] /\
      CategoriesPage.categories (CategoriesPage.state p') =
        CategoriesPage.categories (CategoriesPage.state p) /\
      CategoriesPage.isDialogOpen (CategoriesPage.state p') = false /\
      CategoriesPage.currentCategory (CategoriesPage.state p') = None.
Proof.
  intros P p typed other Hopen Htyped Hother.
  cbn [CategoriesPage.step]. rewrite Hopen.
  apply string_truthy_spec in Htyped, Hother.
  rewrite Htyped, Hother. cbn.
  eexists. repeat split.
Qed.

Lemma saving_ignores_what_was_typed_witness :
  let opened :=
    CategoriesPage.update (CategoriesPage.setIsDialogOpen true)
      (CategoriesPage.update (CategoriesPage.setCurrentCategory None)
         food_page) in
  CategoriesPage.step (P := simple_platform) CategoriesPage.add_clicked
    food_page = Some opened /\
  CategoriesPage.isDialogOpen (CategoriesPage.state opened) = true /\
  CategoryDialog.name toys_typed <> "" /\
  exists p',
    CategoriesPage.step (P := simple_platform)
      (CategoriesPage.dialog (CategoryDialog.onSave toys_typed)) opened
      = Some p' /\
    CategoriesPage.categories (CategoriesPage.state p') = [food_category].
Proof.
  cbv zeta. split; [reflexivity|]. split; [reflexivity|].
  split; [discriminate|].
  destruct (saving_ignores_what_was_typed simple_platform
              (CategoriesPage.update (CategoriesPage.setIsDialogOpen true)
                 (CategoriesPage.update
                    (CategoriesPage.setCurrentCategory None) food_page))
              toys_typed toys_typed eq_refl)
    as (p' & Hstep & _ & _ & Hlist & _);
    [discriminate|discriminate|].
  exists p'. split; [exact Hstep|exact Hlist].
Defined.

(** ** The category dialog *)

(** X18.  The textarea of the category dialog shows what was typed
    although the state holds null for the empty text: the value shown
    after a change is the text of the change, the description held is
    null exactly when that text is empty, and a change of one field
    leaves the other as it was. *)
Theorem dialog_shows_what_was_typed :
  forall (value : string) (formData : CategoryDialog.State),
    CategoryDialog.description_value
      (CategoryDialog.change_description value formData) = value /\
    (CategoryDialog.description
       (CategoryDialog.change_description value formData) = None <->
     value = "") /\
    CategoryDialog.name (CategoryDialog.change_description value formData) =
      CategoryDialog.name formData /\
    CategoryDialog.name (CategoryDialog.change_name value formData) = value /\
    CategoryDialog.description (CategoryDialog.change_name value formData) =
      CategoryDialog.description formData.
Proof.
  intros value formData.
  split; [destruct value; reflexivity|].
  split; [|repeat split].
  destruct value; cbn; split; congruence.
Qed.

(** ** The product dialog *)

(** X19.  However the call of the product dialog settles, the dialog
    stops loading and keeps its categories; it asks to be closed exactly
    when the action resolved with success; and when it stays open the
    error it shows is not empty: the message of the action, "An error
    occurred" when that is empty or null, or "An unexpected error
    occurred" when the call was rejected. *)
Theorem product_dialog_after_the_call :
  forall (outcome : Settled MutationResult.t) (s : ProductDialog.State),
    let s' := fst (ProductDialog.settled outcome s) in
    let closes := snd (ProductDialog.settled outcome s) in
    ProductDialog.loading s' = false /\
    ProductDialog.submit_disabled s' = false /\
    ProductDialog.categories s' = ProductDialog.categories s /\
    ProductDialog.isLoadingCategories s' =
      ProductDialog.isLoadingCategories s /\
    closes =
      match outcome with
      | resolved result => MutationResult.success result
      | rejected => false
      end /\
    (closes = true \/ ProductDialog.error s' <> "").
Proof.
  intros outcome s. cbv zeta. unfold ProductDialog.settled.
  destruct outcome as [result|].
  - destruct (MutationResult.success result); cbn.
    + repeat split. left. reflexivity.
    + repeat split. right.
      destruct (MutationResult.error result) as [[|a e]|]; cbn;
        discriminate.
  - cbn. repeat split. right. discriminate.
Qed.

Section ProductDialogOnSchema.
Context {P : Platform}.

Lemma createProduct_refused (formData : FormData) (w : World Server) :
  createProduct formData w =
  (failed (column_not_found "category" "products"),
   {| backend := after (backend w) (db (backend w)) 1;
      effects := effects w |}).
Proof.
  unfold createProduct, bind. rewrite query_runs. unfold answer.
  cbn [await Server_client serve String.eqb Ascii.eqb Bool.eqb].
  unfold insert_into_products. rewrite product_values_refused.
  reflexivity.
Qed.

Lemma updateProduct_refused (id : string) (formData : FormData)
  (w : World Server) :
  updateProduct id formData w =
  (failed (column_not_found "category" "products"),
   {| backend := after (backend w) (db (backend w)) 0;
      effects := effects w |}).
Proof.
  unfold updateProduct, bind. rewrite query_runs. unfold answer.
  cbn [await Server_client serve String.eqb Ascii.eqb Bool.eqb negb].
  unfold update_products. rewrite product_values_refused.
  reflexivity.
Qed.

End ProductDialogOnSchema.

(** X20.  A submission of the product dialog against the schema, in
    either mode and whatever the fields hold: the dialog is not closed, it
    stops loading and shows the message of PostgREST about the [category]
    column; no table is changed and no path is revalidated. *)
Theorem product_dialog_never_saves :
  forall (P : Platform) (mode : ProductDialog.Mode) (product : string)
    (fields : ProductDialog.Fields) (s : ProductDialog.State)
    (w : World Server),
    let after_call := submit_product mode product fields s w in
    fst after_call =
      ({| ProductDialog.loading := false;
          ProductDialog.error :=
            "Could not find the category column of products in the schema cache";
          ProductDialog.categories := ProductDialog.categories s;
          ProductDialog.isLoadingCategories :=
            ProductDialog.isLoadingCategories s |}, false) /\
    db (backend (snd after_call)) = db (backend w) /\
    effects (snd after_call) = effects w.
Proof.
  intros P mode product fields s w. cbv zeta.
  unfold submit_product, ProductDialog.handleSubmit, perform.
  destruct mode.
  - rewrite createProduct_refused. repeat split.
  - rewrite updateProduct_refused. repeat split.
Qed.

(** ** The sample data and the constraints *)

Lemma do_nothing_consistent (s : Server) (rows : list (string * string)) :
  forall (k : nat) (d d' : Db),
    each_row (fun k v => insert_category_do_nothing (proposed_category s k v))
      k rows d = Done d' ->
    consistent d -> consistent d'.
Proof.
  induction rows as [|v rows IH]; intros k d d' Hrun Hd; cbn in Hrun.
  - inversion Hrun; subst. exact Hd.
  - destruct (insert_category_do_nothing _ d) as [d1|e] eqn:Hrow;
      [|discriminate].
    apply (IH _ _ _ Hrun). unfold insert_category_do_nothing in Hrow.
    destruct (existsb _ (categories d)).
    + inversion Hrow; subst. exact Hd.
    + exact (insert_category_consistent _ _ _ Hrow Hd).
Qed.

Lemma conflict_update_checked (now : timestamptz) (d : Db)
  (r : Products.row) (others : list Products.row) (old r' : Products.row) :
  conflict_update now d r others old = inr r' ->
  product_violation d others r' = None /\
  Products.id r' = Products.id old.
Proof.
  unfold conflict_update.
  destruct (product_violation d others _) eqn:Hok; [discriminate|].
  intros Hnew. inversion Hnew; subst. split; [exact Hok|reflexivity].
Qed.

Lemma upsert_product_consistent (now : timestamptz) (r : Products.row)
  (d d' : Db) :
  upsert_product now r d = Done d' -> consistent d -> consistent d'.
Proof.
  unfold upsert_product.
  destruct (existsb _ (products d));
    [|intros Hdone Hd; exact (insert_product_consistent _ _ _ Hdone Hd)].
  destruct (update_where _ _ _ _) as [e|l] eqn:Hrun; [discriminate|].
  intros Hdone [Hcid Hcname Hpid Hpsku Hcheck Hfk Hitems].
  inversion Hdone; subst.
  constructor; cbn [categories products order_items with_products];
    try assumption.
  - refine (update_where_NoDup _ _ _ Products.id _ _ _ _ Hrun Hpid).
    intros others old r' Hnew.
    apply conflict_update_checked in Hnew as [Hok _].
    apply product_violation_none in Hok. tauto.
  - refine (update_where_NoDup _ _ _ Products.sku _ _ _ _ Hrun Hpsku).
    intros others old r' Hnew.
    apply conflict_update_checked in Hnew as [Hok _].
    apply product_violation_none in Hok. tauto.
  - refine (update_where_Forall _ _ _ _ _ _ _ Hrun _ _).
    + intros others old r' _ Hnew.
      apply conflict_update_checked in Hnew as [Hok _].
      apply product_violation_none in Hok. tauto.
    + constructor.
    + revert Hcheck. apply Forall_impl. auto.
  - refine (update_where_Forall _ _ _ _ _ _ _ Hrun _ _).
    + intros others old r' _ Hnew.
      apply conflict_update_checked in Hnew as [Hok _].
      apply product_violation_none in Hok. tauto.
    + constructor.
    + revert Hfk. apply Forall_impl. auto.
  - revert Hitems. apply references_follow. intros o x Ho Hx Hin.
    refine (update_where_key_kept _ _ _ Products.id x _ _ _ _ Hrun Hin).
    intros others old r' Hold Hnew.
    apply conflict_update_checked in Hnew as [_ Hid]. congruence.
Qed.

Lemma upsert_products_consistent (s : Server) (rows : list ProductValues) :
  forall (k : nat) (seen : list string) (d d' : Db),
    upsert_products s k seen rows d = Done d' ->
    consistent d -> consistent d'.
Proof.
  induction rows as [|v rows IH]; intros k seen d d' Hrun Hd; cbn in Hrun.
  - inversion Hrun; subst. exact Hd.
  - destruct (existsb _ seen); [discriminate|].
    destruct (upsert_product _ _ d) as [d1|e] eqn:Hrow; [|discriminate].
    exact (IH _ _ _ _ Hrun (upsert_product_consistent _ _ _ _ Hrow Hd)).
Qed.

(** X21.  The two [ON CONFLICT] statements of the sample data keep the
    constraints: when the tables satisfy the primary keys, unique keys,
    checks and foreign keys and one of the statements succeeds, the
    tables it leaves satisfy them too. *)
Theorem sample_data_keeps_the_constraints :
  forall (s : Server) (d : Db),
    consistent (db s) ->
    seed_categories s = Done d \/ seed_products s = Done d ->
    consistent d.
Proof.
  intros s d Hs [Hrun|Hrun].
  - exact (do_nothing_consistent _ _ _ _ _ Hrun Hs).
  - exact (upsert_products_consistent _ _ _ _ _ _ Hrun Hs).
Qed.

Lemma sample_data_keeps_the_constraints_witness :
  consistent (db busy_server) /\
  exists d, seed_products busy_server = Done d /\ consistent d.
Proof.
  split; [exact busy_shop_consistent|].
  destruct (seed_products busy_server) as [d|e] eqn:Hrun;
    [|vm_compute in Hrun; discriminate Hrun].
  exists d. split; [reflexivity|].
  exact (sample_data_keeps_the_constraints busy_server d
           busy_shop_consistent (or_intror Hrun)).
Defined.

(** ** Reading after a deletion, and creating twice *)

Section AfterDeletion.
Context {P : Platform}.

Lemma getProducts_on_the_schema (w : World Server) :
  ProductsResult.products (fst (getProducts w)) =
  map (fun r => with_category_name (product_json (db (backend w)) r))
    (order_by (by_created_at false) (products (db (backend w)))).
Proof.
  unfold getProducts, bind. rewrite query_runs. cbn. apply map_map.
Qed.

Lemma listed_product_category_id (d : Db) (r : Products.row) :
  js_get "category_id" (with_category_name (product_json d r)) =
  Some (nullable (Products.category_id r)).
Proof.
  unfold with_category_name.
  rewrite js_get_set_other by discriminate.
  assert (Hid : js_get "category_id" (product_json d r) =
                Some (nullable (Products.category_id r))) by reflexivity.
  rewrite Hid, (js_set_same _ _ _ Hid). exact Hid.
Qed.

End AfterDeletion.

(** X22.  After a category that exists has been deleted, no row of
    [getCategories] has its id and no row of [getProducts] has it as
    [category_id]. *)
Theorem deleted_category_is_not_listed :
  forall (P : Platform) (w : World Server) (category : Categories.row),
    In category (categories (db (backend w))) ->
    let id := Categories.id category in
    let w' := snd (deleteCategory id w) in
    Forall (fun row => js_get "id" row <> Some (JStr id))
      (CategoriesResult.categories (fst (getCategories w'))) /\
    Forall (fun row => js_get "category_id" row <> Some (JStr id))
      (ProductsResult.products (fst (getProducts w'))).
Proof.
  intros P w category Hcategory. cbv zeta.
  rewrite getCategories_on_the_schema, getProducts_on_the_schema.
  cbn [CategoriesResult.categories].
  unfold deleteCategory. rewrite !plain_mutation_backend.
  rewrite delete_category_request, !reply_db. unfold delete_category.
  assert (Hexists :
            existsb (fun c => String.eqb (Categories.id c)
                                (Categories.id category))
              (categories (db (backend w))) = true).
  { apply existsb_exists. exists category. split; [exact Hcategory|].
    apply String.eqb_refl. }
  rewrite Hexists. cbn [categories products with_products with_categories].
  split; apply Forall_forall; intros row Hrow;
    apply in_map_iff in Hrow as [r [Hrow Hr]]; subst row;
    apply (Permutation_in _ (order_by_permutation _ _ _)) in Hr.
  - apply filter_In in Hr as [_ Hr]. apply negb_true_iff in Hr.
    apply String.eqb_neq in Hr.
    change (js_get "id" (category_json r)) with (Some (JStr (Categories.id r))).
    congruence.
  - rewrite listed_product_category_id.
    apply in_map_iff in Hr as [old [Hr _]]. subst r.
    unfold category_deleted.
    destruct (Products.category_id old) as [c|] eqn:Hc; cbn [option_eqb].
    + destruct (String.eqb c (Categories.id category)) eqn:Hsame.
      * cbn. discriminate.
      * rewrite Hc. cbn. apply String.eqb_neq in Hsame. congruence.
    + rewrite Hc. cbn. discriminate.
Qed.

Lemma deleted_category_is_not_listed_witness :
  In food (categories (db (backend shop_world))) /\
  Forall (fun row => js_get (P := simple_platform) "category_id" row
                     <> Some (JStr "c-food"))
    (ProductsResult.products
       (fst (getProducts (P := simple_platform)
               (snd (deleteCategory (P := simple_platform) "c-food"
                       shop_world))))).
Proof.
  split; [left; reflexivity|].
  exact (proj2 (deleted_category_is_not_listed simple_platform shop_world
                  food (or_introl eq_refl))).
Defined.

Lemma createCategory_succeeded {P : Platform} (formData : FormData)
  (w : World Server) :
  fst (createCategory formData w) = succeeded ->
  exists n r,
    FormData_get "name" formData = Some n /\
    Categories.name r = n /\
    db (backend (snd (createCategory formData w))) =
      with_categories (categories (db (backend w)) ++ [r]) (db (backend w)).
Proof.
  unfold createCategory.
  rewrite plain_mutation_result, plain_mutation_backend. unfold answer.
  rewrite insert_category_request by reflexivity.
  rewrite reply_error, reply_db, createCategory_statement.
  destruct (FormData_get "name" formData) as [n|]; [|discriminate].
  unfold insert_category.
  destruct (category_violation _ _); [discriminate|].
  intros _. exists n. eexists. split; [reflexivity|].
  split; cycle 1; reflexivity.
Qed.

(** X23.  Submitting a category twice: once [createCategory] has
    succeeded, a second [createCategory] with the same name fails,
    whatever else its form holds, and leaves the tables as the first left
    them. *)
Theorem creating_a_category_twice :
  forall (P : Platform) (w : World Server) (formData again : FormData),
    fst (createCategory formData w) = succeeded ->
    FormData_get "name" again = FormData_get "name" formData ->
    let w' := snd (createCategory formData w) in
    (exists m,
        fst (createCategory again w') =
          {| MutationResult.success := false;
             MutationResult.error := Some m |}) /\
    db (backend (snd (createCategory again w'))) = db (backend w').
Proof.
  intros P w formData again Hfirst Hname. cbv zeta.
  destruct (createCategory_succeeded _ _ Hfirst) as (n & r & Hn & Hr & Hdb).
  set (w' := snd (createCategory formData w)) in *.
  assert (Htaken : existsb (fun o => String.eqb (Categories.name o) n)
                     (categories (db (backend w'))) = true).
  { apply (key_present Categories.name). rewrite Hdb.
    cbn [categories with_categories]. rewrite map_app.
    apply in_or_app. right. left. exact Hr. }
  rewrite Hn in Hname.
  destruct (createCategory_duplicate_name again n (backend w') Hname Htaken)
    as [e He].
  unfold createCategory at 1 2.
  rewrite plain_mutation_result, plain_mutation_backend. unfold answer.
  rewrite insert_category_request by reflexivity.
  rewrite reply_error, reply_db, He.
  split; [eexists; reflexivity|reflexivity].
Qed.

Lemma creating_a_category_twice_witness :
  fst (createCategory (P := simple_platform)
         [("name", "Toys"); ("description", "")] shop_world) = succeeded /\
  exists m,
    fst (createCategory (P := simple_platform)
           [("name", "Toys"); ("description", "Squeaky")]
           (snd (createCategory (P := simple_platform)
                   [("name", "Toys"); ("description", "")] shop_world))) =
      {| MutationResult.success := false; MutationResult.error := Some m |}.
Proof.
  split; [reflexivity|].
  exact (proj1 (creating_a_category_twice simple_platform shop_world
                  [("name", "Toys"); ("description", "")]
                  [("name", "Toys"); ("description", "Squeaky")]
                  eq_refl eq_refl)).
Defined.
